(** * Libros de IVA: ledger cleaning and yearly-workbook merge

    A shallow embedding of [Utils/excel_processor.py], [Utils/drive_handler.py],
    [cuit_mapper.py] and the handlers of [fastapi_app.py], with the
    properties of the ledger consolidation engine proved about it.

    Conventions of the embedding.
    - What the code leaves to pandas, numpy and Python is a parameter of the
      development ([Library]): the order in which a sum of floats adds its
      terms, the order in which [value_counts] lists values of equal count,
      [str.lower()] beyond the letters A to Z, and the text of the
      exceptions that the libraries raise.  The statements hold for every
      library; the examples run on one of them ([left_to_right]).
    - Text is [string]: the bytes of the UTF-8 encoding, whose order is the
      order of the code points.  Where the code looks for a word of ASCII
      letters in a lowered text, or compares a lowered text with one,
      lowering the letters A to Z decides as [str.lower()] does, since no
      other character is lowered to such a word; where it compares two
      lowered texts or sorts by them, the lowering is the library's.  The
      credit-note pattern is matched as [re.IGNORECASE] matches it: the
      accented e in both cases, and for the letter i also the dotted capital
      and the dotless small one.  The classes [\d], [\s], [\w] and the
      case folding of the other patterns, and [str.capitalize()], are those
      of the ASCII range.
    - [int64] cells are integers with the wrap-around of 64-bit arithmetic
      written out ([wrap64]); [float64] cells are binary64 numbers of IEEE
      754 or NaN ([None]), and their products are rounded as the processor
      rounds them.  A product with an exchange rate of [object] dtype, which
      pandas computes cell by cell, is a [TypeError] here: what is said of a
      cleaned table is said of tables whose exchange rate is a column of
      numbers.
    - A [DataFrame] is column-major, every column carrying its dtype, as
      [pd.read_excel] delivers it: labels are unique and every column has
      one cell per index entry ([wf_frame]).
    - Python objects that the code mutates in place (data frames) live in an
      explicit heap; [self.df.copy()] allocates a new object.
    - A workbook is the list of its sheets, a sheet its title and cells;
      [create_sheet] gives titles by the rules of openpyxl.  The local
      temporary files of the handler are values passed along.
    - The remote store is the list of its entries, each with an id, a name, a
      MIME type, at most one parent, the trashed flag and its content;
      [files().list] answers in the order of the list.  A query is modelled
      by what it asks for; the code writes names between the quotes of the
      query as they are, so the statements about new clients, new workbooks
      and the sheets of a merged workbook are made for names without quote
      or backslash ([query_safe]).  The order of a listing with
      [orderBy='name'] is left open: any rearrangement of the entries.
    - A [dict] is the list of its items in insertion order, every key once;
      [cuit_mapping.json] is the [dict] that [json.load] reads from it, and
      is absent before the first save.
    - The handlers of [fastapi_app.py] are functions of the uploaded file
      and the form fields on the state they share: the frames built, the
      store behind the Drive handler and the mapper.  Authentication, the
      temporary files and what is printed are left out. *)

From Stdlib Require Import ZArith Lia List String Ascii Bool DecimalString.
From Stdlib Require Import Sorting.Sorted Sorting.Permutation DecimalPos DecimalZ.
From Stdlib Require Uint63.
From Stdlib Require Import PrimFloat.
From stdpp Require Import base option list strings.

Open Scope string_scope.
Open Scope Z_scope.

(** ** Text *)

Module Text.

Definition code (c : ascii) : nat := nat_of_ascii c.

Definition between (lo hi : nat) (c : ascii) : bool :=
  (lo <=? code c)%nat && (code c <=? hi)%nat.

Definition is_upper : ascii -> bool := between 65 90.
Definition is_lower : ascii -> bool := between 97 122.
Definition is_digit : ascii -> bool := between 48 57.

(** [\s]: space, tab, line feed, vertical tab, form feed, carriage return. *)
Definition is_space (c : ascii) : bool :=
  (code c =? 32)%nat || between 9 13 c.

(** [\w]: letters, digits and the underscore. *)
Definition is_word (c : ascii) : bool :=
  is_upper c || is_lower c || is_digit c || (code c =? 95)%nat.

Definition lower_char (c : ascii) : ascii :=
  if is_upper c then ascii_of_nat (code c + 32) else c.

Definition upper_char (c : ascii) : ascii :=
  if is_lower c then ascii_of_nat (code c - 32) else c.

(** [str.lower()] *)
Fixpoint lower (s : string) : string :=
  match s with
  | EmptyString => EmptyString
  | String c s' => String (lower_char c) (lower s')
  end.

(** [str.capitalize()] *)
Definition capitalize (s : string) : string :=
  match s with
  | EmptyString => EmptyString
  | String c s' => String (upper_char c) (lower s')
  end.

Fixpoint starts_with (p s : string) : bool :=
  match p, s with
  | EmptyString, _ => true
  | String a p', String b s' => Ascii.eqb a b && starts_with p' s'
  | String _ _, EmptyString => false
  end.

(** [p in s] *)
Fixpoint contains (p s : string) : bool :=
  starts_with p s ||
  match s with
  | EmptyString => false
  | String _ s' => contains p s'
  end.

(** [s] minus the prefix [p], compared after case folding. *)
Fixpoint strip_prefix_ci (p s : string) : option string :=
  match p, s with
  | EmptyString, _ => Some s
  | String a p', String b s' =>
      if Ascii.eqb (lower_char a) (lower_char b) then strip_prefix_ci p' s' else None
  | String _ _, EmptyString => None
  end.

Definition nl : string := String (ascii_of_nat 10) EmptyString.

Definition str_of_Z (z : Z) : string := NilZero.string_of_int (Z.to_int z).

(** Two decimal digits, zero padded (used for [%d] and [%m]). *)
Definition digit_char (n : Z) : ascii := ascii_of_nat (48 + Z.to_nat (n mod 10)).
Definition two_digits (n : Z) : string :=
  String (digit_char (n / 10)) (String (digit_char n) EmptyString).
Definition four_digits (n : Z) : string :=
  two_digits (n / 100) +:+ two_digits (n mod 100).

Definition digit_val (c : ascii) : Z := Z.of_nat (code c - 48).

End Text.

(** ** Python values, exceptions *)

Record date := mkdate { year : Z; month : Z; day : Z }.

(** A [float64]: binary64 of IEEE 754, with the sum, the product, the
    negation and the comparisons of the processor. *)
Definition float64 : Set := PrimFloat.float.

(** A cell of an [object] column. *)
Inductive pyobj :=
| ONaN
| ONaT
| OInt (z : Z)
| OFloat (x : float64)
| OBool (b : bool)
| OStr (s : string)
| ODate (d : date).

Inductive exn :=
| ValueError (msg : string)
| KeyError (key : string)
| TypeError
| AttributeError
| IndexError
| Exception (msg : string)
| HttpError
| HTTPException (status_code : Z) (detail : string).

Inductive result (A : Type) :=
| Ok (a : A)
| Raise (e : exn).
Arguments Ok {A} a.
Arguments Raise {A} e.

Definition result_bind {A B} (r : result A) (k : A -> result B) : result B :=
  match r with
  | Ok a => k a
  | Raise e => Raise e
  end.

Definition of_option {A} (o : option A) (e : exn) : result A :=
  match o with
  | Some a => Ok a
  | None => Raise e
  end.

(** ** 64-bit integers and floats *)

Definition wrap64 (z : Z) : Z := (z + 2 ^ 63) mod 2 ^ 64 - 2 ^ 63.

Definition b2z (b : bool) : Z := if b then 1 else 0.

(** [x > 0], [x == 0] (true of both zeros) and [-x] *)
Definition fgt0 (x : float64) : bool := (0 <? x)%float.
Definition feq0 (x : float64) : bool := (x =? 0)%float.
Definition fneg (x : float64) : float64 := (- x)%float.

(** A [float64] as a cell: [None] is NaN. *)
Definition cell64 (x : float64) : option float64 :=
  if PrimFloat.is_nan x then None else Some x.

(** Product of two [float64] cells, rounded to the nearest; a NaN factor
    gives NaN, and so does infinity by zero. *)
Definition fmul (a b : option float64) : option float64 :=
  match a, b with
  | Some x, Some y => cell64 (x * y)%float
  | _, _ => None
  end.

(** The [float64] nearest to an [int64] (ties to even), as a cast gives it. *)
Definition of_int64 (z : Z) : float64 :=
  let z := wrap64 z in
  if z =? - 2 ^ 63 then (-9223372036854775808)%float
  else if z <? 0 then (- PrimFloat.of_uint63 (Uint63.of_Z (- z)))%float
  else PrimFloat.of_uint63 (Uint63.of_Z z).

(** ** What the libraries decide

    The code leaves these to pandas, numpy and Python; the development is
    made for every choice of them. *)
Class Library := {
  (** [numpy]'s sum of [float64] cells, none of them NaN: the order in which
      it adds them, and so the rounding, is the library's *)
  np_sum : list float64 -> float64;
  (** the order in which [value_counts] lists the values it has counted,
      given in the order of their first appearance: by decreasing count,
      values of equal count as the sort of the library leaves them *)
  order_counts : list (Z * nat) -> list (Z * nat);
  (** [str.lower()] *)
  str_lower : string -> string;
  (** [str(e)] for an exception that a library raises *)
  lib_text : exn -> string;
  (** what every version of the sort does *)
  order_counts_perm : forall l, Permutation (order_counts l) l;
  order_counts_sorted :
    forall l, Sorted (fun a b => (snd b <= snd a)%nat) (order_counts l)
}.

(** ** The fragment of pandas the processor uses *)

Module Pandas.
Section WithLibrary.
Context {lib : Library}.

(** A column with its dtype. *)
Inductive series :=
| SInt (xs : list Z)                    (* int64 *)
| SFloat (xs : list (option float64))   (* float64, [None] is NaN *)
| SBool (xs : list bool)                (* bool *)
| SDatetime (xs : list (option date))   (* datetime64[ns], [None] is NaT *)
| SObject (xs : list pyobj).            (* object *)

Definition series_len (s : series) : nat :=
  match s with
  | SInt xs => length xs
  | SFloat xs => length xs
  | SBool xs => length xs
  | SDatetime xs => length xs
  | SObject xs => length xs
  end.

Record DataFrame := mkframe {
  nrows : nat;                          (* len(df) *)
  columns : list (string * series)
}.

Definition labels (df : DataFrame) : list string := map fst (columns df).

Definition wf_frame (df : DataFrame) : Prop :=
  NoDup (labels df) /\
  Forall (fun c => series_len (snd c) = nrows df) (columns df).

Fixpoint index_of (name : string) (ls : list string) : option nat :=
  match ls with
  | [] => None
  | l :: ls' =>
      if String.eqb l name then Some 0%nat
      else option_map S (index_of name ls')
  end.

(** [df.columns.get_loc(name)] *)
Definition get_loc (name : string) (df : DataFrame) : result nat :=
  of_option (index_of name (labels df)) (KeyError name).

Fixpoint assoc (name : string) (cs : list (string * series)) : option series :=
  match cs with
  | [] => None
  | (l, s) :: cs' => if String.eqb l name then Some s else assoc name cs'
  end.

(** [df[name]] *)
Definition getitem (name : string) (df : DataFrame) : result series :=
  of_option (assoc name (columns df)) (KeyError name).

Fixpoint assoc_set (name : string) (s : series) (cs : list (string * series))
  : list (string * series) :=
  match cs with
  | [] => [(name, s)]
  | (l, x) :: cs' =>
      if String.eqb l name then (l, s) :: cs' else (l, x) :: assoc_set name s cs'
  end.

(** [df[name] = s] *)
Definition setitem (name : string) (s : series) (df : DataFrame) : DataFrame :=
  mkframe (nrows df) (assoc_set name s (columns df)).

Definition mem (name : string) (ls : list string) : bool :=
  existsb (String.eqb name) ls.

(** [df.drop(columns=names)] *)
Definition drop_columns (names : list string) (df : DataFrame) : DataFrame :=
  mkframe (nrows df)
          (List.filter (fun c => negb (mem (fst c) names)) (columns df)).

Definition obj_isna (o : pyobj) : bool :=
  match o with
  | ONaN | ONaT => true
  | _ => false
  end.

(** Python's [o == 0] *)
Definition obj_eq0 (o : pyobj) : bool :=
  match o with
  | OInt z => z =? 0
  | OFloat q => feq0 q
  | OBool b => negb b
  | _ => false
  end.

(** [s.isna().all()] *)
Definition isna_all (s : series) : bool :=
  match s with
  | SInt xs => forallb (fun _ => false) xs
  | SFloat xs => forallb (fun x => match x with None => true | Some _ => false end) xs
  | SBool xs => forallb (fun _ => false) xs
  | SDatetime xs => forallb (fun x => match x with None => true | Some _ => false end) xs
  | SObject xs => forallb obj_isna xs
  end.

(** [(s == 0).all()] *)
Definition eq0_all (s : series) : bool :=
  match s with
  | SInt xs => forallb (fun x => x =? 0) xs
  | SFloat xs => forallb (fun x => match x with Some q => feq0 q | None => false end) xs
  | SBool xs => forallb negb xs
  | SDatetime xs => forallb (fun _ => false) xs
  | SObject xs => forallb obj_eq0 xs
  end.

(** dtype in [['float64', 'int64']] *)
Definition is_numeric (s : series) : bool :=
  match s with
  | SInt _ | SFloat _ => true
  | _ => false
  end.

Definition is_object (s : series) : bool :=
  match s with
  | SObject _ => true
  | _ => false
  end.

(** [a * b] on aligned columns, for a numeric [a]. *)
Definition series_mul (a b : series) : result series :=
  match a, b with
  | SInt xs, SInt ys => Ok (SInt (zip_with (fun x y => wrap64 (x * y)) xs ys))
  | SInt xs, SBool ys => Ok (SInt (zip_with (fun x y => wrap64 (x * b2z y)) xs ys))
  | SInt xs, SFloat ys =>
      Ok (SFloat (zip_with (fun x y => fmul (Some (of_int64 x)) y) xs ys))
  | SFloat xs, SInt ys =>
      Ok (SFloat (zip_with (fun x y => fmul x (Some (of_int64 y))) xs ys))
  | SFloat xs, SBool ys =>
      Ok (SFloat (zip_with (fun x y => fmul x (Some (of_int64 (b2z y)))) xs ys))
  | SFloat xs, SFloat ys => Ok (SFloat (zip_with fmul xs ys))
  | _, _ => Raise TypeError
  end.

(** [s > 0] *)
Definition series_gt0 (s : series) : result (list bool) :=
  match s with
  | SInt xs => Ok (map (fun x => 0 <? x) xs)
  | SFloat xs => Ok (map (fun x => match x with Some q => fgt0 q | None => false end) xs)
  | SBool xs => Ok xs
  | _ => Raise TypeError
  end.

(** [s.loc[mask] = -s.loc[mask]] *)
Definition negate_where (mask : list bool) (s : series) : result series :=
  match s with
  | SInt xs => Ok (SInt (zip_with (fun (m : bool) x => if m then wrap64 (- x) else x) mask xs))
  | SFloat xs =>
      Ok (SFloat (zip_with (fun (m : bool) x => if m then option_map fneg x else x) mask xs))
  | _ => Raise TypeError
  end.

(** A [float64] as an object: NaN or a number. *)
Definition obj_of_float (x : float64) : pyobj :=
  match cell64 x with
  | Some q => OFloat q
  | None => ONaN
  end.

(** [s.sum()]: [int64] sums wrap; in a [float64] column a NaN cell counts
    as zero, and the cells are added as numpy adds them. *)
Definition series_sum (s : series) : result pyobj :=
  match s with
  | SInt xs => Ok (OInt (wrap64 (fold_left Z.add xs 0)))
  | SFloat xs =>
      Ok (obj_of_float
            (np_sum (map (fun x => match x with Some q => q | None => 0%float end) xs)))
  | SBool xs => Ok (OInt (fold_left (fun acc b => acc + b2z b) xs 0))
  | _ => Raise TypeError
  end.

(** The cells of a column as Python objects. *)
Definition to_object (s : series) : list pyobj :=
  match s with
  | SInt xs => map OInt xs
  | SFloat xs => map (fun x => match x with Some q => OFloat q | None => ONaN end) xs
  | SBool xs => map OBool xs
  | SDatetime xs => map (fun x => match x with Some d => ODate d | None => ONaT end) xs
  | SObject xs => xs
  end.

(** One column of [pd.concat([df, pd.DataFrame([row])], ignore_index=True)]:
    the dtype is kept when the new cell has it, and is [object] otherwise. *)
Definition append_cell (s : series) (v : pyobj) : series :=
  match s, v with
  | SInt xs, OInt z => SInt (xs ++ [z])
  | SInt xs, OFloat q => SFloat (map (fun x => Some (of_int64 x)) xs ++ [Some q])
  | SFloat xs, OFloat q => SFloat (xs ++ [Some q])
  | SFloat xs, OInt z => SFloat (xs ++ [Some (of_int64 z)])
  | SFloat xs, ONaN => SFloat (xs ++ [None])
  | SBool xs, OBool b => SBool (xs ++ [b])
  | _, _ => SObject (to_object s ++ [v])
  end.

Definition row_get (name : string) (row : list (string * pyobj)) : pyobj :=
  match List.find (fun kv => String.eqb (fst kv) name) row with
  | Some kv => snd kv
  | None => ONaN
  end.

Definition concat_row (df : DataFrame) (row : list (string * pyobj)) : DataFrame :=
  mkframe (S (nrows df))
          (map (fun c => (fst c, append_cell (snd c) (row_get (fst c) row))) (columns df)).

(** [s.dt.strftime('%d/%m/%Y')] *)
Definition strftime_dmy (d : date) : string :=
  Text.two_digits (day d) +:+ "/" +:+ Text.two_digits (month d) +:+ "/"
    +:+ Text.four_digits (year d).

Definition dt_strftime (s : series) : result series :=
  match s with
  | SDatetime xs =>
      Ok (SObject (map (fun x => match x with
                                 | Some d => OStr (strftime_dmy d)
                                 | None => ONaN
                                 end) xs))
  | _ => Raise AttributeError
  end.

(** [re.search('nota de cr[eé]dito|nc', s, re.IGNORECASE)] *)
Definition e_acute_lower : string := String (ascii_of_nat 195) (String (ascii_of_nat 169) "").
Definition e_acute_upper : string := String (ascii_of_nat 195) (String (ascii_of_nat 137) "").

Definition strip_e (s : string) : option string :=
  match Text.strip_prefix_ci "e" s with
  | Some r => Some r
  | None =>
      if Text.starts_with e_acute_lower s || Text.starts_with e_acute_upper s
      then Some (String.substring 2 (String.length s - 2) s)
      else None
  end.

(** Without regard to case the letter [i] of the pattern matches, besides
    [i] and [I], the dotted capital U+0130 and the dotless small U+0131;
    the other letters of the pattern match their two ASCII forms only. *)
Definition i_dotted : string := String (ascii_of_nat 196) (String (ascii_of_nat 176) "").
Definition i_dotless : string := String (ascii_of_nat 196) (String (ascii_of_nat 177) "").

Definition strip_i (s : string) : option string :=
  match Text.strip_prefix_ci "i" s with
  | Some r => Some r
  | None =>
      if Text.starts_with i_dotted s || Text.starts_with i_dotless s
      then Some (String.substring 2 (String.length s - 2) s)
      else None
  end.

Definition nota_credito_here (s : string) : bool :=
  match Text.strip_prefix_ci "nota de cr" s with
  | Some r =>
      match strip_e r with
      | Some r1 =>
          match Text.strip_prefix_ci "d" r1 with
          | Some r2 =>
              match strip_i r2 with
              | Some r3 =>
                  match Text.strip_prefix_ci "to" r3 with Some _ => true | None => false end
              | None => false
              end
          | None => false
          end
      | None => false
      end
  | None => false
  end
  || match Text.strip_prefix_ci "nc" s with Some _ => true | None => false end.

Fixpoint nota_credito_search (s : string) : bool :=
  nota_credito_here s ||
  match s with
  | EmptyString => false
  | String _ s' => nota_credito_search s'
  end.

(** [s.astype(str).str.contains('nota de cr[eé]dito|nc', case=False, na=False)].
    A cell that is not text is rendered by [astype(str)] as a numeral,
    [nan], [NaT], [True], [False] or a time stamp; none of these contains
    the pattern. *)
Definition obj_is_nota_credito (o : pyobj) : bool :=
  match o with
  | OStr s => nota_credito_search s
  | _ => false
  end.

Definition str_contains_nota_credito (s : series) : list bool :=
  map obj_is_nota_credito (to_object s).

(** *** Dates *)

Definition is_leap (y : Z) : bool :=
  (y mod 4 =? 0) && (negb (y mod 100 =? 0) || (y mod 400 =? 0)).

Definition days_in_month (y m : Z) : Z :=
  if (m =? 2) then (if is_leap y then 29 else 28)
  else if (m =? 4) || (m =? 6) || (m =? 9) || (m =? 11) then 30
  else if (1 <=? m) && (m <=? 12) then 31
  else 0.

Definition date_leb (a b : date) : bool :=
  (year a <? year b) ||
  ((year a =? year b) &&
     ((month a <? month b) || ((month a =? month b) && (day a <=? day b)))).

(** The days a [datetime64[ns]] time stamp can hold. *)
Definition Timestamp_min : date := mkdate 1677 9 22.
Definition Timestamp_max : date := mkdate 2262 4 11.

Definition valid_date (d : date) : bool :=
  (1 <=? day d) && (day d <=? days_in_month (year d) (month d)) &&
  date_leb Timestamp_min d && date_leb d Timestamp_max.

Definition in_range (lo hi : string) (c : ascii) : bool :=
  match lo, hi with
  | String a _, String b _ => Text.between (Text.code a) (Text.code b) c
  | _, _ => false
  end.

(** The ways the directive [%d] can match at the head of [s], in the order
    of its alternatives [3[0-1]|[1-2]\d|0[1-9]|[1-9]| [1-9]]: each gives the
    value read and the rest of the text. *)
Definition alts_d (s : string) : list (Z * string) :=
  match s with
  | String a (String b r) =>
      (if Ascii.eqb a "3" && in_range "0" "1" b then [(30 + Text.digit_val b, r)] else [])
      ++ (if in_range "1" "2" a && Text.is_digit b
          then [(10 * Text.digit_val a + Text.digit_val b, r)] else [])
      ++ (if Ascii.eqb a "0" && in_range "1" "9" b then [(Text.digit_val b, r)] else [])
      ++ (if in_range "1" "9" a then [(Text.digit_val a, String b r)] else [])
      ++ (if Ascii.eqb a " " && in_range "1" "9" b then [(Text.digit_val b, r)] else [])
  | String a EmptyString =>
      if in_range "1" "9" a then [(Text.digit_val a, EmptyString)] else []
  | EmptyString => []
  end.

(** [%m]: [1[0-2]|0[1-9]|[1-9]] *)
Definition alts_m (s : string) : list (Z * string) :=
  match s with
  | String a (String b r) =>
      (if Ascii.eqb a "1" && in_range "0" "2" b then [(10 + Text.digit_val b, r)] else [])
      ++ (if Ascii.eqb a "0" && in_range "1" "9" b then [(Text.digit_val b, r)] else [])
      ++ (if in_range "1" "9" a then [(Text.digit_val a, String b r)] else [])
  | String a EmptyString =>
      if in_range "1" "9" a then [(Text.digit_val a, EmptyString)] else []
  | EmptyString => []
  end.

(** [%Y]: [\d\d\d\d] *)
Definition match_Y (s : string) : option (Z * string) :=
  match s with
  | String a (String b (String c (String d r))) =>
      if Text.is_digit a && Text.is_digit b && Text.is_digit c && Text.is_digit d
      then Some (1000 * Text.digit_val a + 100 * Text.digit_val b
                 + 10 * Text.digit_val c + Text.digit_val d, r)
      else None
  | _ => None
  end.

Definition match_slash (s : string) : option string :=
  match s with
  | String a r => if Ascii.eqb a "/" then Some r else None
  | EmptyString => None
  end.

Fixpoint first_some {A B} (f : A -> option B) (l : list A) : option B :=
  match l with
  | [] => None
  | a :: l' => match f a with Some b => Some b | None => first_some f l' end
  end.

(** The match of the pattern of ['%d/%m/%Y'] at the start of [s], found as
    a backtracking matcher finds it. *)
Definition match_dmy (s : string) : option (date * string) :=
  first_some (fun dr : Z * string =>
    match match_slash (snd dr) with
    | None => None
    | Some r1 =>
        first_some (fun mr : Z * string =>
          match match_slash (snd mr) with
          | None => None
          | Some r2 =>
              match match_Y r2 with
              | Some (y, r3) => Some (mkdate y (fst mr) (fst dr), r3)
              | None => None
              end
          end) (alts_m r1)
    end) (alts_d s).

(** One text cell under [format='%d/%m/%Y', errors='coerce']: the whole text
    has to be consumed and the date has to exist. *)
Definition strptime_dmy (s : string) : option date :=
  match match_dmy s with
  | Some (d, EmptyString) => if valid_date d then Some d else None
  | _ => None
  end.

Definition obj_to_datetime (o : pyobj) : option date :=
  match o with
  | OStr s => strptime_dmy s
  | ODate d => if date_leb Timestamp_min d && date_leb d Timestamp_max then Some d else None
  | _ => None
  end.

(** [pd.to_datetime(s, format='%d/%m/%Y', errors='coerce')] on an [object] column *)
Definition to_datetime_dmy (s : series) : series :=
  SDatetime (map obj_to_datetime (to_object s)).

(** [s.notna()] *)
Definition notna (s : series) : list bool :=
  map (fun o => negb (obj_isna o)) (to_object s).

Fixpoint filter_mask {A} (mask : list bool) (xs : list A) : list A :=
  match mask, xs with
  | m :: mask', x :: xs' => if m then x :: filter_mask mask' xs' else filter_mask mask' xs'
  | _, _ => []
  end.

Definition series_filter (mask : list bool) (s : series) : series :=
  match s with
  | SInt xs => SInt (filter_mask mask xs)
  | SFloat xs => SFloat (filter_mask mask xs)
  | SBool xs => SBool (filter_mask mask xs)
  | SDatetime xs => SDatetime (filter_mask mask xs)
  | SObject xs => SObject (filter_mask mask xs)
  end.

(** [df[mask]] *)
Definition frame_filter (mask : list bool) (df : DataFrame) : DataFrame :=
  mkframe (length (filter_mask mask mask))
          (map (fun c => (fst c, series_filter mask (snd c))) (columns df)).

(** [df.dropna(subset=[name])] *)
Definition dropna_subset (name : string) (df : DataFrame) : result DataFrame :=
  result_bind (getitem name df) (fun s => Ok (frame_filter (notna s) df)).

(** [s.dt.month], [s.dt.year]: NaT gives NaN. *)
Definition dt_month (s : series) : result (list (option Z)) :=
  match s with
  | SDatetime xs => Ok (map (option_map month) xs)
  | _ => Raise AttributeError
  end.

Definition dt_year (s : series) : result (list (option Z)) :=
  match s with
  | SDatetime xs => Ok (map (option_map year) xs)
  | _ => Raise AttributeError
  end.

(** *** Counting *)

Fixpoint somes {A} (xs : list (option A)) : list A :=
  match xs with
  | [] => []
  | Some x :: xs' => x :: somes xs'
  | None :: xs' => somes xs'
  end.

Definition count (k : Z) (xs : list Z) : nat :=
  length (List.filter (Z.eqb k) xs).

(** The distinct values, in order of first appearance. *)
Fixpoint uniq (xs : list Z) : list Z :=
  match xs with
  | [] => []
  | x :: xs' => x :: List.filter (fun y => negb (y =? x)) (uniq xs')
  end.

Fixpoint insert_by {A} (le : A -> A -> bool) (x : A) (l : list A) : list A :=
  match l with
  | [] => [x]
  | y :: l' => if le x y then x :: l else y :: insert_by le x l'
  end.

(** A stable sort. *)
Fixpoint sort_by {A} (le : A -> A -> bool) (l : list A) : list A :=
  match l with
  | [] => []
  | x :: l' => insert_by le x (sort_by le l')
  end.

(** [s.value_counts()]: NaN is left out; the values are counted in the
    order in which they first appear and then sorted by decreasing count. *)
Definition value_counts (xs : list (option Z)) : list (Z * nat) :=
  let vs := somes xs in
  order_counts (map (fun k => (k, count k vs)) (uniq vs)).

(** [s.idxmax()]: the label of the first greatest entry. *)
Definition idxmax (s : list (Z * nat)) : result Z :=
  match s with
  | [] => Raise (ValueError "attempt to get argmax of an empty sequence")
  | kc :: s' =>
      Ok (fst (fold_left (fun best x => if (snd best <? snd x)%nat then x else best) s' kc))
  end.

Definition max_count (vs : list Z) : nat :=
  fold_right Nat.max 0%nat (map (fun k => count k vs) vs).

(** [s.mode()]: the most frequent values, in increasing order; NaN is left out. *)
Definition mode (xs : list (option Z)) : list Z :=
  let vs := somes xs in
  sort_by Z.leb (List.filter (fun k => (count k vs =? max_count vs)%nat) (uniq vs)).

End WithLibrary.
End Pandas.

(** ** State and exceptions *)

(** A computation over a state [S] may raise; what it did to the state
    before stays done. *)
Definition ST (S A : Type) : Type := S -> result A * S.

Definition ret {S A} (a : A) : ST S A := fun h => (Ok a, h).

Definition bind {S A B} (m : ST S A) (k : A -> ST S B) : ST S B :=
  fun h =>
    match m h with
    | (Ok a, h') => k a h'
    | (Raise e, h') => (Raise e, h')
    end.

Notation "'let*' x ':=' m 'in' k" := (bind m (fun x => k))
  (at level 10, x pattern, m at level 100, k at level 200).

Definition raise {S A} (e : exn) : ST S A := fun h => (Raise e, h).

Definition lift {S A} (r : result A) : ST S A := fun h => (r, h).

Fixpoint for_each {S A} (xs : list A) (body : A -> ST S unit) : ST S unit :=
  match xs with
  | [] => ret tt
  | x :: xs' => let* _ := body x in for_each xs' body
  end.

(** ** The heap of data frames *)

Abbreviation loc := nat.
Abbreviation heap := (list Pandas.DataFrame).
Definition M : Type -> Type := ST heap.

(** A new object. *)
Definition alloc (f : Pandas.DataFrame) : M loc :=
  fun h => (Ok (length h), (h ++ [f])%list).

Definition load (l : loc) : M Pandas.DataFrame :=
  fun h => (of_option (h !! l) (Exception "no such object"), h).

(** In-place update of the object at [l]. *)
Definition store (l : loc) (f : Pandas.DataFrame) : M unit :=
  fun h => (Ok tt, <[l := f]> h).

(** [df.copy()] *)
Definition copy (l : loc) : M loc :=
  let* f := load l in alloc f.

Fixpoint map_result {A B} (f : A -> result B) (xs : list A) : result (list B) :=
  match xs with
  | [] => Ok []
  | x :: xs' =>
      result_bind (f x) (fun b => result_bind (map_result f xs') (fun bs => Ok (b :: bs)))
  end.

(** ** [Utils/excel_processor.py] *)

Module ExcelProcessor.
Import Pandas.
Section WithLibrary.
Context {lib : Library}.

(** An uploaded workbook as [pd.read_excel] shows it: [banner] is the first
    physical row read with [nrows=1, header=None], every cell rendered by
    [str]; [sheet] is the table read with [skiprows=1]. *)
Record xlsx_file := mkxlsx {
  banner : list string;
  sheet : DataFrame
}.

Record t := mk {
  file_path : xlsx_file;
  df : option loc;
  month_detected : option (Z * Z)
}.

(** [ExcelProcessor(file_path)] *)
Definition init (file : xlsx_file) : t := mk file None None.

Definition read_excel (self : t) : M (loc * t) :=
  let* l := alloc (sheet (file_path self)) in
  ret (l, mk (file_path self) (Some l) (month_detected self)).

(** [if self.df is None: self.read_excel()], then [self.df] *)
Definition loaded (self : t) : M (loc * t) :=
  match df self with
  | None => read_excel self
  | Some l => ret (l, self)
  end.

Record header_info := mkinfo { cuit : string; tipo : string }.

(** *** The banner *)

Fixpoint skip_spaces (s : string) : string :=
  match s with
  | String c s' => if Text.is_space c then skip_spaces s' else s
  | EmptyString => s
  end.

(** [[:\-]?] *)
Definition skip_sep (s : string) : string :=
  match s with
  | String c s' => if Ascii.eqb c ":" || Ascii.eqb c "-" then s' else s
  | EmptyString => s
  end.

(** [\d{n}]: the digits and what follows them. *)
Fixpoint take_digits (n : nat) (s : string) : option (string * string) :=
  match n with
  | O => Some (EmptyString, s)
  | S n' =>
      match s with
      | String c s' =>
          if Text.is_digit c
          then match take_digits n' s' with
               | Some (ds, r) => Some (String c ds, r)
               | None => None
               end
          else None
      | EmptyString => None
      end
  end.

(** [CUIT\s*[:\-]?\s*(\d{11})], ignoring case, matched at the head of [s]. *)
Definition cuit_marker_here (s : string) : option string :=
  match Text.strip_prefix_ci "CUIT" s with
  | Some r => option_map fst (take_digits 11 (skip_spaces (skip_sep (skip_spaces r))))
  | None => None
  end.

(** [re.search(r'CUIT\s*[:\-]?\s*(\d{11})', s, re.IGNORECASE)], group 1 *)
Fixpoint search_cuit_marker (s : string) : option string :=
  match cuit_marker_here s with
  | Some d => Some d
  | None =>
      match s with
      | String _ s' => search_cuit_marker s'
      | EmptyString => None
      end
  end.

Definition boundary_after (s : string) : bool :=
  match s with
  | String c _ => negb (Text.is_word c)
  | EmptyString => true
  end.

(** [\b(\d{11})\b] matched at the head of [s]; [prev_word] tells whether the
    character before [s] is a word character. *)
Definition bare11_here (prev_word : bool) (s : string) : option string :=
  if prev_word then None
  else match take_digits 11 s with
       | Some (ds, r) => if boundary_after r then Some ds else None
       | None => None
       end.

Fixpoint search_bare11_from (prev_word : bool) (s : string) : option string :=
  match bare11_here prev_word s with
  | Some d => Some d
  | None =>
      match s with
      | String c s' => search_bare11_from (Text.is_word c) s'
      | EmptyString => None
      end
  end.

(** [re.search(r'\b(\d{11})\b', s)], group 1 *)
Definition search_bare11 (s : string) : option string := search_bare11_from false s.

Definition mentions_header (s : string) : bool :=
  Text.contains "comprobantes" (Text.lower s) || Text.contains "cuit" (Text.lower s).

(** The [for col in range(min(5, len(df_header.columns)))] scan. *)
Definition scan_cells (cells : list string) (header_text : string) : string :=
  match List.find mentions_header (take 5 cells) with
  | Some cell_value => cell_value
  | None => header_text
  end.

Definition header_error (header_text : string) : string :=
  "No se pudo detectar CUIT o tipo en el encabezado." +:+ Text.nl
  +:+ "Encabezado encontrado: '" +:+ header_text +:+ "'" +:+ Text.nl
  +:+ "Asegúrese de que la primera fila contenga algo como:" +:+ Text.nl
  +:+ "'Mis Comprobantes Emitidos - CUIT 30716820080'".

Definition detect_tipo (header_text : string) : option string :=
  if Text.contains "emitidos" (Text.lower header_text) then Some "ventas"
  else if Text.contains "recibidos" (Text.lower header_text) then Some "compras"
  else None.

Definition detect_cuit (header_text : string) : option string :=
  match search_cuit_marker header_text with
  | Some c => Some c
  | None => search_bare11 header_text
  end.

(** The text the detection works on. *)
Definition header_text_of (cells : list string) : result string :=
  match cells with
  | [] => Raise IndexError
  | first :: _ =>
      Ok (if negb (Text.contains "comprobantes" (Text.lower first))
             && negb (Text.contains "cuit" (Text.lower first))
          then scan_cells cells first
          else first)
  end.

Definition detect_info_from_header (self : t) : result header_info :=
  result_bind (header_text_of (banner (file_path self))) (fun header_text =>
  let tipo := detect_tipo header_text in
  let cuit := detect_cuit header_text in
  match cuit, tipo with
  | Some c, Some t => Ok (mkinfo c t)
  | _, _ => Raise (ValueError (header_error header_text))
  end).

(** *** The period *)

Definition no_dates_msg : string := "No se encontraron fechas válidas en el archivo".

Definition detect_month (self : t) : M ((Z * Z) * t) :=
  let* (l, self) := loaded self in
  let* df_temp := copy l in
  let* f := load df_temp in
  let* fecha := lift (getitem "Fecha" f) in
  let* _ := (if is_object fecha
             then store df_temp (setitem "Fecha" (to_datetime_dmy fecha) f)
             else ret tt) in
  let* f := load df_temp in
  let* dropped := lift (dropna_subset "Fecha" f) in
  let* df_temp := alloc dropped in
  let* f := load df_temp in
  if (nrows f =? 0)%nat then raise (ValueError no_dates_msg)
  else
    let* fecha := lift (getitem "Fecha" f) in
    let* months := lift (dt_month fecha) in
    let month_counts := value_counts months in
    let* most_common_month := lift (idxmax month_counts) in
    let* years := lift (dt_year fecha) in
    let year_series :=
      filter_mask (map (fun m => match m with
                                 | Some m' => m' =? most_common_month
                                 | None => false
                                 end) months) years in
    let* year :=
      lift (if (0 <? length year_series)%nat
            then of_option (head (mode year_series)) (KeyError "0")
            else Raise IndexError) in
    ret ((most_common_month, year),
         mk (file_path self) (df self) (Some (most_common_month, year))).

Definition months : list (Z * string) :=
  [(1, "Enero"); (2, "Febrero"); (3, "Marzo"); (4, "Abril");
   (5, "Mayo"); (6, "Junio"); (7, "Julio"); (8, "Agosto");
   (9, "Septiembre"); (10, "Octubre"); (11, "Noviembre"); (12, "Diciembre")].

Definition get_month_name (month : Z) : string :=
  match List.find (fun kv => fst kv =? month) months with
  | Some kv => snd kv
  | None => Text.str_of_Z month
  end.

(** *** Cleaning *)

Definition no_moneda_msg : string := "No se encontró la columna 'Moneda' en el Excel".

(** [df[col].isna().all() or (df[col] == 0).all()] *)
Definition column_is_empty (f : DataFrame) (col : string) : bool :=
  match assoc col (columns f) with
  | Some s => isna_all s || eq0_all s
  | None => false
  end.

Definition column_is_numeric (f : DataFrame) (col : string) : bool :=
  match assoc col (columns f) with
  | Some s => is_numeric s
  | None => false
  end.

(** The body of [for col in numeric_cols]. *)
Definition scale_and_sign (df_clean : loc) (is_nota_credito : list bool) (col : string)
  : M unit :=
  let* f := load df_clean in
  let* amounts := lift (getitem col f) in
  let* rate := lift (getitem "Tipo Cambio" f) in
  let* scaled := lift (series_mul amounts rate) in
  let* _ := store df_clean (setitem col scaled f) in
  let* f := load df_clean in
  let* amounts := lift (getitem col f) in
  let* positive := lift (series_gt0 amounts) in
  let* negated := lift (negate_where (zip_with andb is_nota_credito positive) amounts) in
  store df_clean (setitem col negated f).

Definition totals_cell (f : DataFrame) (numeric_cols : list string) (col : string)
  : result (string * pyobj) :=
  if mem col numeric_cols
  then result_bind (getitem col f) (fun s =>
       result_bind (series_sum s) (fun total => Ok (col, total)))
  else Ok (col, OStr "").

Definition clean_data (self : t) : M (loc * t) :=
  let* (l, self) := loaded self in
  let* df_clean := copy l in
  let* f := load df_clean in
  let* moneda_idx :=
    lift (of_option (index_of "Moneda" (labels f)) (ValueError no_moneda_msg)) in
  let columns_after_moneda := drop (moneda_idx + 1) (labels f) in
  let columns_to_drop := List.filter (column_is_empty f) columns_after_moneda in
  let* df_clean := alloc (drop_columns columns_to_drop f) in
  let* f := load df_clean in
  let remaining_cols := drop (moneda_idx + 1) (labels f) in
  let numeric_cols := List.filter (column_is_numeric f) remaining_cols in
  let* tipo := lift (getitem "Tipo" f) in
  let is_nota_credito := str_contains_nota_credito tipo in
  let* _ := for_each numeric_cols (scale_and_sign df_clean is_nota_credito) in
  let* f := load df_clean in
  let* fecha := lift (getitem "Fecha" f) in
  let* _ := (if is_object fecha then ret tt
             else let* formatted := lift (dt_strftime fecha) in
                  store df_clean (setitem "Fecha" formatted f)) in
  let* f := load df_clean in
  let* totals_row := lift (map_result (totals_cell f numeric_cols) (labels f)) in
  let* df_clean := alloc (concat_row f totals_row) in
  ret (df_clean, self).

(** *** Workbooks *)

(** A sheet: its title and its cells, row by row (fonts and alignment are
    not represented). *)
Record worksheet := mksheet {
  title : string;
  cells : list (list pyobj)
}.

Definition workbook := list worksheet.

Definition sheetnames (wb : workbook) : list string := map title wb.

(** [dataframe_to_rows(df, index=False, header=True)] *)
Definition dataframe_to_rows (f : DataFrame) : list (list pyobj) :=
  map OStr (labels f)
  :: map (fun i => map (fun c => nth i (to_object (snd c)) ONaN) (columns f))
         (seq 0 (nrows f)).

(** [wb.remove(wb[name])] *)
Fixpoint remove_sheet (name : string) (wb : workbook) : workbook :=
  match wb with
  | [] => []
  | ws :: wb' => if String.eqb (title ws) name then wb' else ws :: remove_sheet name wb'
  end.

(** *** Sheet titles

    [wb.create_sheet(title=...)] checks the title it is given and renames
    it when a sheet of that name, compared without case, is there. *)

(** The characters of [INVALID_TITLE_REGEX]: [\ * ? : / [ ]]. *)
Definition invalid_title_char (c : ascii) : bool :=
  existsb (Nat.eqb (Text.code c)) [92; 42; 63; 58; 47; 91; 93]%nat.

Fixpoint first_invalid_char (s : string) : option ascii :=
  match s with
  | EmptyString => None
  | String c s' => if invalid_title_char c then Some c else first_invalid_char s'
  end.

(** [\d*]: the number the leading digits spell, if there are any, and what
    follows them. *)
Fixpoint leading_count (acc : option Z) (s : string) : option Z * string :=
  match s with
  | String c s' =>
      if Text.is_digit c
      then leading_count (Some (10 * default 0 acc + Text.digit_val c)) s'
      else (acc, s)
  | EmptyString => (acc, s)
  end.

(** The counts [re.findall] gives in [s] for the pattern made of [value],
    any digits and an optional comma, case ignored: matches are taken from
    the left and do not overlap; [skip] characters belong to the match
    before. *)
Fixpoint title_counts (value : string) (skip : nat) (s : string) : list Z :=
  match s with
  | EmptyString => []
  | String c s' =>
      match skip with
      | S k => title_counts value k s'
      | O =>
          match Text.strip_prefix_ci value s with
          | Some rest =>
              let (count, rest) := leading_count None rest in
              let rest := match rest with
                          | String c r => if Ascii.eqb c "," then r else rest
                          | EmptyString => rest
                          end in
              let consumed := (String.length s - String.length rest)%nat in
              match count with
              | Some n => n :: title_counts value (consumed - 1) s'
              | None => title_counts value (consumed - 1) s'
              end
          | None => title_counts value 0 s'
          end
      end
  end.

(** [avoid_duplicate_name(names, value)] *)
Definition avoid_duplicate_name (names : list string) (value : string) : string :=
  if existsb (fun n => String.eqb (str_lower n) (str_lower value)) names then
    let counts := title_counts value 0 (String.concat "," names) in
    let highest := fold_right Z.max 0 counts in
    value +:+ Text.str_of_Z (highest + 1)
  else value.

Definition invalid_title_msg (c : ascii) : string :=
  "Invalid character " +:+ String c EmptyString +:+ " found in sheet title".

(** The title [create_sheet] gives the new sheet of a workbook whose sheets
    are [names]. *)
Definition sheet_title (names : list string) (title : string) : result string :=
  let value := if String.eqb title "" then "Sheet" else title in
  match first_invalid_char value with
  | Some c => Raise (ValueError (invalid_title_msg c))
  | None => Ok (avoid_duplicate_name names value)
  end.

(** [file] is what [workbook_path] holds, [None] when there is no such
    file; the second component of the answer is what it holds afterwards. *)
Definition add_sheet_to_workbook (self : t) (file : option workbook)
    (sheet_name : string) (df : option loc)
  : M ((string * option workbook) * t) :=
  let* (df, self) := match df with
                     | Some l => ret (l, self)
                     | None => clean_data self
                     end in
  let* f := load df in
  let wb := match file with
            | Some wb => wb
            | None => []
            end in
  if mem sheet_name (sheetnames wb) then ret (("exists", file), self)
  else
    let wb := if mem "_temp" (sheetnames wb) then remove_sheet "_temp" wb else wb in
    let* title := lift (sheet_title (sheetnames wb) sheet_name) in
    let ws := mksheet title (dataframe_to_rows f) in
    ret (("success", Some (wb ++ [ws])%list), self).

Record summary := mksummary {
  s_month : Z;
  s_year : Z;
  s_month_name : string;
  rows_processed : Z;
  columns_kept : Z;
  output_path : option string
}.

(** [process_excel_file(file_path, output_path)].  Besides the summary the
    model returns what [save_to_excel] wrote, if anything. *)
Definition process_excel_file (file : xlsx_file) (out : option string)
  : M (summary * option (string * DataFrame)) :=
  let processor := init file in
  let* (_, processor) := read_excel processor in
  let* (my, processor) := detect_month processor in
  let month_name := get_month_name (fst my) in
  let* (df_clean, processor) := clean_data processor in
  let* f := load df_clean in
  let result := mksummary (fst my) (snd my) month_name
                          (Z.of_nat (nrows f) - 1)
                          (Z.of_nat (length (labels f))) out in
  match out with
  | Some path => ret (result, Some (path, f))
  | None => ret (result, None)
  end.

End WithLibrary.
End ExcelProcessor.

(** ** [Utils/drive_handler.py] *)

Module DriveHandler.
Import ExcelProcessor.
Section WithLibrary.
Context {lib : Library}.

Inductive mime :=
| Folder          (* application/vnd.google-apps.folder *)
| GoogleSheet     (* application/vnd.google-apps.spreadsheet *)
| Xlsx.           (* anything else: the bytes of a workbook *)

Definition mime_eqb (a b : mime) : bool :=
  match a, b with
  | Folder, Folder | GoogleSheet, GoogleSheet | Xlsx, Xlsx => true
  | _, _ => false
  end.

(** An entry of the remote store. *)
Record drive_file := mkfile {
  id : nat;
  name : string;
  mime_type : mime;
  parent : option nat;
  trashed : bool;
  content : workbook
}.

(** The remote store, and the handler's cached [root_folder_id]. *)
Record t := mk {
  files : list drive_file;
  next_id : nat;
  root_folder_id : option nat
}.

Definition D : Type -> Type := ST t.

Definition ROOT_FOLDER_NAME : string := "Clientes Libros Iva".

Definition in_parent (p : nat) (f : drive_file) : bool :=
  match parent f with
  | Some q => (q =? p)%nat
  | None => false
  end.

(** [files().list(q=...)] *)
Definition list_files (q : drive_file -> bool) : D (list drive_file) :=
  fun s => (Ok (List.filter q (files s)), s).

Definition find_folder (folder_name : string) (parent_id : option nat) : D (option nat) :=
  let* items := list_files (fun f =>
    String.eqb (name f) folder_name && mime_eqb (mime_type f) Folder && negb (trashed f)
    && match parent_id with
       | Some p => in_parent p f
       | None => true
       end) in
  ret (option_map id (head items)).

Definition get_root_folder_id : D nat :=
  fun s =>
    match root_folder_id s with
    | Some r => (Ok r, s)
    | None =>
        match find_folder ROOT_FOLDER_NAME None s with
        | (Ok found, s') =>
            let s'' := mk (files s') (next_id s') found in
            (of_option found
               (Exception ("No se encontró la carpeta '" +:+ ROOT_FOLDER_NAME +:+ "' en Drive")),
             s'')
        | (Raise e, s') => (Raise e, s')
        end
    end.

Record client_structure := mkstructure {
  client_id : nat;
  ventas_id : option nat;
  compras_id : option nat
}.

Definition get_client_structure (client_name : string) : D client_structure :=
  let* root_id := get_root_folder_id in
  let* client_id := find_folder client_name (Some root_id) in
  match client_id with
  | None => raise (Exception ("No se encontró el cliente '" +:+ client_name +:+ "'"))
  | Some client_id =>
      let* ventas_id := find_folder "Ventas" (Some client_id) in
      let* compras_id := find_folder "Compras" (Some client_id) in
      ret (mkstructure client_id ventas_id compras_id)
  end.

Definition year_filename (client_name tipo : string) (year : Z) : string :=
  "Libro Iva " +:+ Text.capitalize tipo +:+ " " +:+ Text.str_of_Z year +:+ " "
    +:+ client_name +:+ ".xlsx".

Definition type_folder (structure : client_structure) (tipo : string) : option nat :=
  if String.eqb (Text.lower tipo) "ventas" then ventas_id structure
  else compras_id structure.

Definition no_folder_msg (client_name tipo : string) : string :=
  "No se encontró la carpeta '" +:+ tipo +:+ "' para el cliente '" +:+ client_name +:+ "'".

(** [files().create(...)]: a new entry, with a new id. *)
Definition upload_file (wb : workbook) (folder_id : nat) (file_name : string) : D nat :=
  fun s =>
    let file_id := next_id s in
    (Ok file_id,
     mk (files s ++ [mkfile file_id file_name Xlsx (Some folder_id) false wb])%list
        (S file_id) (root_folder_id s)).

Definition temp_note : string :=
  "Archivo temporal - Esta pestaña se eliminará al agregar datos".

Definition create_year_file (client_name tipo : string) (year : Z) : D nat :=
  let* structure := get_client_structure client_name in
  match type_folder structure tipo with
  | None => raise (Exception (no_folder_msg client_name tipo))
  | Some folder_id =>
      let filename := year_filename client_name tipo year in
      let wb := [mksheet "_temp" [[OStr temp_note]]] in
      upload_file wb folder_id filename
  end.

Record file_check := mkcheck {
  exists_ : bool;
  file_id : option nat;
  folder_id : nat;
  filename : string
}.

Definition check_year_file_exists (client_name tipo : string) (year : Z) : D file_check :=
  let* structure := get_client_structure client_name in
  match type_folder structure tipo with
  | None => raise (Exception (no_folder_msg client_name tipo))
  | Some folder_id =>
      let filename := year_filename client_name tipo year in
      let* items := list_files (fun f =>
        String.eqb (name f) filename && in_parent folder_id f && negb (trashed f)) in
      ret (mkcheck (0 <? length items)%nat (option_map id (head items)) folder_id filename)
  end.

(** [files().get(fileId=...)] *)
Definition get_file (file_id : nat) : D drive_file :=
  fun s => (of_option (List.find (fun f => (id f =? file_id)%nat) (files s)) HttpError, s).

(** What the download leaves at [output_path]: a Google Sheet is exported
    as a workbook, anything else is fetched as it is. *)
Definition download_file (file_id : nat) : D workbook :=
  let* file_metadata := get_file file_id in
  ret (content file_metadata).

(** [files().delete(fileId=...)] *)
Definition delete_file (file_id : nat) : D unit :=
  fun s =>
    (Ok tt, mk (List.filter (fun f => negb (id f =? file_id)%nat) (files s))
               (next_id s) (root_folder_id s)).

(** [files().update(fileId=..., media_body=...)] *)
Definition replace_content (file_id : nat) (wb : workbook) : D unit :=
  fun s =>
    (Ok tt,
     mk (map (fun f => if (id f =? file_id)%nat
                       then mkfile (id f) (name f) (mime_type f) (parent f) (trashed f) wb
                       else f) (files s))
        (next_id s) (root_folder_id s)).

Definition update_file (file_id : nat) (wb : workbook) : D (option nat) :=
  let* file_metadata := get_file file_id in
  if mime_eqb (mime_type file_metadata) GoogleSheet then
    let* file_info := get_file file_id in
    let* _ := delete_file file_id in
    match parent file_info with
    | Some p =>
        let* new_file_id := upload_file wb p (name file_info) in
        ret (Some new_file_id)
    | None => ret None
    end
  else
    let* _ := replace_content file_id wb in
    ret (Some file_id).

End WithLibrary.
End DriveHandler.

(** ** [fastapi_app.py]: [POST /api/process] *)

Module App.
Import ExcelProcessor.
Section WithLibrary.
Context {lib : Library}.

(** What a request leaves behind: the frames it built and the remote store
    with the handler's cache. *)
Record world := mkworld {
  w_heap : heap;
  w_drive : DriveHandler.t
}.

Definition on_heap {A} (m : M A) : ST world A :=
  fun w => let (r, h) := m (w_heap w) in (r, mkworld h (w_drive w)).

Definition on_drive {A} (m : DriveHandler.D A) : ST world A :=
  fun w => let (r, d) := m (w_drive w) in (r, mkworld (w_heap w) d).

Record request := mkrequest {
  file : xlsx_file;
  client : string;
  tipo : string;
  year : Z;
  month : Z;
  month_name : string;
  create_if_not_exists : bool
}.

Inductive response :=
| NeedsConfirmation (message : string)
| Processed (message : string) (rows_processed : Z) (client tipo : string)
            (year : Z) (month : string).

(** [str(e)]: the message with which the code raises; for an exception that
    comes out of a library, the text that the library gives it. *)
Definition str_exn (e : exn) : string :=
  match e with
  | ValueError msg => msg
  | KeyError key => "'" +:+ key +:+ "'"
  | Exception msg => msg
  | HTTPException status detail => Text.str_of_Z status +:+ ": " +:+ detail
  | TypeError | AttributeError | IndexError | HttpError => lib_text e
  end.

Definition confirm_msg (filename : string) : string :=
  "El archivo '" +:+ filename +:+ "' no existe. ¿Desea crearlo?".

Definition duplicate_msg (month_name filename : string) : string :=
  "La pestaña '" +:+ month_name +:+ "' ya existe en el archivo '" +:+ filename +:+ "'".

Definition success_msg (month_name filename : string) : string :=
  "Pestaña '" +:+ month_name +:+ "' agregada exitosamente al archivo '" +:+ filename +:+ "'".

(** The [try] block. *)
Definition process_file_try (req : request) : ST world response :=
  let processor := init (file req) in
  let* (_, processor) := on_heap (read_excel processor) in
  let* (df_clean, processor) := on_heap (clean_data processor) in
  let* cleaned := on_heap (load df_clean) in
  let* file_check :=
    on_drive (DriveHandler.check_year_file_exists (client req) (tipo req) (year req)) in
  let filename := DriveHandler.filename file_check in
  let proceed (file_id : option nat) : ST world response :=
    let* file_id := lift (of_option file_id HttpError) in
    let* downloaded_file := on_drive (DriveHandler.download_file file_id) in
    let* (result, processor) :=
      on_heap (add_sheet_to_workbook processor (Some downloaded_file)
                                     (month_name req) (Some df_clean)) in
    if String.eqb (fst result) "exists"
    then raise (HTTPException 400 (duplicate_msg (month_name req) filename))
    else
      let* saved := lift (of_option (snd result) (Exception "no such file")) in
      let* _ := on_drive (DriveHandler.update_file file_id saved) in
      ret (Processed (success_msg (month_name req) filename)
                     (Z.of_nat (Pandas.nrows cleaned) - 1)
                     (client req) (tipo req) (year req) (month_name req)) in
  if negb (DriveHandler.exists_ file_check) then
    if negb (create_if_not_exists req)
    then ret (NeedsConfirmation (confirm_msg filename))
    else
      let* file_id :=
        on_drive (DriveHandler.create_year_file (client req) (tipo req) (year req)) in
      proceed (Some file_id)
  else proceed (DriveHandler.file_id file_check).

(** [except HTTPException: raise] / [except Exception as e: raise
    HTTPException(status_code=500, detail=str(e))] *)
Definition process_file (req : request) : ST world response :=
  fun w =>
    match process_file_try req w with
    | (Ok r, w') => (Ok r, w')
    | (Raise (HTTPException status detail), w') => (Raise (HTTPException status detail), w')
    | (Raise e, w') => (Raise (HTTPException 500 (str_exn e)), w')
    end.

End WithLibrary.
End App.

(** ** What the processor computes, frame by frame

    The methods above work on objects in the heap.  The functions of this
    module give, for the frame an object holds, the frame the same statements
    leave in it; [clean_data_run] and [detect_month_run] below relate the two. *)

Module Denote.
Import Pandas ExcelProcessor.
Section WithLibrary.
Context {lib : Library}.

Definition scale_and_sign_frame (is_nota_credito : list bool) (f : DataFrame) (col : string)
  : result DataFrame :=
  result_bind (getitem col f) (fun amounts =>
  result_bind (getitem "Tipo Cambio" f) (fun rate =>
  result_bind (series_mul amounts rate) (fun scaled =>
  let f := setitem col scaled f in
  result_bind (getitem col f) (fun amounts =>
  result_bind (series_gt0 amounts) (fun positive =>
  result_bind (negate_where (zip_with andb is_nota_credito positive) amounts) (fun negated =>
  Ok (setitem col negated f))))))).

Fixpoint fold_result {A B} (step : B -> A -> result B) (xs : list A) (b : B) : result B :=
  match xs with
  | [] => Ok b
  | x :: xs' => result_bind (step b x) (fold_result step xs')
  end.

Definition format_fecha (f : DataFrame) : result DataFrame :=
  result_bind (getitem "Fecha" f) (fun fecha =>
  if is_object fecha then Ok f
  else result_bind (dt_strftime fecha) (fun formatted =>
       Ok (setitem "Fecha" formatted f))).

Definition scrub (moneda_idx : nat) (f : DataFrame) : DataFrame :=
  drop_columns (List.filter (column_is_empty f) (drop (moneda_idx + 1) (labels f))) f.

Definition numeric_cols (moneda_idx : nat) (f : DataFrame) : list string :=
  List.filter (column_is_numeric f) (drop (moneda_idx + 1) (labels f)).

Definition append_totals (numeric_cols : list string) (f : DataFrame) : result DataFrame :=
  result_bind (map_result (totals_cell f numeric_cols) (labels f)) (fun totals_row =>
  Ok (concat_row f totals_row)).

(** The frame [clean_data] returns for the loaded frame [f]. *)
Definition clean_frame (f : DataFrame) : result DataFrame :=
  result_bind (of_option (index_of "Moneda" (labels f)) (ValueError no_moneda_msg))
    (fun moneda_idx =>
  let f := scrub moneda_idx f in
  let numeric_cols := numeric_cols moneda_idx f in
  result_bind (getitem "Tipo" f) (fun tipo =>
  let is_nota_credito := str_contains_nota_credito tipo in
  result_bind (fold_result (scale_and_sign_frame is_nota_credito) numeric_cols f) (fun f =>
  result_bind (format_fecha f) (fun f =>
  append_totals numeric_cols f)))).

(** The rows that survive [dropna(subset=['Fecha'])], as dates. *)
Definition parsed_dates (f : DataFrame) : result DataFrame :=
  result_bind (getitem "Fecha" f) (fun fecha =>
  let f := if is_object fecha then setitem "Fecha" (to_datetime_dmy fecha) f else f in
  dropna_subset "Fecha" f).

Definition period_of (f : DataFrame) : result (Z * Z) :=
  if (nrows f =? 0)%nat then Raise (ValueError no_dates_msg)
  else
    result_bind (getitem "Fecha" f) (fun fecha =>
    result_bind (dt_month fecha) (fun months =>
    result_bind (idxmax (value_counts months)) (fun most_common_month =>
    result_bind (dt_year fecha) (fun years =>
    let year_series :=
      filter_mask (map (fun m => match m with
                                 | Some m' => m' =? most_common_month
                                 | None => false
                                 end) months) years in
    result_bind (if (0 <? length year_series)%nat
                 then of_option (head (mode year_series)) (KeyError "0")
                 else Raise IndexError) (fun year =>
    Ok (most_common_month, year)))))).

(** The period [detect_month] reports for the loaded frame [f]. *)
Definition detect_frame (f : DataFrame) : result (Z * Z) :=
  result_bind (parsed_dates f) period_of.

(** The table the processor works on. *)
Definition holds (self : ExcelProcessor.t) (h : heap) (f : DataFrame) : Prop :=
  match df self with
  | Some l => h !! l = Some f
  | None => sheet (file_path self) = f
  end.

End WithLibrary.
End Denote.

(** ** Vocabulary of the statements *)

Module Table.
Import Pandas ExcelProcessor.
Section WithLibrary.
Context {lib : Library}.

(** The cell of column [col] at row [i]. *)
Definition cell (f : DataFrame) (col : string) (i : nat) : option pyobj :=
  match assoc col (columns f) with
  | Some s => to_object s !! i
  | None => None
  end.

(** The table [clean_data] returns, when it returns one. *)
Definition cleaned (self : ExcelProcessor.t) (h : heap) : option DataFrame :=
  match clean_data self h with
  | (Ok (l, _), h') => h' !! l
  | (Raise _, _) => None
  end.

(** The first [n] cells of a column. *)
Definition series_take (n : nat) (s : series) : series :=
  match s with
  | SInt xs => SInt (take n xs)
  | SFloat xs => SFloat (take n xs)
  | SBool xs => SBool (take n xs)
  | SDatetime xs => SDatetime (take n xs)
  | SObject xs => SObject (take n xs)
  end.

Definition entirely_empty (s : series) : Prop :=
  Forall (fun o => obj_isna o = true) (to_object s).

Definition entirely_zero (s : series) : Prop :=
  Forall (fun o => obj_eq0 o = true) (to_object s).

(** [col] lies after the marker, holds numbers and is not scrubbed: a
    monetary column of the cleaned table. *)
Definition monetary (f : DataFrame) (col : string) : bool :=
  match index_of "Moneda" (labels f), index_of col (labels f) with
  | Some m, Some j =>
      (m <? j)%nat && column_is_numeric f col && negb (column_is_empty f col)
  | _, _ => false
  end.

(** The product of an amount and an exchange rate, cell by cell: [int64]
    by [int64] wraps, a product with a [float64] is the rounded product of
    binary64, anything by NaN is NaN. *)
Definition obj_mul (a r : pyobj) : pyobj :=
  match a, r with
  | OInt x, OInt y => OInt (wrap64 (x * y))
  | OInt x, OBool b => OInt (wrap64 (x * b2z b))
  | OInt x, OFloat q => obj_of_float (of_int64 x * q)%float
  | OFloat p, OInt y => obj_of_float (p * of_int64 y)%float
  | OFloat p, OBool b => obj_of_float (p * of_int64 (b2z b))%float
  | OFloat p, OFloat q => obj_of_float (p * q)%float
  | _, _ => ONaN
  end.

Definition obj_gt0 (o : pyobj) : bool :=
  match o with
  | OInt z => 0 <? z
  | OFloat q => fgt0 q
  | _ => false
  end.

Definition obj_neg (o : pyobj) : pyobj :=
  match o with
  | OInt z => OInt (- z)
  | OFloat q => OFloat (fneg q)
  | _ => o
  end.

(** Position of the first occurrence. *)
Fixpoint first_index (k : Z) (xs : list Z) : nat :=
  match xs with
  | [] => 0
  | x :: xs' => if x =? k then 0 else S (first_index k xs')
  end.

(** The dates of the rows [detect_month] keeps, in row order; [None] when
    the column is neither text nor dates. *)
Definition kept_dates (f : DataFrame) : option (list date) :=
  match assoc "Fecha" (columns f) with
  | Some (SObject xs) => Some (somes (map obj_to_datetime xs))
  | Some (SDatetime xs) => Some (somes xs)
  | _ => None
  end.

(** The mask of [dropna(subset=['Fecha'])]. *)
Definition kept_rows (fecha : series) : list bool :=
  notna (if is_object fecha then to_datetime_dmy fecha else fecha).

End WithLibrary.
End Table.

(** ** Cells of the cleaned table *)

Section Cells.
Import Pandas ExcelProcessor Denote Table.
Context {lib : Library}.

(** What one pass of the loop leaves in the column it treats. *)
Definition signed (mask : list bool) (amounts rate : series) : result series :=
  result_bind (series_mul amounts rate) (fun scaled =>
  result_bind (series_gt0 scaled) (fun positive =>
  negate_where (zip_with andb mask positive) scaled)).

Definition flip (m : bool) (v : pyobj) : pyobj :=
  if m && obj_gt0 v then obj_neg v else v.

(** Every column has [n] cells. *)
Definition lens (n : nat) (f : DataFrame) : Prop :=
  forall c s, assoc c (columns f) = Some s -> series_len s = n.

(** C3, as stated: the totals row would hold, under every numeric column
    that is kept, the sum of the data rows of that column.  Under a numeric
    column that stands at or before the marker, as "Tipo Cambio" does in the
    ledgers of the tax agency, it holds the empty text. *)
Definition totals_under_every_numeric_column : Prop :=
  forall (any : Library) (self : ExcelProcessor.t) (h : heap) (f0 out : DataFrame)
         (col : string) (s : series),
    holds self h f0 ->
    wf_frame f0 ->
    cleaned (lib := any) self h = Some out ->
    column_is_numeric f0 col = true ->
    assoc col (columns out) = Some s ->
    exists (data : series) (total : pyobj),
      is_numeric data = true /\
      to_object data = take (nrows f0) (to_object s) /\
      series_sum (lib := any) data = Ok total /\
      to_object s !! nrows f0 = Some total.

(** Column [a] stands to the left of column [b]. *)
Definition left_of (f : DataFrame) (a b : string) : bool :=
  match index_of a (labels f), index_of b (labels f) with
  | Some j, Some k => (j <? k)%nat
  | _, _ => false
  end.

(** The exchange rate is itself a monetary column to the left of [col]: when
    the loop comes to [col] it has already treated "Tipo Cambio". *)
Definition rescaled (f : DataFrame) (col : string) : bool :=
  monetary f "Tipo Cambio" && left_of f "Tipo Cambio" col.

End Cells.

(** ** Credit notes

    What the pattern ['nota de cr[eé]dito|nc'] stands for when case is
    ignored, said without a matcher: the words it spells, and the types that
    hold one of them. *)

Section CreditNotes.
Import Pandas.

Definition e_letters : list string := ["e"; "E"; e_acute_lower; e_acute_upper].
Definition i_letters : list string := ["i"; "I"; i_dotted; i_dotless].

Definition credit_note_word (w : string) : Prop :=
  (exists a e d i t : string,
     w = a +:+ e +:+ d +:+ i +:+ t /\
     Text.lower a = "nota de cr" /\ In e e_letters /\
     Text.lower d = "d" /\ In i i_letters /\ Text.lower t = "to")
  \/ Text.lower w = "nc".

(** The type of the row is a text in which such a word stands somewhere. *)
Definition credit_note (type : pyobj) : Prop :=
  exists s pre w post : string,
    type = OStr s /\ s = pre +:+ w +:+ post /\ credit_note_word w.

End CreditNotes.

(** ** Counting months *)

Section Counts.
Import Pandas ExcelProcessor Denote Table.
Context {lib : Library}.

Definition by_count (a b : Z * nat) : bool := (snd b <=? snd a)%nat.

(** C5, as stated: ties between months would go to the month that comes
    first in the order 1..12, whatever the library.  With a sort that leaves
    entries of equal count as they come, a table whose first row is of April
    and whose second row is of March gives April. *)
Definition ties_go_to_the_earlier_month : Prop :=
  forall (any : Library)
         (file : xlsx_file) (ds : list date) (m y : Z) (self' : ExcelProcessor.t) (h' : heap),
    kept_dates (sheet file) = Some ds ->
    detect_month (lib := any) (init file) [] = (Ok ((m, y), self'), h') ->
    forall m', count m' (map month ds) = count m (map month ds) -> m <= m'.

End Counts.

(** ** A ledger to run the statements on *)

Module Ejemplo.
Import Pandas ExcelProcessor.

(** Three documents: an invoice, a credit note in dollars and a credit
    note the source system already reports signed; "IVA" is all zero and
    "Otros" all empty. *)
Definition ledger : DataFrame :=
  mkframe 3
    [("Fecha", SObject [OStr "15/03/2025"; OStr "16/03/2025"; OStr "01/04/2025"]);
     ("Tipo", SObject [OStr "1 - Factura A"; OStr "3 - Nota de Crédito A"; OStr "NC"]);
     ("Tipo Cambio", SFloat [Some 1%float; Some 2%float; Some 1%float]);
     ("Moneda", SObject [OStr "$"; OStr "USD"; OStr "$"]);
     ("Neto", SFloat [Some 100%float; Some 50%float; Some (-3.5)%float]);
     ("IVA", SFloat [Some 0%float; Some 0%float; Some 0%float]);
     ("Otros", SFloat [None; None; None]);
     ("Total", SInt [121; 60; 5])].

Definition file : xlsx_file :=
  mkxlsx ["Mis Comprobantes Emitidos - CUIT 30716820080"] ledger.

(** What [clean_data] returns for it. *)
Definition ledger_cleaned : DataFrame :=
  mkframe 4
    [("Fecha", SObject [OStr "15/03/2025"; OStr "16/03/2025"; OStr "01/04/2025"; OStr ""]);
     ("Tipo", SObject [OStr "1 - Factura A"; OStr "3 - Nota de Crédito A"; OStr "NC";
                       OStr ""]);
     ("Tipo Cambio", SObject [OFloat 1%float; OFloat 2%float; OFloat 1%float; OStr ""]);
     ("Moneda", SObject [OStr "$"; OStr "USD"; OStr "$"; OStr ""]);
     ("Neto", SFloat [Some 100%float; Some (-100)%float; Some (-3.5)%float;
                      Some (-3.5)%float]);
     ("Total", SFloat [Some 121%float; Some (-120)%float; Some (-5)%float;
                       Some (-4)%float])].

(** Two documents in dollars, an invoice and a credit note, in a table
    whose exchange rate stands after the marker. *)
Definition rate_after : DataFrame :=
  mkframe 2
    [("Fecha", SObject [OStr "15/03/2025"; OStr "16/03/2025"]);
     ("Tipo", SObject [OStr "1 - Factura A"; OStr "NC"]);
     ("Moneda", SObject [OStr "USD"; OStr "USD"]);
     ("Tipo Cambio", SInt [2; 2]);
     ("Neto", SInt [10; 10])].

Definition rate_after_file : xlsx_file :=
  mkxlsx ["Mis Comprobantes Emitidos - CUIT 30716820080"] rate_after.

(** The loop squares the rate and signs it, and scales "Neto" by what it
    has left. *)
Definition rate_after_cleaned : DataFrame :=
  mkframe 3
    [("Fecha", SObject [OStr "15/03/2025"; OStr "16/03/2025"; OStr ""]);
     ("Tipo", SObject [OStr "1 - Factura A"; OStr "NC"; OStr ""]);
     ("Moneda", SObject [OStr "USD"; OStr "USD"; OStr ""]);
     ("Tipo Cambio", SInt [4; -4; 0]);
     ("Neto", SInt [40; -40; 0])].

End Ejemplo.

(** ** What the store operations compute *)

Section Stores.
Import ExcelProcessor DriveHandler.
Context {lib : Library}.

Definition folder_query (folder_name : string) (parent_id : option nat) (f : drive_file)
  : bool :=
  String.eqb (name f) folder_name && mime_eqb (mime_type f) Folder && negb (trashed f)
  && match parent_id with
     | Some p => in_parent p f
     | None => true
     end.

Definition found_folder (fs : list drive_file) (folder_name : string)
           (parent_id : option nat) : option nat :=
  option_map id (head (List.filter (folder_query folder_name parent_id) fs)).

(** The files a look-up of the yearly workbook lists. *)
Definition workbook_query (folder : nat) (fname : string) (f : drive_file) : bool :=
  String.eqb (name f) fname && in_parent folder f && negb (trashed f).

Definition root_of (d : DriveHandler.t) : option nat :=
  match root_folder_id d with
  | Some r => Some r
  | None => found_folder (files d) ROOT_FOLDER_NAME None
  end.

(** The store once the handler has looked its root folder up. *)
Definition with_root (d : DriveHandler.t) : DriveHandler.t :=
  DriveHandler.mk (files d) (next_id d) (root_of d).

Definition no_root_msg : string :=
  "No se encontró la carpeta '" +:+ ROOT_FOLDER_NAME +:+ "' en Drive".

Definition structure_of (fs : list drive_file) (root : nat) (client_name : string)
  : result client_structure :=
  match found_folder fs client_name (Some root) with
  | None => Raise (Exception ("No se encontró el cliente '" +:+ client_name +:+ "'"))
  | Some c =>
      Ok (mkstructure c (found_folder fs "Ventas" (Some c))
                      (found_folder fs "Compras" (Some c)))
  end.

(** The folder of the yearly workbooks of a client and type. *)
Definition type_folder_of (d : DriveHandler.t) (client_name tipo : string) : result nat :=
  result_bind (of_option (root_of d) (Exception no_root_msg)) (fun root =>
  result_bind (structure_of (files d) root client_name) (fun structure =>
  of_option (type_folder structure tipo) (Exception (no_folder_msg client_name tipo)))).

(** The store after a look-up: files and ids as before, the root folder
    remembered. *)
Definition after_lookup (d : DriveHandler.t) : DriveHandler.t :=
  match root_folder_id d with
  | Some _ => d
  | None => with_root d
  end.

(** Ids name one entry each, and [next_id] is new. *)
Definition store_ok (d : DriveHandler.t) : Prop :=
  NoDup (map id (files d)) /\ forall f, In f (files d) -> (id f < next_id d)%nat.

Definition has_id (file_id : nat) (f : drive_file) : bool := (id f =? file_id)%nat.

Definition set_content (file_id : nat) (wb : workbook) (f : drive_file) : drive_file :=
  if has_id file_id f
  then mkfile (id f) (name f) (mime_type f) (parent f) (trashed f) wb
  else f.

End Stores.

(** The example of a store: the root folder, one client with its two
    folders, and the yearly workbook of its sales of 2025. *)
Module Tienda.
Import ExcelProcessor DriveHandler App.

Definition carpetas : list drive_file :=
  [mkfile 0 "Clientes Libros Iva" Folder None false [];
   mkfile 1 "Panaderia Sol" Folder (Some 0%nat) false [];
   mkfile 2 "Ventas" Folder (Some 1%nat) false [];
   mkfile 3 "Compras" Folder (Some 1%nat) false []].

Definition libro (kind : mime) (sheets : list string) : drive_file :=
  mkfile 4 "Libro Iva Ventas 2025 Panaderia Sol.xlsx" kind (Some 2%nat) false
         (map (fun n => mksheet n []) sheets).

Definition drive (kind : mime) (sheets : list string) : DriveHandler.t :=
  DriveHandler.mk (carpetas ++ [libro kind sheets])%list 5 None.

(** The ledger of March, for the year and with the confirmation given. *)
Definition pedido (year : Z) (confirmed : bool) : request :=
  mkrequest Ejemplo.file "Panaderia Sol" "ventas" year 3 "Marzo" confirmed.

End Tienda.

(** ** What [process_file] computes *)

Section Merges.
Import Pandas ExcelProcessor DriveHandler App Denote Table.
Context {lib : Library}.

(** What [add_sheet_to_workbook] answers and leaves in the local file, for
    the workbook [wb] found there and the frame [f] to insert. *)
Definition add_sheet (wb : workbook) (sheet_name : string) (f : DataFrame)
  : result (string * option workbook) :=
  if mem sheet_name (sheetnames wb) then Ok ("exists", Some wb)
  else
    let wb := if mem "_temp" (sheetnames wb) then remove_sheet "_temp" wb else wb in
    result_bind (sheet_title (sheetnames wb) sheet_name) (fun title =>
    Ok ("success", Some (wb ++ [mksheet title (dataframe_to_rows f)])%list)).

(** Steps 5 and 6 of [process_file]: the sheet is added to the downloaded
    workbook, which then replaces the remote one. *)
Definition commit (req : request) (cleaned : DataFrame) (filename : string)
           (file_id : nat) (downloaded_file : workbook) : D response :=
  let* result := lift (add_sheet downloaded_file (month_name req) cleaned) in
  if String.eqb (fst result) "exists"
  then raise (HTTPException 400 (duplicate_msg (month_name req) filename))
  else
    let* saved := lift (of_option (snd result) (Exception "no such file")) in
    let* _ := update_file file_id saved in
    ret (Processed (success_msg (month_name req) filename)
                   (Z.of_nat (nrows cleaned) - 1)
                   (client req) (tipo req) (year req) (month_name req)).

(** Step 4 onwards. *)
Definition proceed (req : request) (cleaned : DataFrame) (filename : string)
           (file_id : option nat) : D response :=
  let* file_id := lift (of_option file_id HttpError) in
  let* downloaded_file := download_file file_id in
  commit req cleaned filename file_id downloaded_file.

(** The steps of [process_file] that talk to the store, for the cleaned
    table [cleaned]. *)
Definition merge (req : request) (cleaned : DataFrame) : D response :=
  let* file_check := check_year_file_exists (client req) (tipo req) (year req) in
  let filename := filename file_check in
  if negb (exists_ file_check) then
    if negb (create_if_not_exists req)
    then ret (NeedsConfirmation (confirm_msg filename))
    else
      let* file_id := create_year_file (client req) (tipo req) (year req) in
      proceed req cleaned filename (Some file_id)
  else proceed req cleaned filename (file_id file_check).

(** [except HTTPException: raise], [except Exception as e: raise
    HTTPException(500, str(e))] *)
Definition handled (e : exn) : exn :=
  match e with
  | HTTPException status detail => HTTPException status detail
  | _ => HTTPException 500 (str_exn e)
  end.

(** The workbook a merge works on: the one the look-up found, or the one
    created on the caller's word. *)
Definition located (req : request) (fc : file_check) (d1 : DriveHandler.t)
           (file_id : nat) (d2 : DriveHandler.t) : Prop :=
  (exists_ fc = true /\ DriveHandler.file_id fc = Some file_id /\ d2 = d1) \/
  (exists_ fc = false /\ create_if_not_exists req = true /\
   create_year_file (client req) (tipo req) (year req) d1 = (Ok file_id, d2)).

End Merges.

(** ** [cuit_mapper.py] *)

Module CUITMapper.

(** A [dict] from text to text: the items in insertion order, every key
    once. *)
Definition dict := list (string * string).

(** [d.get(k)] *)
Fixpoint get (k : string) (d : dict) : option string :=
  match d with
  | [] => None
  | (k', v) :: d' => if String.eqb k' k then Some v else get k d'
  end.

(** [d[k] = v]: a key that is there keeps its place. *)
Fixpoint set (k v : string) (d : dict) : dict :=
  match d with
  | [] => [(k, v)]
  | (k', v') :: d' =>
      if String.eqb k' k then (k', v) :: d' else (k', v') :: set k v d'
  end.

(** [del d[k]], for a key that is there *)
Fixpoint del (k : string) (d : dict) : dict :=
  match d with
  | [] => []
  | (k', v') :: d' => if String.eqb k' k then d' else (k', v') :: del k d'
  end.

(** [k in d] *)
Definition contains (k : string) (d : dict) : bool :=
  existsb (fun kv => String.eqb (fst kv) k) d.

(** The mapper and the file [cuit_mapping.json] of its directory ([None]
    when there is none): what the file holds is the [dict] that [json.load]
    reads from it. *)
Record t := mk {
  mapping : dict;
  file : option dict
}.

Definition load_mapping (file : option dict) : dict :=
  match file with
  | Some d => d
  | None => []
  end.

(** [CUITMapper()] *)
Definition init (file : option dict) : t := mk (load_mapping file) file.

Definition save_mapping (self : t) : t := mk (mapping self) (Some (mapping self)).

Definition add_client (cuit client_name : string) (self : t) : t :=
  save_mapping (mk (set cuit client_name (mapping self)) (file self)).

Definition get_client_by_cuit (cuit : string) (self : t) : option string :=
  get cuit (mapping self).

Definition get_cuit_by_client (client_name : string) (self : t) : option string :=
  option_map fst (List.find (fun kv => String.eqb (snd kv) client_name) (mapping self)).

Definition client_exists (cuit : string) (self : t) : bool :=
  contains cuit (mapping self).

(** [self.mapping.copy()] *)
Definition get_all_clients (self : t) : dict := mapping self.

End CUITMapper.

(** ** [Utils/drive_handler.py]: the clients *)

Module DriveClients.
Import ExcelProcessor DriveHandler.
Section WithLibrary.
Context {lib : Library}.

(** [files().create(body={name, mimeType: folder, parents: [parent]})] *)
Definition create_folder (folder_name : string) (parent_id : nat) : D nat :=
  fun s =>
    let file_id := next_id s in
    (Ok file_id,
     DriveHandler.mk
       (files s ++ [mkfile file_id folder_name Folder (Some parent_id) false []])%list
       (S file_id) (root_folder_id s)).

Record client_info := mkclient {
  c_name : string;
  c_id : nat;
  c_enabled : bool
}.

(** [self.DISABLED_CLIENTS]: neither the class nor [__init__] defines it. *)
Definition DISABLED_CLIENTS : result (list string) := Raise AttributeError.

(** The loop of [list_clients] over the folders listed. *)
Fixpoint collect_clients (items : list drive_file) : result (list client_info) :=
  match items with
  | [] => Ok []
  | item :: items' =>
      if String.eqb (Text.lower (name item)) "cuits" then collect_clients items'
      else
        result_bind DISABLED_CLIENTS (fun disabled =>
        let client := mkclient (name item) (id item)
                               (negb (Pandas.mem (Text.lower (name item)) disabled)) in
        result_bind (collect_clients items') (fun clients => Ok (client :: clients)))
  end.

Section Listing.

(** The order in which the store answers a listing with [orderBy='name']. *)
Variable order_by_name : list drive_file -> list drive_file.

Definition list_clients : D (list client_info) :=
  let* root_id := get_root_folder_id in
  let* items := list_files (fun f =>
    in_parent root_id f && mime_eqb (mime_type f) Folder && negb (trashed f)) in
  lift (collect_clients (order_by_name items)).

Record cuit_search := mksearch {
  found : bool;
  found_name : option string;
  searched_cuit : string
}.

Definition find_client_by_cuit (cuit : string) : D cuit_search :=
  let* clients := list_clients in
  ret (mksearch false None cuit).

(** [test_connection()], for a handler that authenticates: a new handler
    on the store of [s]. *)
Definition test_connection (s : DriveHandler.t) : bool :=
  let handler := DriveHandler.mk (files s) (next_id s) None in
  match list_clients handler with
  | (Ok clients, _) => true
  | (Raise e, _) => false
  end.

End Listing.

Record client_result := mkresult {
  success : bool;
  new_client_id : option nat;
  new_ventas_id : option nat;
  new_compras_id : option nat;
  message : string
}.

Definition exists_msg (client_name : string) : string :=
  "El cliente '" +:+ client_name +:+ "' ya existe".

Definition created_msg (client_name : string) : string :=
  "Cliente '" +:+ client_name +:+ "' creado exitosamente".

Definition create_client (client_name cuit : string) : D client_result :=
  let* root_id := get_root_folder_id in
  let* existing := find_folder client_name (Some root_id) in
  match existing with
  | Some _ => ret (mkresult false None None None (exists_msg client_name))
  | None =>
      let* client_id := create_folder client_name root_id in
      let* ventas_id := create_folder "Ventas" client_id in
      let* compras_id := create_folder "Compras" client_id in
      ret (mkresult true (Some client_id) (Some ventas_id) (Some compras_id)
                    (created_msg client_name))
  end.

End WithLibrary.
End DriveClients.

(** ** Rows of a frame: [iloc], [fillna], [to_dict] *)

Module Rows.
Import Pandas.
Section WithLibrary.
Context {lib : Library}.

Definition series_rows (rows : list nat) (s : series) : option series :=
  match s with
  | SInt xs => option_map SInt (mapM (fun i => xs !! i) rows)
  | SFloat xs => option_map SFloat (mapM (fun i => xs !! i) rows)
  | SBool xs => option_map SBool (mapM (fun i => xs !! i) rows)
  | SDatetime xs => option_map SDatetime (mapM (fun i => xs !! i) rows)
  | SObject xs => option_map SObject (mapM (fun i => xs !! i) rows)
  end.

(** [df.iloc[rows]] for a list of positions *)
Definition iloc (rows : list nat) (df : DataFrame) : result DataFrame :=
  if forallb (fun i => (i <? nrows df)%nat) rows then
    of_option
      (option_map (mkframe (length rows))
         (mapM (fun c => option_map (pair (fst c)) (series_rows rows (snd c))) (columns df)))
      IndexError
  else Raise IndexError.

(** [s.fillna(v)]: a column without missing cells is left as it is. *)
Definition series_fillna (v : pyobj) (s : series) : series :=
  if existsb obj_isna (to_object s)
  then SObject (map (fun o => if obj_isna o then v else o) (to_object s))
  else s.

Definition fillna (v : pyobj) (df : DataFrame) : DataFrame :=
  mkframe (nrows df) (map (fun c => (fst c, series_fillna v (snd c))) (columns df)).

(** [df.to_dict('records')] *)
Definition to_dict_records (df : DataFrame) : list (list (string * pyobj)) :=
  map (fun i => map (fun c => (fst c, nth i (to_object (snd c)) ONaN)) (columns df))
      (seq 0 (nrows df)).

End WithLibrary.
End Rows.

(** ** [fastapi_app.py]: the other handlers *)

Module Api.
Import ExcelProcessor.
Section WithLibrary.
Context {lib : Library}.

(** What the handlers share: the frames built so far, the Drive handler
    with the store, and the mapper with its file. *)
Record server := mkserver {
  s_heap : heap;
  s_drive : DriveHandler.t;
  s_mapper : CUITMapper.t
}.

Definition on_heap {A} (m : M A) : ST server A :=
  fun s => let (r, h) := m (s_heap s) in (r, mkserver h (s_drive s) (s_mapper s)).

Definition on_drive {A} (m : DriveHandler.D A) : ST server A :=
  fun s => let (r, d) := m (s_drive s) in (r, mkserver (s_heap s) d (s_mapper s)).

(** A method of the mapper that changes it. *)
Definition on_mapper (g : CUITMapper.t -> CUITMapper.t) : ST server unit :=
  fun s => (Ok tt, mkserver (s_heap s) (s_drive s) (g (s_mapper s))).

(** A method of the mapper that reads it. *)
Definition ask_mapper {A} (g : CUITMapper.t -> A) : ST server A :=
  fun s => (Ok (g (s_mapper s)), s).

(** [try: m except Exception as e: handler(e)] *)
Definition try_except {S A} (m : ST S A) (handler : exn -> ST S A) : ST S A :=
  fun s =>
    match m s with
    | (Ok a, s') => (Ok a, s')
    | (Raise e, s') => handler e s'
    end.

(** [except Exception as e: raise HTTPException(status_code=400, detail=str(e))] *)
Definition as_400 {S A} (e : exn) : ST S A := raise (HTTPException 400 (App.str_exn e)).

(** [except HTTPException: raise], then [except Exception as e: raise
    HTTPException(status_code=500, detail=str(e))] *)
Definition as_500 {S A} (e : exn) : ST S A :=
  match e with
  | HTTPException status detail => raise (HTTPException status detail)
  | _ => raise (HTTPException 500 (App.str_exn e))
  end.

(** *** [GET /api/clients] *)

Record client_entry := mkentry {
  e_name : string;
  e_id : string;
  e_enabled : bool
}.

(** [clients.sort(key=lambda x: x['name'].lower())] *)
Definition by_lower_name (a b : client_entry) : bool :=
  String.leb (str_lower (e_name a)) (str_lower (e_name b)).

Definition get_clients_try : ST server (list client_entry) :=
  let* all_clients := ask_mapper CUITMapper.get_all_clients in
  let clients := map (fun kv => mkentry (snd kv) (fst kv) true) all_clients in
  ret (Pandas.sort_by by_lower_name clients).

Definition get_clients : ST server (list client_entry) :=
  try_except get_clients_try (fun e => raise (HTTPException 500 (App.str_exn e))).

(** *** [POST /api/detect-month] *)

Record period := mkperiod {
  p_month : Z;
  p_year : Z;
  p_month_name : string
}.

Definition detect_month_try (file : xlsx_file) : ST server period :=
  let processor := init file in
  let* (_, processor) := on_heap (read_excel processor) in
  let* (my, processor) := on_heap (ExcelProcessor.detect_month processor) in
  let month_name := get_month_name (fst my) in
  ret (mkperiod (fst my) (snd my) month_name).

Definition detect_month (file : xlsx_file) : ST server period :=
  try_except (detect_month_try file) as_400.

(** *** [POST /api/preview] *)

Record preview := mkpreview {
  preview_rows : list (list (string * pyobj));
  preview_columns : list string;
  total_rows : Z;
  preview_columns_kept : Z
}.

Definition preview_file_try (file : xlsx_file) : ST server preview :=
  let processor := init file in
  let* (_, processor) := on_heap (read_excel processor) in
  let* (df_clean, processor) := on_heap (clean_data processor) in
  let* f := on_heap (load df_clean) in
  let* preview_df :=
    (if (10 <? Pandas.nrows f)%nat
     then lift (Rows.iloc (seq 0 10 ++ [(Pandas.nrows f - 1)%nat])%list f)
     else ret f) in
  let preview_data := Rows.to_dict_records (Rows.fillna (OStr "") preview_df) in
  let columns := Pandas.labels f in
  ret (mkpreview preview_data columns (Z.of_nat (Pandas.nrows f) - 1)
                 (Z.of_nat (length columns))).

Definition preview_file (file : xlsx_file) : ST server preview :=
  try_except (preview_file_try file) as_400.

(** *** [POST /api/create-client] *)

Record client_response := mkresponse {
  r_message : string;
  r_client_name : string;
  r_cuit : string
}.

Definition registered_msg (cuit existing_name : string) : string :=
  "El CUIT " +:+ cuit +:+ " ya está registrado para el cliente '" +:+ existing_name +:+ "'".

Definition added_msg (client_name : string) : string :=
  "Cliente '" +:+ client_name +:+ "' agregado al sistema (ya existía en Drive)".

(** [f"...{existing_name}..."]: [None] is written as its name. *)
Definition str_opt (o : option string) : string :=
  match o with
  | Some s => s
  | None => "None"
  end.

Definition is_some_id (o : option nat) : bool :=
  match o with
  | Some _ => true
  | None => false
  end.

Definition create_client_try (client_name cuit : string) : ST server client_response :=
  let* taken := ask_mapper (CUITMapper.client_exists cuit) in
  if taken then
    let* existing_name := ask_mapper (CUITMapper.get_client_by_cuit cuit) in
    raise (HTTPException 400 (registered_msg cuit (str_opt existing_name)))
  else
    let* result := on_drive (DriveClients.create_client client_name cuit) in
    if negb (DriveClients.success result) then
      let* known :=
        (if Text.contains "ya existe" (Text.lower (DriveClients.message result)) then
           try_except
             (let* structure := on_drive (DriveHandler.get_client_structure client_name) in
              if is_some_id (DriveHandler.ventas_id structure)
                 && is_some_id (DriveHandler.compras_id structure)
              then
                let* _ := on_mapper (CUITMapper.add_client cuit client_name) in
                ret (Some (mkresponse (added_msg client_name) client_name cuit))
              else ret None)
             (fun e => ret None)
         else ret None) in
      match known with
      | Some response => ret response
      | None => raise (HTTPException 400 (DriveClients.message result))
      end
    else
      let* _ := on_mapper (CUITMapper.add_client cuit client_name) in
      let* saved_client := ask_mapper (CUITMapper.get_client_by_cuit cuit) in
      ret (mkresponse (DriveClients.message result) client_name cuit).

Definition create_client (client_name cuit : string) : ST server client_response :=
  try_except (create_client_try client_name cuit) as_500.

(** *** [POST /api/edit-client] *)

Definition taken_msg (cuit existing : string) : string :=
  "El CUIT " +:+ cuit +:+ " ya está registrado para '" +:+ existing +:+ "'".

(** [not old_name]: [None] or the empty text *)
Definition falsy (o : option string) : bool :=
  match o with
  | Some s => String.eqb s ""
  | None => true
  end.

Definition edit_client_try (old_cuit new_name new_cuit : string)
  : ST server client_response :=
  let* old_name := ask_mapper (CUITMapper.get_client_by_cuit old_cuit) in
  if falsy old_name then raise (HTTPException 404 "Cliente no encontrado")
  else
    let* _ :=
      (if negb (String.eqb old_cuit new_cuit) then
         let* taken := ask_mapper (CUITMapper.client_exists new_cuit) in
         if taken then
           let* existing := ask_mapper (CUITMapper.get_client_by_cuit new_cuit) in
           raise (HTTPException 400 (taken_msg new_cuit (str_opt existing)))
         else ret tt
       else ret tt) in
    let* all_clients := ask_mapper CUITMapper.get_all_clients in
    let all_clients :=
      if CUITMapper.contains old_cuit all_clients
      then CUITMapper.del old_cuit all_clients else all_clients in
    let all_clients := CUITMapper.set new_cuit new_name all_clients in
    let* _ := on_mapper (fun self => CUITMapper.mk all_clients (CUITMapper.file self)) in
    let* _ := on_mapper CUITMapper.save_mapping in
    ret (mkresponse "Cliente actualizado exitosamente" new_name new_cuit).

Definition edit_client (old_cuit new_name new_cuit : string) : ST server client_response :=
  try_except (edit_client_try old_cuit new_name new_cuit) as_500.

(** *** [POST /api/auto-detect-all] *)

Record detection := mkdetection {
  d_cuit : string;
  d_client : option string;
  d_client_found : bool;
  d_tipo : string;
  d_month : Z;
  d_year : Z;
  d_month_name : string
}.

Definition auto_detect_all_try (file : xlsx_file) : ST server detection :=
  let processor := init file in
  let* header_info := lift (detect_info_from_header processor) in
  let* client_name := ask_mapper (CUITMapper.get_client_by_cuit (cuit header_info)) in
  let* (_, processor) := on_heap (read_excel processor) in
  let* (my, processor) := on_heap (ExcelProcessor.detect_month processor) in
  let month_name := get_month_name (fst my) in
  ret (mkdetection (cuit header_info) client_name
                   (match client_name with Some _ => true | None => false end)
                   (tipo header_info) (fst my) (snd my) month_name).

Definition auto_detect_all (file : xlsx_file) : ST server detection :=
  try_except (auto_detect_all_try file) as_400.

End WithLibrary.
End Api.

(** ** Vocabulary of the statements about clients *)

Section ClientNotions.
Import ExcelProcessor DriveHandler.
Context {lib : Library}.

(** The folders [list_clients] asks for. *)
Definition client_folder (root_id : nat) (f : drive_file) : bool :=
  in_parent root_id f && mime_eqb (mime_type f) Folder && negb (trashed f).

Definition is_cuits (f : drive_file) : bool :=
  String.eqb (Text.lower (name f)) "cuits".

(** No entry lies in a folder that is yet to be created. *)
Definition parents_ok (d : DriveHandler.t) : Prop :=
  forall f p, In f (files d) -> parent f = Some p -> (p < next_id d)%nat.

(** The name can stand between the quotes of a query as it is: it holds
    neither a quote nor a backslash. *)
Definition query_safe (s : string) : Prop :=
  Text.contains "'" s = false /\ Text.contains "\" s = false.

(** The three folders of a new client. *)
Definition client_folders (client_name : string) (root_id next : nat) : list drive_file :=
  [mkfile next client_name Folder (Some root_id) false [];
   mkfile (S next) "Ventas" Folder (Some next) false [];
   mkfile (S (S next)) "Compras" Folder (Some next) false []].

End ClientNotions.

(** ** Vocabulary of the statements about cleaning *)

Section CleaningNotions.
Import Pandas ExcelProcessor Denote Table.
Context {lib : Library}.

(** The dtypes a numeric column can be multiplied by. *)
Definition rate_multiplies (s : series) : bool :=
  match s with
  | SInt _ | SFloat _ | SBool _ => true
  | _ => false
  end.

(** Text or dates: the dtypes [clean_data] accepts for "Fecha". *)
Definition is_dates (s : series) : bool :=
  match s with
  | SObject _ | SDatetime _ => true
  | _ => false
  end.

(** The first statement of [clean_data] that fails on the table [f0], with
    the exception it raises: the look-up of "Moneda", of "Tipo", the
    product with "Tipo Cambio" in the loop over the monetary columns, the
    formatting of "Fecha". *)
Definition clean_error (f0 : DataFrame) : option exn :=
  match index_of "Moneda" (labels f0) with
  | None => Some (ValueError no_moneda_msg)
  | Some moneda_idx =>
      let f := scrub moneda_idx f0 in
      match assoc "Tipo" (columns f) with
      | None => Some (KeyError "Tipo")
      | Some _ =>
          let after_loop :=
            match assoc "Fecha" (columns f) with
            | None => Some (KeyError "Fecha")
            | Some fecha => if is_dates fecha then None else Some AttributeError
            end in
          match Denote.numeric_cols moneda_idx f with
          | [] => after_loop
          | _ :: _ =>
              match assoc "Tipo Cambio" (columns f) with
              | None => Some (KeyError "Tipo Cambio")
              | Some rate => if rate_multiplies rate then after_loop else Some TypeError
              end
          end
      end
  end.

(** A cell of a column of dates as [dt.strftime] writes it. *)
Definition formatted_cell (v : pyobj) : pyobj :=
  match v with
  | ODate d => OStr (strftime_dmy d)
  | ONaT => ONaN
  | _ => v
  end.

(** The cell of the cleaned table for the cell [v] of a column that is not
    monetary: a date of "Fecha" is formatted, everything else is kept. *)
Definition written_cell (f0 : DataFrame) (col : string) (v : pyobj) : pyobj :=
  match assoc col (columns f0) with
  | Some (SDatetime _) => if String.eqb col "Fecha" then formatted_cell v else v
  | _ => v
  end.

(** What [clean_data] answers: the table, or the exception. *)
Definition clean_result (self : ExcelProcessor.t) (h : heap) : result DataFrame :=
  match clean_data self h with
  | (Ok (l, _), h') => of_option (h' !! l) (Exception "no such object")
  | (Raise e, _) => Raise e
  end.

(** What [detect_month] answers: the period, or the exception. *)
Definition detected (self : ExcelProcessor.t) (h : heap) : result (Z * Z) :=
  match detect_month self h with
  | (Ok (my, _), _) => Ok my
  | (Raise e, _) => Raise e
  end.

End CleaningNotions.

(** ** Vocabulary of the statements about the preview *)

Section PreviewNotions.
Import Pandas.
Context {lib : Library}.

(** The record of row [i] in [df.fillna(v).to_dict('records')]. *)
Definition filled_row (v : pyobj) (f : DataFrame) (i : nat) : list (string * pyobj) :=
  map (fun c => (fst c, let o := nth i (to_object (snd c)) ONaN in
                        if obj_isna o then v else o)) (columns f).

End PreviewNotions.

(** ** Vocabulary of the statements about failures *)

Section FailureNotions.
Import Pandas ExcelProcessor Denote.
Context {lib : Library}.

(** The exchange rate the loop multiplies by, if there is one, is no column
    of [object] dtype. *)
Definition rate_is_no_object (f : DataFrame) : Prop :=
  forall moneda_idx rate,
    index_of "Moneda" (labels f) = Some moneda_idx ->
    assoc "Tipo Cambio" (columns (scrub moneda_idx f)) = Some rate ->
    is_object rate = false.

(** An exception that is no [HTTPException]. *)
Definition plain (e : exn) : Prop :=
  match e with
  | HTTPException _ _ => False
  | _ => True
  end.

End FailureNotions.

(** * Properties *)

(** ** A library

    One choice of what the libraries decide: the sum adds from left to
    right, the sort of the counts is stable, [str.lower()] lowers the
    letters A to Z. *)

Section Sorting.

Lemma insert_by_perm {A} (le : A -> A -> bool) (x : A) (l : list A) :
  Permutation (Pandas.insert_by le x l) (x :: l).
Proof.
  induction l as [|y l IH]; simpl; [reflexivity|].
  destruct (le x y); [reflexivity|].
  rewrite IH. apply perm_swap.
Qed.

Lemma sort_by_perm {A} (le : A -> A -> bool) (l : list A) :
  Permutation (Pandas.sort_by le l) l.
Proof.
  induction l as [|x l IH]; simpl; [reflexivity|].
  rewrite insert_by_perm. now constructor.
Qed.

Lemma insert_by_sorted {A} (le : A -> A -> bool) (x : A) (l : list A) :
  (forall a b, le a b = true \/ le b a = true) ->
  Sorted (fun a b => le a b = true) l ->
  Sorted (fun a b => le a b = true) (Pandas.insert_by le x l).
Proof.
  intros Htot. induction l as [|y l IH]; simpl; intros Hs.
  - repeat constructor.
  - destruct (le x y) eqn:E.
    + constructor; [exact Hs | constructor; exact E].
    + apply Sorted_inv in Hs as [Hs Hhd]. constructor; [now apply IH|].
      assert (Hyx : le y x = true) by (destruct (Htot x y); congruence).
      destruct l as [|z l]; simpl; [now constructor|].
      destruct (le x z); constructor; [exact Hyx|].
      now apply HdRel_inv in Hhd.
Qed.

Lemma sort_by_sorted {A} (le : A -> A -> bool) (l : list A) :
  (forall a b, le a b = true \/ le b a = true) ->
  Sorted (fun a b => le a b = true) (Pandas.sort_by le l).
Proof.
  intros Htot. induction l as [|x l IH]; simpl; [constructor|].
  now apply insert_by_sorted.
Qed.

Lemma by_count_total (a b : Z * nat) : by_count a b = true \/ by_count b a = true.
Proof.
  unfold by_count. destruct (Nat.leb_spec (snd b) (snd a)); [now left|right].
  apply Nat.leb_le. lia.
Qed.

Lemma sort_by_count_sorted (l : list (Z * nat)) :
  Sorted (fun a b => (snd b <= snd a)%nat) (Pandas.sort_by by_count l).
Proof.
  pose proof (sort_by_sorted by_count l by_count_total) as Hs.
  induction Hs as [|a l' Hs IH Hhd]; constructor; [exact IH|].
  destruct Hhd as [|b l'' Hab]; constructor.
  unfold by_count in Hab. now apply Nat.leb_le in Hab.
Qed.

(** The library of the examples. *)
Definition left_to_right : Library := {|
  np_sum := fun xs => fold_left PrimFloat.add xs 0%float;
  order_counts := Pandas.sort_by by_count;
  str_lower := Text.lower;
  lib_text := fun e =>
    match e with
    | TypeError => "unsupported operand type(s)"
    | AttributeError => "Can only use .dt accessor with datetimelike values"
    | IndexError => "single positional indexer is out-of-bounds"
    | _ => "HttpError"
    end;
  order_counts_perm := sort_by_perm by_count;
  order_counts_sorted := sort_by_count_sorted
|}.

End Sorting.

(** ** Running the heap computations *)

Section Run.
Import Pandas ExcelProcessor Denote.
Context {lib : Library}.

Lemma lookup_snoc {A} (h : list A) (a : A) : (h ++ [a])%list !! length h = Some a.
Proof. rewrite lookup_app_r by lia. now rewrite Nat.sub_diag. Qed.

Lemma insert_snoc {A} (h : list A) (a b : A) :
  <[length h := b]> (h ++ [a])%list = (h ++ [b])%list.
Proof.
  rewrite insert_app_r_alt by lia. now rewrite Nat.sub_diag.
Qed.

Lemma result_bind_Ok {A B} (r : result A) (k : A -> result B) (b : B) :
  result_bind r k = Ok b -> exists a, r = Ok a /\ k a = Ok b.
Proof. destruct r; simpl; [eauto | discriminate]. Qed.

Lemma assoc_set_eq (name : string) (s : series) (cs : list (string * series)) :
  assoc name (assoc_set name s cs) = Some s.
Proof.
  induction cs as [|[n x] cs IH]; simpl.
  - now rewrite String.eqb_refl.
  - destruct (String.eqb n name) eqn:E; simpl; rewrite E; [reflexivity | exact IH].
Qed.

Lemma getitem_setitem_eq (col : string) (s : series) (f : DataFrame) :
  getitem col (setitem col s f) = Ok s.
Proof. unfold getitem, setitem. simpl. now rewrite assoc_set_eq. Qed.

Lemma series_mul_numeric (a b s : series) :
  series_mul a b = Ok s -> is_numeric s = true.
Proof. destruct a, b; simpl; intros [= <-]; reflexivity. Qed.

(** One pass of the loop body changes the object it is given and nothing else. *)
Lemma scale_and_sign_run (l : loc) (mask : list bool) (col : string) (h : heap) (f : DataFrame) :
  h !! l = Some f ->
  match scale_and_sign_frame mask f col with
  | Ok f' => scale_and_sign l mask col h = (Ok tt, <[l := f']> h)
  | Raise e => scale_and_sign l mask col h = (Raise e, h)
  end.
Proof.
  intros Hl. unfold scale_and_sign_frame, scale_and_sign, bind, load, lift, store.
  rewrite Hl. simpl.
  destruct (getitem col f) as [amounts|e]; simpl; [|reflexivity].
  destruct (getitem "Tipo Cambio" f) as [rate|e]; simpl; [|reflexivity].
  destruct (series_mul amounts rate) as [scaled|e] eqn:Hmul; simpl; [|reflexivity].
  rewrite list_lookup_insert_eq by (eapply lookup_lt_Some; eauto). simpl.
  rewrite getitem_setitem_eq. simpl.
  apply series_mul_numeric in Hmul.
  destruct scaled; try discriminate; simpl; now rewrite list_insert_insert_eq.
Qed.

Lemma for_each_run (l : loc) (mask : list bool) (cols : list string) :
  forall (h : heap) (f : DataFrame),
    h !! l = Some f ->
    match fold_result (scale_and_sign_frame mask) cols f with
    | Ok f' => for_each cols (scale_and_sign l mask) h = (Ok tt, <[l := f']> h)
    | Raise e => exists f', for_each cols (scale_and_sign l mask) h = (Raise e, <[l := f']> h)
    end.
Proof.
  induction cols as [|col cols IH]; intros h f Hl; simpl.
  - unfold ret. now rewrite list_insert_id.
  - pose proof (scale_and_sign_run l mask col h f Hl) as Hstep.
    destruct (scale_and_sign_frame mask f col) as [f1|e]; simpl.
    + assert (Hl1 : <[l := f1]> h !! l = Some f1)
        by (apply list_lookup_insert_eq; eapply lookup_lt_Some; eauto).
      specialize (IH _ _ Hl1).
      destruct (fold_result (scale_and_sign_frame mask) cols f1) as [f2|e].
      * unfold bind. now rewrite Hstep, IH, list_insert_insert_eq.
      * destruct IH as [f' IH]. exists f'. unfold bind.
        now rewrite Hstep, IH, list_insert_insert_eq.
    + exists f. unfold bind. now rewrite Hstep, list_insert_id.
Qed.

Lemma bind_load {A} (l : loc) (k : DataFrame -> M A) (h : heap) (f : DataFrame) :
  h !! l = Some f -> bind (load l) k h = k f h.
Proof. intros Hl. unfold bind, load. now rewrite Hl. Qed.

Lemma bind_alloc {A} (f : DataFrame) (k : loc -> M A) (h : heap) :
  bind (alloc f) k h = k (length h) (h ++ [f])%list.
Proof. reflexivity. Qed.

Lemma bind_store {A} (l : loc) (f : DataFrame) (k : unit -> M A) (h : heap) :
  bind (store l f) k h = k tt (<[l := f]> h).
Proof. reflexivity. Qed.

Lemma bind_lift {S A B} (r : result A) (k : A -> ST S B) (h : S) :
  bind (lift r) k h = (match r with
                       | Ok a => k a h
                       | Raise e => (Raise e, h)
                       end).
Proof. unfold bind, lift. now destruct r. Qed.

Lemma bind_ret {S A B} (a : A) (k : A -> ST S B) (h : S) : bind (ret a) k h = k a h.
Proof. reflexivity. Qed.

Lemma bind_assoc {S A B C} (m : ST S A) (k1 : A -> ST S B) (k2 : B -> ST S C) (h : S) :
  bind (bind m k1) k2 h = bind m (fun x => bind (k1 x) k2) h.
Proof. unfold bind. destruct (m h) as [[a|e] h']; reflexivity. Qed.

Lemma bind_copy {A} (l : loc) (k : loc -> M A) (h : heap) (f : DataFrame) :
  h !! l = Some f -> bind (copy l) k h = k (length h) (h ++ [f])%list.
Proof. intros Hl. unfold copy, bind, load, alloc. now rewrite Hl. Qed.

(** Loading: afterwards the processor points at an object holding the table. *)
Lemma loaded_run (self : ExcelProcessor.t) (h : heap) (f : DataFrame) :
  holds self h f ->
  exists (l : loc) (self' : ExcelProcessor.t) (h' : heap),
    loaded self h = (Ok (l, self'), h') /\
    df self' = Some l /\ file_path self' = file_path self /\
    month_detected self' = month_detected self /\
    h' !! l = Some f /\
    (exists new, h' = (h ++ new)%list) /\
    (df self <> None -> self' = self /\ h' = h).
Proof.
  unfold holds, loaded. intros H. destruct (df self) as [l|] eqn:Hdf.
  - exists l, self, h. repeat split; auto. exists []. now rewrite app_nil_r.
  - subst f. unfold read_excel. rewrite bind_alloc. unfold ret.
    eexists _, _, _. repeat split; simpl; eauto using lookup_snoc; congruence.
Qed.

(** [clean_data] allocates a copy, a scrubbed frame that it then updates in
    place, and the frame it returns; it touches nothing else. *)
Lemma clean_data_run (self : ExcelProcessor.t) (h : heap) (f0 : DataFrame) :
  holds self h f0 ->
  exists (self' : ExcelProcessor.t) (h1 junk : heap),
    file_path self' = file_path self /\
    month_detected self' = month_detected self /\
    (exists l, df self' = Some l /\ h1 !! l = Some f0) /\
    (exists new, h1 = (h ++ new)%list) /\
    (df self <> None -> self' = self /\ h1 = h) /\
    clean_data self h =
      (match clean_frame f0 with
       | Ok out => (Ok (length (h1 ++ junk)%list, self'), ((h1 ++ junk) ++ [out])%list)
       | Raise e => (Raise e, (h1 ++ junk)%list)
       end).
Proof.
  intros Hholds.
  destruct (loaded_run self h f0 Hholds)
    as (l & self' & h1 & Hrun & Hdf & Hpath & Hmonth & Hl & Hnew & Hsame).
  assert (Hgoal : exists junk : heap,
    clean_data self h =
      (match clean_frame f0 with
       | Ok out => (Ok (length (h1 ++ junk)%list, self'), ((h1 ++ junk) ++ [out])%list)
       | Raise e => (Raise e, (h1 ++ junk)%list)
       end)).
  2:{ destruct Hgoal as [junk Hgoal]. exists self', h1, junk.
      repeat split; eauto; now apply Hsame. }
  unfold clean_data, clean_frame. unfold bind at 1. rewrite Hrun.
  rewrite (bind_copy _ _ _ _ Hl).
  rewrite (bind_load _ _ _ _ (lookup_snoc h1 f0)).
  rewrite bind_lift.
  destruct (index_of "Moneda" (labels f0)) as [moneda_idx|]; simpl.
  2:{ now exists [f0]. }
  rewrite bind_alloc.
  rewrite (bind_load _ _ _ _ (lookup_snoc _ _)).
  fold (scrub moneda_idx f0).
  set (f1 := scrub moneda_idx f0).
  fold (Denote.numeric_cols moneda_idx f1).
  set (ncols := Denote.numeric_cols moneda_idx f1).
  rewrite bind_lift.
  destruct (getitem "Tipo" f1) as [tipo|e]; simpl.
  2:{ exists [f0; f1]. now rewrite <- app_assoc. }
  pose proof (for_each_run (length (h1 ++ [f0])%list) (str_contains_nota_credito tipo)
                           ncols _ f1 (lookup_snoc _ _)) as Hloop.
  unfold bind at 1.
  destruct (fold_result (scale_and_sign_frame (str_contains_nota_credito tipo)) ncols f1)
    as [f2|e]; simpl.
  2:{ destruct Hloop as [f' Hloop]. rewrite Hloop, insert_snoc.
      exists [f0; f']. now rewrite <- app_assoc. }
  rewrite Hloop, insert_snoc.
  rewrite (bind_load _ _ _ _ (lookup_snoc _ _)).
  rewrite bind_lift. unfold format_fecha.
  destruct (getitem "Fecha" f2) as [fecha|e]; simpl.
  2:{ exists [f0; f2]. now rewrite <- app_assoc. }
  assert (Htail : forall f3 : DataFrame,
    exists junk : heap,
      (let* f := load (length (h1 ++ [f0])%list) in
       let* totals_row := lift (map_result (totals_cell f ncols) (labels f)) in
       let* df_clean := alloc (concat_row f totals_row) in
       ret (df_clean, self')) ((h1 ++ [f0]) ++ [f3])%list
      = (match append_totals ncols f3 with
         | Ok out => (Ok (length (h1 ++ junk)%list, self'), ((h1 ++ junk) ++ [out])%list)
         | Raise e => (Raise e, (h1 ++ junk)%list)
         end)).
  { intros f3. exists [f0; f3].
    rewrite (bind_load _ _ _ _ (lookup_snoc _ _)), bind_lift. unfold append_totals.
    destruct (map_result (totals_cell f3 ncols) (labels f3)) as [row|e]; simpl.
    - rewrite bind_alloc. unfold ret. now rewrite <- !app_assoc.
    - now rewrite <- !app_assoc. }
  destruct (is_object fecha).
  - destruct (Htail f2) as [junk Hj]. exists junk. now rewrite bind_ret.
  - destruct (dt_strftime fecha) as [formatted|e]; simpl.
    + destruct (Htail (setitem "Fecha" formatted f2)) as [junk Hj]. exists junk.
      rewrite bind_assoc, bind_lift, bind_store, insert_snoc. exact Hj.
    + exists [f0; f2]. rewrite bind_assoc, bind_lift. now rewrite <- app_assoc.
Qed.

End Run.

(** ** Frames: labels, rows and columns under the steps of [clean_data] *)

Section Frames.
Import Pandas ExcelProcessor Denote Table.
Context {lib : Library}.

Lemma mem_In (name : string) (ls : list string) : mem name ls = true <-> In name ls.
Proof.
  unfold mem. rewrite existsb_exists. split.
  - intros (x & Hin & Heq). apply String.eqb_eq in Heq. now subst.
  - intros Hin. exists name. split; [exact Hin | apply String.eqb_refl].
Qed.

Lemma assoc_Some_In (name : string) (cs : list (string * series)) (s : series) :
  assoc name cs = Some s -> In (name, s) cs.
Proof.
  induction cs as [|[n x] cs IH]; simpl; [discriminate|].
  destruct (String.eqb n name) eqn:E.
  - apply String.eqb_eq in E. intros [= <-]. left. now subst.
  - intros H. right. now apply IH.
Qed.

Lemma assoc_In_labels (name : string) (cs : list (string * series)) (s : series) :
  assoc name cs = Some s -> In name (map fst cs).
Proof. intros H. apply assoc_Some_In in H. now apply (in_map fst) in H. Qed.

Lemma assoc_None (name : string) (cs : list (string * series)) :
  assoc name cs = None <-> ~ In name (map fst cs).
Proof.
  induction cs as [|[n x] cs IH]; simpl; [tauto|].
  destruct (String.eqb n name) eqn:E.
  - apply String.eqb_eq in E. split; [discriminate | tauto].
  - apply String.eqb_neq in E. rewrite IH. tauto.
Qed.

Lemma assoc_NoDup (name : string) (cs : list (string * series)) (s : series) :
  NoDup (map fst cs) -> In (name, s) cs -> assoc name cs = Some s.
Proof.
  induction cs as [|[n x] cs IH]; simpl; [tauto|].
  intros Hnd [Heq|Hin].
  - injection Heq as -> ->. now rewrite String.eqb_refl.
  - apply NoDup_cons in Hnd as [Hn Hnd].
    destruct (String.eqb n name) eqn:E.
    + apply String.eqb_eq in E. subst n. exfalso. apply Hn.
      apply list_elem_of_In. now apply (in_map fst) in Hin.
    + now apply IH.
Qed.

Lemma assoc_set_ne (name other : string) (s : series) (cs : list (string * series)) :
  name <> other -> assoc name (assoc_set other s cs) = assoc name cs.
Proof.
  intros Hne. induction cs as [|[n x] cs IH]; simpl.
  - apply String.eqb_neq in Hne. now rewrite String.eqb_sym, Hne.
  - destruct (String.eqb n other) eqn:E; simpl.
    + apply String.eqb_eq in E. subst n.
      apply not_eq_sym, String.eqb_neq in Hne. now rewrite Hne.
    + destruct (String.eqb n name); [reflexivity | exact IH].
Qed.

Lemma labels_assoc_set (name : string) (s : series) (cs : list (string * series)) :
  In name (map fst cs) -> map fst (assoc_set name s cs) = map fst cs.
Proof.
  induction cs as [|[n x] cs IH]; simpl; [tauto|].
  intros Hin. destruct (String.eqb n name) eqn:E; simpl; [reflexivity|].
  f_equal. apply IH. destruct Hin as [->|Hin]; [|exact Hin].
  now rewrite String.eqb_refl in E.
Qed.

Lemma getitem_labels (col : string) (f : DataFrame) (s : series) :
  getitem col f = Ok s -> In col (labels f).
Proof.
  unfold getitem, labels. destruct (assoc col (columns f)) eqn:E; simpl; [|discriminate].
  intros _. eapply assoc_In_labels; eauto.
Qed.

Lemma getitem_assoc (col : string) (f : DataFrame) (s : series) :
  getitem col f = Ok s <-> assoc col (columns f) = Some s.
Proof.
  unfold getitem. destruct (assoc col (columns f)); simpl; split; congruence.
Qed.

Lemma labels_setitem (col : string) (s : series) (f : DataFrame) :
  In col (labels f) -> labels (setitem col s f) = labels f.
Proof. apply labels_assoc_set. Qed.

(** *** The loop keeps labels and row count *)

Lemma scale_and_sign_frame_shape (mask : list bool) (f f' : DataFrame) (col : string) :
  scale_and_sign_frame mask f col = Ok f' ->
  labels f' = labels f /\ nrows f' = nrows f.
Proof.
  unfold scale_and_sign_frame. intros H.
  apply result_bind_Ok in H as (amounts & Ha & H).
  apply result_bind_Ok in H as (rate & Hr & H).
  apply result_bind_Ok in H as (scaled & Hs & H).
  apply result_bind_Ok in H as (amounts' & Ha' & H).
  apply result_bind_Ok in H as (positive & Hp & H).
  apply result_bind_Ok in H as (negated & Hn & H).
  injection H as <-. apply getitem_labels in Ha.
  split; [|reflexivity].
  rewrite labels_setitem; rewrite labels_setitem; auto.
Qed.

Lemma fold_shape (mask : list bool) (cols : list string) :
  forall f f', fold_result (scale_and_sign_frame mask) cols f = Ok f' ->
               labels f' = labels f /\ nrows f' = nrows f.
Proof.
  induction cols as [|col cols IH]; simpl; intros f f' H.
  - now injection H as <-.
  - apply result_bind_Ok in H as (f1 & H1 & H).
    apply scale_and_sign_frame_shape in H1 as [Hl Hn].
    apply IH in H as [Hl' Hn']. split; congruence.
Qed.

Lemma format_fecha_shape (f f' : DataFrame) :
  format_fecha f = Ok f' -> labels f' = labels f /\ nrows f' = nrows f.
Proof.
  unfold format_fecha. intros H.
  apply result_bind_Ok in H as (fecha & Hf & H).
  destruct (is_object fecha).
  - now injection H as <-.
  - apply result_bind_Ok in H as (formatted & _ & H). injection H as <-.
    apply getitem_labels in Hf. split; [now apply labels_setitem | reflexivity].
Qed.

Lemma append_totals_shape (ncols : list string) (f out : DataFrame) :
  append_totals ncols f = Ok out ->
  labels out = labels f /\ nrows out = S (nrows f).
Proof.
  unfold append_totals. intros H.
  apply result_bind_Ok in H as (row & _ & H). injection H as <-.
  unfold concat_row, labels. simpl. split; [|reflexivity].
  rewrite map_map. reflexivity.
Qed.

(** The stages of a successful cleaning. *)
Lemma clean_frame_stages (f0 out : DataFrame) :
  clean_frame f0 = Ok out ->
  exists (moneda_idx : nat) (tipo : series) (f2 f3 : DataFrame),
    index_of "Moneda" (labels f0) = Some moneda_idx /\
    getitem "Tipo" (scrub moneda_idx f0) = Ok tipo /\
    fold_result (scale_and_sign_frame (str_contains_nota_credito tipo))
                (Denote.numeric_cols moneda_idx (scrub moneda_idx f0))
                (scrub moneda_idx f0) = Ok f2 /\
    format_fecha f2 = Ok f3 /\
    append_totals (Denote.numeric_cols moneda_idx (scrub moneda_idx f0)) f3 = Ok out.
Proof.
  unfold clean_frame. intros H.
  apply result_bind_Ok in H as (idx & Hidx & H).
  apply result_bind_Ok in H as (tipo & Htipo & H).
  apply result_bind_Ok in H as (f2 & Hf2 & H).
  apply result_bind_Ok in H as (f3 & Hf3 & H).
  exists idx, tipo, f2, f3. repeat split; auto.
  destruct (index_of "Moneda" (labels f0)); simpl in Hidx; congruence.
Qed.

(** What [cleaned] returns is what [clean_frame] computes. *)
Lemma cleaned_clean_frame (self : ExcelProcessor.t) (h : heap) (f0 out : DataFrame) :
  holds self h f0 -> cleaned self h = Some out -> clean_frame f0 = Ok out.
Proof.
  intros Hholds. unfold cleaned.
  destruct (clean_data_run self h f0 Hholds)
    as (self' & h1 & junk & _ & _ & _ & _ & _ & Hrun).
  rewrite Hrun. destruct (clean_frame f0) as [out'|e]; [|discriminate].
  rewrite lookup_snoc. congruence.
Qed.

Lemma clean_frame_cleaned (self : ExcelProcessor.t) (h : heap) (f0 out : DataFrame) :
  holds self h f0 -> clean_frame f0 = Ok out -> cleaned self h = Some out.
Proof.
  intros Hholds Hc. unfold cleaned.
  destruct (clean_data_run self h f0 Hholds)
    as (self' & h1 & junk & _ & _ & _ & _ & _ & Hrun).
  rewrite Hrun, Hc. apply lookup_snoc.
Qed.

Lemma clean_frame_nrows (f0 out : DataFrame) :
  clean_frame f0 = Ok out -> nrows out = S (nrows f0).
Proof.
  intros H. apply clean_frame_stages in H as (idx & tipo & f2 & f3 & _ & _ & H2 & H3 & H4).
  apply fold_shape in H2 as [_ H2]. apply format_fecha_shape in H3 as [_ H3].
  apply append_totals_shape in H4 as [_ H4]. rewrite H4, H3, H2. reflexivity.
Qed.

(** *** Scrubbing *)

Lemma isna_all_spec (s : series) : isna_all s = true <-> entirely_empty s.
Proof.
  unfold entirely_empty.
  destruct s as [xs|xs|xs|xs|xs]; simpl; rewrite List.Forall_forall, forallb_forall.
  - split; intros H x Hx.
    + apply in_map_iff in Hx as (z & <- & Hz). now apply H in Hz.
    + exact (H (OInt x) (in_map OInt _ _ Hx)).
  - split; intros H x Hx.
    + apply in_map_iff in Hx as (z & <- & Hz). apply H in Hz. now destruct z.
    + specialize (H _ (in_map _ _ _ Hx)). now destruct x.
  - split; intros H x Hx.
    + apply in_map_iff in Hx as (z & <- & Hz). now apply H in Hz.
    + exact (H (OBool x) (in_map OBool _ _ Hx)).
  - split; intros H x Hx.
    + apply in_map_iff in Hx as (z & <- & Hz). apply H in Hz. now destruct z.
    + specialize (H _ (in_map _ _ _ Hx)). now destruct x.
  - reflexivity.
Qed.

Lemma eq0_all_spec (s : series) : eq0_all s = true <-> entirely_zero s.
Proof.
  unfold entirely_zero.
  destruct s as [xs|xs|xs|xs|xs]; simpl; rewrite List.Forall_forall, forallb_forall.
  - split; intros H x Hx.
    + apply in_map_iff in Hx as (z & <- & Hz). now apply H in Hz.
    + exact (H (OInt x) (in_map OInt _ _ Hx)).
  - split; intros H x Hx.
    + apply in_map_iff in Hx as (z & <- & Hz). apply H in Hz. now destruct z.
    + specialize (H _ (in_map _ _ _ Hx)). now destruct x.
  - split; intros H x Hx.
    + apply in_map_iff in Hx as (z & <- & Hz). now apply H in Hz.
    + exact (H (OBool x) (in_map OBool _ _ Hx)).
  - split; intros H x Hx.
    + apply in_map_iff in Hx as (z & <- & Hz). apply H in Hz. now destruct z.
    + specialize (H _ (in_map _ _ _ Hx)). now destruct x.
  - reflexivity.
Qed.

Lemma labels_drop_columns (names : list string) (f : DataFrame) :
  labels (drop_columns names f) = List.filter (fun l => negb (mem l names)) (labels f).
Proof.
  unfold labels, drop_columns. simpl.
  induction (columns f) as [|[n s] cs IH]; simpl; [reflexivity|].
  destruct (mem n names); simpl; [exact IH | now f_equal].
Qed.

Lemma assoc_drop_columns (names : list string) (f : DataFrame) (col : string) :
  assoc col (columns (drop_columns names f))
  = if mem col names then None else assoc col (columns f).
Proof.
  unfold drop_columns. simpl.
  induction (columns f) as [|[n s] cs IH]; simpl.
  - now destruct (mem col names).
  - destruct (String.eqb n col) eqn:E.
    + apply String.eqb_eq in E. subst n. simpl.
      destruct (mem col names) eqn:Em; simpl.
      * exact IH.
      * now rewrite String.eqb_refl.
    + destruct (mem n names); simpl; [exact IH | now rewrite E].
Qed.

Lemma In_drop_position (ls : list string) (k j : nat) (col : string) :
  NoDup ls -> ls !! j = Some col -> (In col (drop k ls) <-> (k <= j)%nat).
Proof.
  intros Hnd Hj. rewrite <- list_elem_of_In, list_elem_of_lookup. split.
  - intros [i Hi]. rewrite lookup_drop in Hi.
    pose proof (NoDup_lookup _ _ _ _ Hnd Hi Hj). lia.
  - intros Hle. exists (j - k)%nat. rewrite lookup_drop.
    now replace (k + (j - k))%nat with j by lia.
Qed.

Lemma column_is_empty_spec (f : DataFrame) (col : string) (s : series) :
  assoc col (columns f) = Some s ->
  column_is_empty f col = true <-> (entirely_empty s \/ entirely_zero s).
Proof.
  intros H. unfold column_is_empty. rewrite H, orb_true_iff, isna_all_spec, eq0_all_spec.
  reflexivity.
Qed.

Lemma columns_lookup (f : DataFrame) (j : nat) (col : string) (s : series) :
  wf_frame f -> columns f !! j = Some (col, s) ->
  labels f !! j = Some col /\ assoc col (columns f) = Some s.
Proof.
  intros [Hnd _] Hj. split.
  - unfold labels. now rewrite list_lookup_fmap, Hj.
  - apply assoc_NoDup; [exact Hnd|].
    apply list_elem_of_In, list_elem_of_lookup. eauto.
Qed.

(** A label survives scrubbing iff it stands at or before the marker or its
    column is neither all NaN nor all zero. *)
Lemma scrub_labels (f : DataFrame) (moneda_idx j : nat) (col : string) (s : series) :
  wf_frame f -> columns f !! j = Some (col, s) ->
  In col (labels (scrub moneda_idx f)) <->
  (j <= moneda_idx)%nat \/ ~ (entirely_empty s \/ entirely_zero s).
Proof.
  intros Hwf Hj. pose proof (columns_lookup _ _ _ _ Hwf Hj) as [Hl Ha].
  destruct Hwf as [Hnd _].
  unfold scrub. rewrite labels_drop_columns, filter_In, negb_true_iff.
  rewrite <- not_true_iff_false, mem_In, filter_In.
  rewrite (In_drop_position _ (moneda_idx + 1) j col Hnd Hl).
  rewrite (column_is_empty_spec _ _ _ Ha).
  assert (Hin : In col (labels f))
    by (apply list_elem_of_In, list_elem_of_lookup; eauto).
  split.
  - intros [_ Hno]. destruct (le_lt_dec j moneda_idx) as [Hle|Hlt]; [now left|].
    right. intros Hempty. apply Hno. split; [lia | exact Hempty].
  - intros [Hle|Hne]; (split; [exact Hin|]); intros [Hpos Hempty]; [lia | tauto].
Qed.

Lemma clean_frame_labels (f0 out : DataFrame) (moneda_idx : nat) :
  clean_frame f0 = Ok out ->
  index_of "Moneda" (labels f0) = Some moneda_idx ->
  labels out = labels (scrub moneda_idx f0).
Proof.
  intros H Hidx.
  apply clean_frame_stages in H as (idx & tipo & f2 & f3 & Hi & _ & H2 & H3 & H4).
  assert (idx = moneda_idx) by congruence. subst idx.
  apply fold_shape in H2 as [H2 _]. apply format_fecha_shape in H3 as [H3 _].
  apply append_totals_shape in H4 as [H4 _]. congruence.
Qed.

(** *** Scaling and sign, cell by cell *)

Lemma wrap64_range (z : Z) : - 2 ^ 63 <= wrap64 z < 2 ^ 63.
Proof.
  unfold wrap64. pose proof (Z.mod_pos_bound (z + 2 ^ 63) (2 ^ 64) ltac:(lia)). lia.
Qed.

Lemma wrap64_small (z : Z) : - 2 ^ 63 <= z < 2 ^ 63 -> wrap64 z = z.
Proof. intros H. unfold wrap64. rewrite Z.mod_small; lia. Qed.

Lemma wrap64_neg_wrap64 (z : Z) : 0 < wrap64 z -> wrap64 (- wrap64 z) = - wrap64 z.
Proof. intros H. pose proof (wrap64_range z). apply wrap64_small. lia. Qed.

Lemma lookup_map {A B} (g : A -> B) (l : list A) (i : nat) :
  map g l !! i = option_map g (l !! i).
Proof.
  revert i. induction l as [|x l IH]; intros [|i]; simpl; try reflexivity. apply IH.
Qed.

Lemma signed_numeric (mask : list bool) (a r s : series) :
  signed mask a r = Ok s -> is_numeric s = true.
Proof.
  unfold signed. intros H.
  apply result_bind_Ok in H as (scaled & Hs & H).
  apply result_bind_Ok in H as (pos & Hp & H).
  destruct scaled; simpl in H; inversion H; reflexivity.
Qed.

Lemma signed_len (mask : list bool) (a r s : series) (n : nat) :
  signed mask a r = Ok s ->
  series_len a = n -> series_len r = n -> length mask = n -> series_len s = n.
Proof.
  unfold signed. intros H Ha Hr Hm.
  destruct a, r; simpl in H; inversion H; subst; simpl in *;
    repeat rewrite ?length_zip_with, ?length_map; lia.
Qed.

Lemma signed_cell (mask : list bool) (a r s : series) (i : nat) (oa or : pyobj) (m : bool) :
  signed mask a r = Ok s ->
  to_object a !! i = Some oa -> to_object r !! i = Some or -> mask !! i = Some m ->
  to_object s !! i = Some (flip m (obj_mul oa or)).
Proof.
  unfold signed, flip. intros H Ha Hr Hm.
  destruct a as [xs|xs| | |], r as [ys|ys|ys| |]; simpl in H; inversion H; subst; clear H;
    simpl in *; rewrite lookup_map in Ha; rewrite lookup_map in Hr; rewrite lookup_map;
    destruct (xs !! i) as [x|] eqn:Hx; simpl in Ha; inversion Ha; subst; clear Ha;
    destruct (ys !! i) as [y|] eqn:Hy; simpl in Hr; inversion Hr; subst; clear Hr;
    repeat (rewrite ?lookup_zip_with, ?lookup_map, ?Hx, ?Hy, ?Hm; simpl).
  - (* int64 by int64 *)
    destruct m; simpl; [|reflexivity].
    destruct (0 <? wrap64 (x * y)) eqn:E; [|reflexivity].
    apply Z.ltb_lt in E. now rewrite wrap64_neg_wrap64.
  - (* int64 by float64 *)
    destruct y as [q|]; simpl; [|now destruct m].
    unfold obj_of_float. destruct (cell64 _) as [v|]; simpl; [|now destruct m].
    destruct m; simpl; [|reflexivity]. now destruct (fgt0 v).
  - (* int64 by bool *)
    destruct m; simpl; [|reflexivity].
    destruct (0 <? wrap64 (x * b2z y)) eqn:E; [|reflexivity].
    apply Z.ltb_lt in E. now rewrite wrap64_neg_wrap64.
  - (* float64 by int64 *)
    destruct x as [p|]; simpl; [|now destruct m].
    unfold obj_of_float. destruct (cell64 _) as [v|]; simpl; [|now destruct m].
    destruct m; simpl; [|reflexivity]. now destruct (fgt0 v).
  - (* float64 by float64 *)
    destruct x as [p|], y as [q|]; simpl; try now destruct m.
    unfold obj_of_float. destruct (cell64 _) as [v|]; simpl; [|now destruct m].
    destruct m; simpl; [|reflexivity]. now destruct (fgt0 v).
  - (* float64 by bool *)
    destruct x as [p|]; simpl; [|now destruct m].
    unfold obj_of_float. destruct (cell64 _) as [v|]; simpl; [|now destruct m].
    destruct m; simpl; [|reflexivity]. now destruct (fgt0 v).
Qed.

(** *** The loop, column by column *)

Lemma wf_lens (f : DataFrame) : wf_frame f -> lens (nrows f) f.
Proof.
  intros [_ Hlen] c s H. apply assoc_Some_In in H.
  rewrite List.Forall_forall in Hlen. exact (Hlen _ H).
Qed.

Lemma assoc_setitem (col c : string) (s : series) (f : DataFrame) :
  assoc c (columns (setitem col s f))
  = if String.eqb c col then Some s else assoc c (columns f).
Proof.
  unfold setitem. simpl. destruct (String.eqb c col) eqn:E.
  - apply String.eqb_eq in E. subst. apply assoc_set_eq.
  - apply String.eqb_neq in E. now apply assoc_set_ne.
Qed.

Lemma scale_and_sign_frame_signed (mask : list bool) (f f' : DataFrame) (col : string) :
  scale_and_sign_frame mask f col = Ok f' ->
  exists a r s,
    assoc col (columns f) = Some a /\
    assoc "Tipo Cambio" (columns f) = Some r /\
    signed mask a r = Ok s /\
    assoc col (columns f') = Some s /\
    (forall c, c <> col -> assoc c (columns f') = assoc c (columns f)).
Proof.
  unfold scale_and_sign_frame, signed. intros H.
  apply result_bind_Ok in H as (amounts & Ha & H).
  apply result_bind_Ok in H as (rate & Hr & H).
  apply result_bind_Ok in H as (scaled & Hs & H).
  rewrite getitem_setitem_eq in H. simpl in H.
  apply result_bind_Ok in H as (positive & Hp & H).
  apply result_bind_Ok in H as (negated & Hn & H).
  injection H as <-.
  exists amounts, rate, negated. rewrite Hs. simpl. rewrite Hp. simpl.
  apply getitem_assoc in Ha, Hr.
  split; [exact Ha|]. split; [exact Hr|]. split; [exact Hn|]. split.
  - unfold setitem. simpl. apply assoc_set_eq.
  - intros c Hc. unfold setitem. simpl. now rewrite !assoc_set_ne.
Qed.

Lemma step_lens (mask : list bool) (f f' : DataFrame) (col : string) (n : nat) :
  scale_and_sign_frame mask f col = Ok f' ->
  lens n f -> length mask = n -> lens n f'.
Proof.
  intros H Hlen Hm c s Hc.
  apply scale_and_sign_frame_signed in H as (a & r & s' & Ha & Hr & Hs & Hcol & Hother).
  destruct (string_dec c col) as [->|Hne].
  - rewrite Hcol in Hc. injection Hc as <-.
    eapply signed_len; eauto.
  - rewrite (Hother _ Hne) in Hc. eauto.
Qed.

Lemma fold_lens (mask : list bool) (n : nat) (cols : list string) :
  forall f f', fold_result (scale_and_sign_frame mask) cols f = Ok f' ->
               lens n f -> length mask = n -> lens n f'.
Proof.
  induction cols as [|col cols IH]; simpl; intros f f' H Hlen Hm.
  - now injection H as <-.
  - apply result_bind_Ok in H as (f1 & H1 & H).
    eapply IH; eauto using step_lens.
Qed.

Lemma fold_untouched (mask : list bool) (cols : list string) :
  forall f f', fold_result (scale_and_sign_frame mask) cols f = Ok f' ->
               forall c, ~ In c cols -> assoc c (columns f') = assoc c (columns f).
Proof.
  induction cols as [|col cols IH]; simpl; intros f f' H c Hc.
  - now injection H as <-.
  - apply result_bind_Ok in H as (f1 & H1 & H).
    apply scale_and_sign_frame_signed in H1 as (_ & _ & _ & _ & _ & _ & _ & Hother).
    rewrite (IH _ _ H c) by tauto. apply Hother. intros ->. tauto.
Qed.

(** After the loop every treated column holds numbers. *)
Lemma fold_numeric (mask : list bool) (cols : list string) :
  forall f f', fold_result (scale_and_sign_frame mask) cols f = Ok f' ->
               forall c, In c cols ->
                         exists s, assoc c (columns f') = Some s /\ is_numeric s = true.
Proof.
  induction cols as [|col cols IH]; simpl; intros f f' H c Hc; [tauto|].
  apply result_bind_Ok in H as (f1 & H1 & H).
  destruct (in_dec string_dec c cols) as [Hin|Hnin].
  - eapply IH; eauto.
  - destruct Hc as [->|Hc]; [|tauto].
    apply scale_and_sign_frame_signed in H1 as (a & r & s & _ & _ & Hs & Hcol & _).
    exists s. rewrite (fold_untouched _ _ _ _ H c Hnin). split; [exact Hcol|].
    eapply signed_numeric; eauto.
Qed.

(** Every treated column is scaled once, by the exchange rate as it stands
    when the loop comes to the column: the rate the loop has left, if it has
    treated "Tipo Cambio" before, and the rate as loaded otherwise. *)
Lemma fold_signed (mask : list bool) (cols : list string) :
  forall f f', fold_result (scale_and_sign_frame mask) cols f = Ok f' ->
               NoDup cols ->
               forall pre c post, cols = (pre ++ c :: post)%list ->
                         exists a r s,
                           assoc c (columns f) = Some a /\
                           (In "Tipo Cambio" pre -> assoc "Tipo Cambio" (columns f') = Some r) /\
                           (~ In "Tipo Cambio" pre ->
                            assoc "Tipo Cambio" (columns f) = Some r) /\
                           signed mask a r = Ok s /\
                           assoc c (columns f') = Some s.
Proof.
  induction cols as [|col cols IH]; simpl; intros f f' H Hnd pre c post Hsplit.
  { destruct pre; discriminate. }
  apply result_bind_Ok in H as (f1 & H1 & H).
  apply NoDup_cons in Hnd as [Hcol Hnd]. rewrite list_elem_of_In in Hcol.
  apply scale_and_sign_frame_signed in H1 as (a & r & s & Ha & Hr & Hs & Hc1 & Hother).
  destruct pre as [|p pre]; simpl in Hsplit; injection Hsplit as <- ->.
  - exists a, r, s. repeat split; auto.
    + intros [].
    + now rewrite (fold_untouched _ _ _ _ H col Hcol).
  - assert (Hne : c <> col).
    { intros ->. apply Hcol. apply in_or_app. right. now left. }
    destruct (IH _ _ H Hnd pre c post eq_refl) as (a' & r' & s' & Ha' & Hin & Hout & Hs' & Hc').
    exists a', r', s'. split; [now rewrite <- (Hother _ Hne)|].
    split; [|split; [|split; assumption]].
    + intros [E|Hp]; [|now apply Hin]. subst col.
      rewrite (fold_untouched _ _ _ _ H _ Hcol). apply Hout.
      intros Hp. apply Hcol. apply in_or_app. now left.
    + intros Hp. rewrite <- (Hother "Tipo Cambio"); [apply Hout|]; intros E; apply Hp.
      * now right.
      * left. now symmetry.
Qed.

(** *** The scrubbed frame *)

Lemma NoDup_List_filter {A} (p : A -> bool) (l : list A) :
  NoDup l -> NoDup (List.filter p l).
Proof.
  induction 1 as [|x l Hx Hnd IH]; simpl; [constructor|].
  destruct (p x); [|exact IH]. constructor; [|exact IH].
  intros Hin. apply Hx, list_elem_of_In.
  apply list_elem_of_In, filter_In in Hin. now destruct Hin.
Qed.

Lemma NoDup_drop' {A} (k : nat) (l : list A) : NoDup l -> NoDup (drop k l).
Proof. intros H. eapply sublist_NoDup; [exact H | apply sublist_drop]. Qed.

Lemma filter_all {A} (p : A -> bool) (l : list A) :
  (forall x, In x l -> p x = true) -> List.filter p l = l.
Proof.
  induction l as [|x l IH]; simpl; intros H; [reflexivity|].
  rewrite (H x) by now left. f_equal. apply IH. intros y Hy. apply H. now right.
Qed.

Lemma index_of_lookup (name : string) (ls : list string) (j : nat) :
  index_of name ls = Some j -> ls !! j = Some name.
Proof.
  revert j. induction ls as [|l ls IH]; simpl; intros j; [discriminate|].
  destruct (String.eqb l name) eqn:E.
  - apply String.eqb_eq in E. intros [= <-]. now subst.
  - destruct (index_of name ls) as [k|]; simpl; [|discriminate].
    intros [= <-]. now apply IH.
Qed.

Lemma lookup_index_of (name : string) (ls : list string) (j : nat) :
  NoDup ls -> ls !! j = Some name -> index_of name ls = Some j.
Proof.
  intros Hnd Hj.
  assert (Hin : In name ls) by (apply list_elem_of_In, list_elem_of_lookup; eauto).
  assert (Hsome : exists k, index_of name ls = Some k).
  { clear -Hin. induction ls as [|l ls IH]; simpl in *; [tauto|].
    destruct (String.eqb l name) eqn:E; [eauto|].
    destruct Hin as [->|Hin]; [now rewrite String.eqb_refl in E|].
    destruct (IH Hin) as [k ->]. simpl. eauto. }
  destruct Hsome as [k Hk]. pose proof (index_of_lookup _ _ _ Hk) as Hk'.
  now rewrite (NoDup_lookup _ _ _ _ Hnd Hk' Hj) in Hk.
Qed.

Lemma In_index_of (name : string) (ls : list string) :
  In name ls -> exists j, index_of name ls = Some j.
Proof.
  induction ls as [|l ls IH]; simpl; [tauto|].
  destruct (String.eqb l name) eqn:E; [eauto|].
  intros [->|Hin]; [now rewrite String.eqb_refl in E|].
  destruct (IH Hin) as [k ->]. simpl. eauto.
Qed.

Lemma filter_filter {A} (p q : A -> bool) (l : list A) :
  List.filter q (List.filter p l) = List.filter (fun x => p x && q x) l.
Proof.
  induction l as [|x l IH]; simpl; [reflexivity|].
  destruct (p x); simpl; [|exact IH]. destruct (q x); now rewrite IH.
Qed.

(** What a filter keeps, it keeps in order. *)
Lemma filter_split_order (p : string -> bool) (l pre post : list string) (c : string) :
  NoDup l -> List.filter p l = (pre ++ c :: post)%list ->
  forall x, In x pre <->
            p x = true /\
            exists j k, index_of x l = Some j /\ index_of c l = Some k /\ (j < k)%nat.
Proof.
  intros Hnd. revert pre. induction Hnd as [|y l Hy Hnd IH]; intros pre Hf x.
  { destruct pre; discriminate. }
  rewrite list_elem_of_In in Hy.
  assert (Hc : In c (List.filter p (y :: l))).
  { rewrite Hf. apply in_or_app. right. now left. }
  assert (Hsub : forall z, In z (List.filter p l) -> z <> y).
  { intros z Hz ->. apply filter_In in Hz. tauto. }
  simpl in Hf, Hc. simpl index_of.
  destruct (p y) eqn:Hpy.
  - destruct pre as [|z pre]; simpl in Hf; injection Hf as <- Hf.
    + rewrite String.eqb_refl. split; [intros []|].
      intros (_ & j & k & _ & [= <-] & Hlt). lia.
    + assert (Hcl : In c (List.filter p l)).
      { rewrite Hf. apply in_or_app. right. now left. }
      assert (Hne : String.eqb y c = false) by (apply String.eqb_neq; intros ->; now apply (Hsub c)).
      rewrite Hne.
      destruct (In_index_of c l) as [k Hk]; [apply filter_In in Hcl; tauto|].
      rewrite Hk. simpl. destruct (String.eqb_spec y x) as [->|Hxy].
      * split; [|now left]. intros _. split; [exact Hpy|]. exists 0%nat, (S k). 
        repeat split. lia.
      * rewrite (IH pre Hf x), Hk. split.
        -- intros [Hx|(Hp & j & k' & Hj & [= <-] & Hlt)]; [congruence|].
           split; [exact Hp|]. rewrite Hj. simpl. exists (S j), (S k). repeat split. lia.
        -- intros (Hp & j & k' & Hj & [= <-] & Hlt). right. split; [exact Hp|].
           destruct (index_of x l) as [j'|]; simpl in Hj; [|discriminate].
           injection Hj as <-. exists j', k. repeat split. lia.
  - assert (Hne : String.eqb y c = false) by (apply String.eqb_neq; intros ->; now apply (Hsub c)).
    rewrite Hne.
    destruct (In_index_of c l) as [k Hk]; [apply filter_In in Hc; tauto|].
    rewrite Hk. simpl. destruct (String.eqb_spec y x) as [->|Hxy].
    + split.
      * intros Hx. exfalso. apply (Hsub x); [|reflexivity].
        rewrite Hf. apply in_or_app. now left.
      * intros [Hp _]. congruence.
    + rewrite (IH pre Hf x), Hk. split.
      * intros (Hp & j & k' & Hj & [= <-] & Hlt).
        split; [exact Hp|]. rewrite Hj. simpl. exists (S j), (S k). repeat split. lia.
      * intros (Hp & j & k' & Hj & [= <-] & Hlt). split; [exact Hp|].
        destruct (index_of x l) as [j'|]; simpl in Hj; [|discriminate].
        injection Hj as <-. exists j', k. repeat split. lia.
Qed.

Section Scrubbed.
Variables (f : DataFrame) (moneda_idx : nat).
Hypothesis Hwf : wf_frame f.
Hypothesis Hidx : index_of "Moneda" (labels f) = Some moneda_idx.

Let kept (l : string) : bool :=
  negb (mem l (List.filter (column_is_empty f) (drop (moneda_idx + 1) (labels f)))).

Lemma scrub_assoc (c : string) (s : series) :
  assoc c (columns (scrub moneda_idx f)) = Some s -> assoc c (columns f) = Some s.
Proof.
  unfold scrub. rewrite assoc_drop_columns.
  now destruct (mem c _).
Qed.

Lemma scrub_assoc_kept (c : string) :
  In c (labels (scrub moneda_idx f)) ->
  assoc c (columns (scrub moneda_idx f)) = assoc c (columns f).
Proof.
  unfold scrub. rewrite labels_drop_columns, filter_In, assoc_drop_columns.
  intros [_ H]. apply negb_true_iff in H. now rewrite H.
Qed.

Lemma scrub_lens : lens (nrows f) (scrub moneda_idx f).
Proof. intros c s H. apply scrub_assoc in H. eapply wf_lens; eauto. Qed.

Lemma scrub_NoDup : NoDup (labels (scrub moneda_idx f)).
Proof. unfold scrub. rewrite labels_drop_columns. apply NoDup_List_filter, Hwf. Qed.

Lemma moneda_idx_lt : (moneda_idx < length (labels f))%nat.
Proof. eapply lookup_lt_Some, index_of_lookup, Hidx. Qed.

(** The labels after the marker, once scrubbed. *)
Lemma scrub_after :
  drop (moneda_idx + 1) (labels (scrub moneda_idx f))
  = List.filter (fun l => negb (column_is_empty f l)) (drop (moneda_idx + 1) (labels f)).
Proof.
  destruct Hwf as [Hnd _]. pose proof moneda_idx_lt as Hlt.
  unfold scrub. rewrite labels_drop_columns. fold kept.
  rewrite <- (take_drop (moneda_idx + 1) (labels f)) at 1.
  rewrite List.filter_app.
  rewrite (filter_all kept (take (moneda_idx + 1) (labels f))).
  - rewrite drop_app_length' by (rewrite length_take; lia).
    apply filter_ext_in. intros l Hl. unfold kept. f_equal.
    destruct (column_is_empty f l) eqn:E.
    + apply mem_In, filter_In. auto.
    + apply not_true_iff_false. rewrite mem_In, filter_In. intros [_ H]. congruence.
  - intros l Hl. unfold kept. apply negb_true_iff, not_true_iff_false.
    rewrite mem_In, filter_In. intros [Hd _].
    apply list_elem_of_In, list_elem_of_lookup in Hl as [i Hi].
    pose proof (lookup_lt_Some _ _ _ Hi) as Hi'. rewrite length_take in Hi'.
    rewrite lookup_take_lt in Hi by lia.
    apply (In_drop_position _ (moneda_idx + 1) i l Hnd Hi) in Hd. lia.
Qed.

(** The columns the loop treats are the monetary columns. *)
Lemma numeric_cols_monetary (col : string) :
  In col (Denote.numeric_cols moneda_idx (scrub moneda_idx f)) <-> monetary f col = true.
Proof.
  destruct Hwf as [Hnd _].
  unfold Denote.numeric_cols, monetary. rewrite filter_In, scrub_after, filter_In, Hidx.
  split.
  - intros [[Hd Hne] Hnum].
    assert (Hin : In col (labels f)).
    { rewrite <- (take_drop (moneda_idx + 1) (labels f)). apply in_or_app. now right. }
    apply list_elem_of_In, list_elem_of_lookup in Hin as [j Hj].
    rewrite (lookup_index_of _ _ _ Hnd Hj).
    apply (In_drop_position _ (moneda_idx + 1) j col Hnd Hj) in Hd.
    rewrite Hne. rewrite andb_true_r. apply andb_true_iff. split.
    + apply Nat.ltb_lt. lia.
    + unfold column_is_numeric in *.
      destruct (assoc col (columns (scrub moneda_idx f))) as [s|] eqn:E; [|discriminate].
      apply scrub_assoc in E. now rewrite E.
  - destruct (index_of col (labels f)) as [j|] eqn:Hj; [|discriminate].
    rewrite !andb_true_iff, Nat.ltb_lt. intros [[Hlt Hnum] Hne].
    apply index_of_lookup in Hj.
    assert (Hd : In col (drop (moneda_idx + 1) (labels f)))
      by (apply (In_drop_position _ (moneda_idx + 1) j col Hnd Hj); lia).
    split; [split; [exact Hd | exact Hne]|].
    unfold column_is_numeric in *.
    rewrite scrub_assoc_kept; [exact Hnum|].
    unfold scrub. rewrite labels_drop_columns, filter_In. split.
    + apply list_elem_of_In, list_elem_of_lookup. eauto.
    + apply negb_true_iff, not_true_iff_false.
      rewrite mem_In, filter_In. intros [_ H]. apply negb_true_iff in Hne. congruence.
Qed.

Lemma numeric_cols_NoDup : NoDup (Denote.numeric_cols moneda_idx (scrub moneda_idx f)).
Proof.
  unfold Denote.numeric_cols. apply NoDup_List_filter, NoDup_drop', scrub_NoDup.
Qed.

(** The loop treats the monetary columns from left to right. *)
Lemma numeric_cols_order (pre post : list string) (col x : string) :
  Denote.numeric_cols moneda_idx (scrub moneda_idx f) = (pre ++ col :: post)%list ->
  In x pre <-> monetary f x = true /\ left_of f x col = true.
Proof.
  destruct Hwf as [Hnd _]. intros Hsplit.
  assert (Hcol : In col (Denote.numeric_cols moneda_idx (scrub moneda_idx f))).
  { rewrite Hsplit. apply in_or_app. right. now left. }
  assert (Hpre : forall y, In y pre ->
                           In y (Denote.numeric_cols moneda_idx (scrub moneda_idx f))).
  { intros y Hy. rewrite Hsplit. apply in_or_app. now left. }
  pose proof Hsplit as Hord.
  unfold Denote.numeric_cols in Hord. rewrite scrub_after, filter_filter in Hord.
  pose proof (filter_split_order _ _ _ _ _ (NoDup_drop' (moneda_idx + 1) _ Hnd) Hord x)
    as Horder.
  assert (Hshift : forall y j, index_of y (drop (moneda_idx + 1) (labels f)) = Some j ->
                               index_of y (labels f) = Some (moneda_idx + 1 + j)%nat).
  { intros y j Hj. apply index_of_lookup in Hj. rewrite lookup_drop in Hj.
    now apply lookup_index_of. }
  unfold left_of. split.
  - intros Hx. split; [now apply numeric_cols_monetary, Hpre|].
    apply Horder in Hx as (_ & j & k & Hj & Hk & Hlt).
    rewrite (Hshift _ _ Hj), (Hshift _ _ Hk). apply Nat.ltb_lt. lia.
  - intros [Hmon Hleft]. apply Horder.
    apply numeric_cols_monetary in Hmon.
    assert (Hd : forall y, In y (Denote.numeric_cols moneda_idx (scrub moneda_idx f)) ->
                           exists j, index_of y (drop (moneda_idx + 1) (labels f)) = Some j).
    { intros y Hy. apply In_index_of. unfold Denote.numeric_cols in Hy.
      rewrite scrub_after, filter_In, filter_In in Hy. tauto. }
    destruct (Hd _ Hmon) as [j Hj]. destruct (Hd _ Hcol) as [k Hk].
    rewrite (Hshift _ _ Hj), (Hshift _ _ Hk) in Hleft. apply Nat.ltb_lt in Hleft.
    split.
    + unfold Denote.numeric_cols in Hmon.
      rewrite scrub_after, filter_filter in Hmon. apply filter_In in Hmon. tauto.
    + exists j, k. repeat split; auto. lia.
Qed.

End Scrubbed.

(** *** Date formatting and the totals row *)

Lemma format_fecha_numeric (f f' : DataFrame) (c : string) (s : series) :
  format_fecha f = Ok f' ->
  assoc c (columns f) = Some s -> is_numeric s = true ->
  assoc c (columns f') = Some s.
Proof.
  unfold format_fecha. intros H Hc Hnum.
  apply result_bind_Ok in H as (fecha & Hf & H). apply getitem_assoc in Hf.
  destruct (is_object fecha) eqn:Hobj.
  - now injection H as <-.
  - apply result_bind_Ok in H as (formatted & Hfmt & H). injection H as <-.
    rewrite assoc_setitem. destruct (String.eqb c "Fecha") eqn:E; [|exact Hc].
    apply String.eqb_eq in E. subst c. rewrite Hf in Hc. injection Hc as ->.
    destruct s; simpl in *; discriminate.
Qed.

Lemma format_fecha_lens (f f' : DataFrame) (n : nat) :
  format_fecha f = Ok f' -> lens n f -> lens n f'.
Proof.
  unfold format_fecha. intros H Hlen.
  apply result_bind_Ok in H as (fecha & Hf & H). apply getitem_assoc in Hf.
  destruct (is_object fecha).
  - now injection H as <-.
  - apply result_bind_Ok in H as (formatted & Hfmt & H). injection H as <-.
    intros c s. rewrite assoc_setitem. destruct (String.eqb c "Fecha"); [|apply Hlen].
    intros [= <-]. apply Hlen in Hf.
    destruct fecha; simpl in Hfmt; inversion Hfmt. simpl in *. now rewrite length_map.
Qed.

Lemma map_result_Ok {A B} (g : A -> result B) (xs : list A) (ys : list B) :
  map_result g xs = Ok ys -> Forall2 (fun x y => g x = Ok y) xs ys.
Proof.
  revert ys. induction xs as [|x xs IH]; simpl; intros ys H.
  - injection H as <-. constructor.
  - apply result_bind_Ok in H as (y & Hy & H).
    apply result_bind_Ok in H as (ys' & Hys & H). injection H as <-.
    constructor; auto.
Qed.

Lemma totals_cell_key (f : DataFrame) (ncols : list string) (col : string) (kv : string * pyobj) :
  totals_cell f ncols col = Ok kv -> fst kv = col.
Proof.
  unfold totals_cell. destruct (mem col ncols).
  - intros H. apply result_bind_Ok in H as (s & _ & H).
    apply result_bind_Ok in H as (v & _ & H). now injection H as <-.
  - now intros [= <-].
Qed.

(** The value the totals row holds under a label. *)
Lemma row_get_totals (f : DataFrame) (ncols : list string) (ls : list string)
      (row : list (string * pyobj)) (col : string) :
  Forall2 (fun x y => totals_cell f ncols x = Ok y) ls row ->
  In col ls ->
  totals_cell f ncols col = Ok (col, row_get col row).
Proof.
  unfold row_get. induction 1 as [|x y ls row Hxy _ IH]; simpl; [tauto|].
  intros Hin. pose proof (totals_cell_key _ _ _ _ Hxy) as Hk.
  destruct y as [k v]. simpl in *. subst k.
  destruct (String.eqb x col) eqn:E.
  - apply String.eqb_eq in E. subst x. exact Hxy.
  - apply IH. destruct Hin as [->|Hin]; [|exact Hin].
    rewrite String.eqb_refl in E. discriminate.
Qed.

Lemma assoc_map_values (g : string -> series -> series) (cs : list (string * series))
      (c : string) :
  assoc c (map (fun kv => (fst kv, g (fst kv) (snd kv))) cs)
  = option_map (g c) (assoc c cs).
Proof.
  induction cs as [|[n s] cs IH]; simpl; [reflexivity|].
  destruct (String.eqb n c) eqn:E; [|exact IH].
  apply String.eqb_eq in E. now subst.
Qed.

(** Every column of the returned table is a column of the treated frame
    with its total appended. *)
Lemma append_totals_column (ncols : list string) (f out : DataFrame) (c : string)
      (s_out : series) :
  append_totals ncols f = Ok out ->
  assoc c (columns out) = Some s_out ->
  exists s v,
    assoc c (columns f) = Some s /\
    totals_cell f ncols c = Ok (c, v) /\
    s_out = append_cell s v.
Proof.
  unfold append_totals. intros H Hc.
  apply result_bind_Ok in H as (row & Hrow & H). injection H as <-.
  apply map_result_Ok in Hrow.
  unfold concat_row in Hc. simpl in Hc.
  rewrite (assoc_map_values (fun k s => append_cell s (row_get k row))) in Hc.
  destruct (assoc c (columns f)) as [s|] eqn:Hs; simpl in Hc; [|discriminate].
  injection Hc as <-. exists s, (row_get c row). repeat split.
  eapply row_get_totals; eauto. eapply assoc_In_labels; eauto.
Qed.

Lemma append_cell_object (s : series) :
  append_cell s (OStr "") = SObject (to_object s ++ [OStr ""])%list.
Proof. now destruct s. Qed.

Lemma lookup_snoc_length {A} (l : list A) (x : A) (n : nat) :
  length l = n -> (l ++ [x])%list !! n = Some x.
Proof. intros <-. apply lookup_snoc. Qed.

(** A numeric column with its own sum appended. *)
Lemma append_cell_sum (s : series) (v : pyobj) (n : nat) :
  is_numeric s = true -> series_len s = n -> series_sum s = Ok v ->
  to_object (append_cell s v) !! n = Some v /\
  series_sum (series_take n (append_cell s v)) = Ok v /\
  (forall i, (i < n)%nat -> to_object (append_cell s v) !! i = to_object s !! i).
Proof.
  intros Hnum Hlen Hsum.
  destruct s as [xs|xs| | |]; try discriminate; simpl in *; injection Hsum as <-; simpl.
  - rewrite map_app. simpl. split; [|split].
    + apply lookup_snoc_length. now rewrite length_map.
    + rewrite take_app_length' by now symmetry. reflexivity.
    + intros i Hi. apply lookup_app_l. rewrite length_map. lia.
  - unfold obj_of_float. destruct (cell64 _) as [q|] eqn:Eq; simpl;
      rewrite map_app; simpl; (split; [|split]).
    + apply lookup_snoc_length. now rewrite length_map.
    + rewrite take_app_length' by now symmetry. simpl. unfold obj_of_float. now rewrite Eq.
    + intros i Hi. apply lookup_app_l. rewrite length_map. lia.
    + apply lookup_snoc_length. now rewrite length_map.
    + rewrite take_app_length' by now symmetry. simpl. unfold obj_of_float. now rewrite Eq.
    + intros i Hi. apply lookup_app_l. rewrite length_map. lia.
Qed.

Lemma to_object_length (s : series) : length (to_object s) = series_len s.
Proof. destruct s; simpl; now rewrite ?length_map. Qed.

End Frames.

(** ** Running [detect_month] *)

Section RunDetect.
Import Pandas ExcelProcessor Denote.
Context {lib : Library}.

Lemma detect_month_run (self : ExcelProcessor.t) (h : heap) (f0 : DataFrame) :
  holds self h f0 ->
  exists (self' : ExcelProcessor.t) (h1 junk : heap),
    file_path self' = file_path self /\
    (exists l, df self' = Some l /\ h1 !! l = Some f0) /\
    (exists new, h1 = (h ++ new)%list) /\
    (df self <> None -> self' = self /\ h1 = h) /\
    detect_month self h =
      (match detect_frame f0 with
       | Ok my => (Ok (my, ExcelProcessor.mk (file_path self') (df self') (Some my)),
                   (h1 ++ junk)%list)
       | Raise e => (Raise e, (h1 ++ junk)%list)
       end).
Proof.
  intros Hholds.
  destruct (loaded_run self h f0 Hholds)
    as (l & self' & h1 & Hrun & Hdf & Hpath & Hmonth & Hl & Hnew & Hsame).
  assert (Hgoal : exists junk : heap,
    detect_month self h =
      (match detect_frame f0 with
       | Ok my => (Ok (my, ExcelProcessor.mk (file_path self') (df self') (Some my)),
                   (h1 ++ junk)%list)
       | Raise e => (Raise e, (h1 ++ junk)%list)
       end)).
  2:{ destruct Hgoal as [junk Hgoal]. exists self', h1, junk.
      repeat split; eauto; now apply Hsame. }
  unfold detect_month, detect_frame, parsed_dates. unfold bind at 1. rewrite Hrun.
  rewrite (bind_copy _ _ _ _ Hl).
  rewrite (bind_load _ _ _ _ (lookup_snoc h1 f0)).
  rewrite bind_lift.
  destruct (getitem "Fecha" f0) as [fecha|e]; simpl.
  2:{ now exists [f0]. }
  assert (Htail : forall f1 : DataFrame,
    exists junk : heap,
      (let* f := load (length h1) in
       let* dropped := lift (dropna_subset "Fecha" f) in
       let* df_temp := alloc dropped in
       let* f := load df_temp in
       if (nrows f =? 0)%nat then raise (ValueError no_dates_msg)
       else
         let* fecha := lift (getitem "Fecha" f) in
         let* months := lift (dt_month fecha) in
         let month_counts := value_counts months in
         let* most_common_month := lift (idxmax month_counts) in
         let* years := lift (dt_year fecha) in
         let year_series :=
           filter_mask (map (fun m => match m with
                                      | Some m' => m' =? most_common_month
                                      | None => false
                                      end) months) years in
         let* year :=
           lift (if (0 <? length year_series)%nat
                 then of_option (head (mode year_series)) (KeyError "0")
                 else Raise IndexError) in
         ret ((most_common_month, year),
              ExcelProcessor.mk (file_path self') (df self') (Some (most_common_month, year))))
        (h1 ++ [f1])%list
      = (match result_bind (dropna_subset "Fecha" f1) period_of with
         | Ok my => (Ok (my, ExcelProcessor.mk (file_path self') (df self') (Some my)),
                     (h1 ++ junk)%list)
         | Raise e => (Raise e, (h1 ++ junk)%list)
         end)).
  { intros f1.
    rewrite (bind_load _ _ _ _ (lookup_snoc _ _)), bind_lift.
    destruct (dropna_subset "Fecha" f1) as [dropped|e]; simpl.
    2:{ now exists [f1]. }
    rewrite bind_alloc. rewrite (bind_load _ _ _ _ (lookup_snoc _ _)).
    exists [f1; dropped]. rewrite <- !app_assoc. simpl.
    unfold period_of. destruct (nrows dropped =? 0)%nat; [reflexivity|].
    rewrite bind_lift. destruct (getitem "Fecha" dropped) as [fecha'|e]; simpl; [|reflexivity].
    rewrite bind_lift. destruct (dt_month fecha') as [months|e]; simpl; [|reflexivity].
    rewrite bind_lift.
    destruct (idxmax (value_counts months)) as [m|e]; simpl; [|reflexivity].
    rewrite bind_lift. destruct (dt_year fecha') as [years|e]; simpl; [|reflexivity].
    rewrite bind_lift.
    match goal with
    | |- context [if ?b then ?x else ?y] => destruct (if b then x else y) as [y'|e]
    end; simpl; reflexivity. }
  destruct (is_object fecha).
  - destruct (Htail (setitem "Fecha" (to_datetime_dmy fecha) f0)) as [junk Hj].
    exists junk. rewrite bind_store, insert_snoc. exact Hj.
  - destruct (Htail f0) as [junk Hj]. exists junk. rewrite bind_ret. exact Hj.
Qed.

End RunDetect.

(** ** The credit-note pattern *)

Section Texts.
Import Pandas.

Local Arguments String.append !s1 s2 : simpl nomatch.

Lemma append_assoc (a b c : string) : (a +:+ b) +:+ c = a +:+ (b +:+ c).
Proof. induction a as [|x a IH]; simpl; congruence. Qed.

Lemma strip_prefix_ci_spec (p s r : string) :
  Text.strip_prefix_ci p s = Some r ->
  exists mark, s = mark +:+ r /\ Text.lower mark = Text.lower p.
Proof.
  revert s. induction p as [|a p IH]; simpl; intros s H.
  - injection H as <-. now exists "".
  - destruct s as [|b s]; [discriminate|].
    destruct (Ascii.eqb_spec (Text.lower_char a) (Text.lower_char b)) as [E|]; [|discriminate].
    destruct (IH _ H) as (mark & -> & Hm). exists (String b mark). simpl.
    split; congruence.
Qed.

Lemma strip_prefix_ci_complete (p mark r : string) :
  Text.lower mark = Text.lower p -> Text.strip_prefix_ci p (mark +:+ r) = Some r.
Proof.
  revert mark. induction p as [|a p IH]; intros [|b mark]; simpl; try discriminate.
  - reflexivity.
  - intros [= Hc Hm]. rewrite Hc, Ascii.eqb_refl. now apply IH.
Qed.

Lemma substring_all (s : string) : String.substring 0 (String.length s) s = s.
Proof. induction s as [|c s IH]; simpl; congruence. Qed.

(** A letter of two bytes at the head of a text. *)
Lemma starts_with_two (a b : ascii) (s : string) :
  Text.starts_with (String a (String b "")) s = true ->
  s = String a (String b (String.substring 2 (String.length s - 2) s)).
Proof.
  destruct s as [|x [|y s]]; simpl; try discriminate.
  - now rewrite andb_false_r.
  - destruct (Ascii.eqb_spec a x) as [->|]; [|discriminate].
    destruct (Ascii.eqb_spec b y) as [->|]; [|discriminate].
    intros _. now rewrite Nat.sub_0_r, substring_all.
Qed.

Lemma two_stripped (a b : ascii) (r : string) :
  String.substring 2 (String.length (String a (String b r)) - 2) (String a (String b r)) = r.
Proof. simpl. now rewrite Nat.sub_0_r, substring_all. Qed.

Lemma lower_one (c : string) (l : ascii) :
  Text.lower c = String l "" -> exists b, c = String b "" /\ Text.lower_char b = l.
Proof.
  destruct c as [|b [|x c]]; simpl; try discriminate.
  intros [= <-]. eauto.
Qed.

Lemma strip_e_spec (s r : string) :
  strip_e s = Some r <-> exists e, In e e_letters /\ s = e +:+ r.
Proof.
  unfold strip_e, e_letters. split.
  - destruct (Text.strip_prefix_ci "e" s) as [r0|] eqn:E.
    + intros [= ->]. apply strip_prefix_ci_spec in E as (mark & -> & Hm).
      change (Text.lower "e") with "e" in Hm.
      apply lower_one in Hm as (b & -> & Hb).
      exists (String b ""). split; [|reflexivity].
      unfold Text.lower_char, Text.is_upper, Text.between, Text.code in Hb.
      destruct b as [[] [] [] [] [] [] [] []]; vm_compute in Hb; try discriminate;
        simpl; auto.
    + destruct (Text.starts_with e_acute_lower s) eqn:E1; cbn [orb].
      * intros [= <-]. exists e_acute_lower. split; [simpl; auto|].
        exact (starts_with_two _ _ _ E1).
      * destruct (Text.starts_with e_acute_upper s) eqn:E2; [|discriminate].
        intros [= <-]. exists e_acute_upper. split; [simpl; auto|].
        exact (starts_with_two _ _ _ E2).
  - intros (e & He & ->). simpl in He.
    destruct He as [<-|[<-|[<-|[<-|[]]]]]; try reflexivity.
    + change (e_acute_lower +:+ r)
        with (String (ascii_of_nat 195) (String (ascii_of_nat 169) r)).
      cbn -[String.substring String.length Nat.sub]. now rewrite two_stripped.
    + change (e_acute_upper +:+ r)
        with (String (ascii_of_nat 195) (String (ascii_of_nat 137) r)).
      cbn -[String.substring String.length Nat.sub]. now rewrite two_stripped.
Qed.

Lemma strip_i_spec (s r : string) :
  strip_i s = Some r <-> exists i, In i i_letters /\ s = i +:+ r.
Proof.
  unfold strip_i, i_letters. split.
  - destruct (Text.strip_prefix_ci "i" s) as [r0|] eqn:E.
    + intros [= ->]. apply strip_prefix_ci_spec in E as (mark & -> & Hm).
      change (Text.lower "i") with "i" in Hm.
      apply lower_one in Hm as (b & -> & Hb).
      exists (String b ""). split; [|reflexivity].
      unfold Text.lower_char, Text.is_upper, Text.between, Text.code in Hb.
      destruct b as [[] [] [] [] [] [] [] []]; vm_compute in Hb; try discriminate;
        simpl; auto.
    + destruct (Text.starts_with i_dotted s) eqn:E1; cbn [orb].
      * intros [= <-]. exists i_dotted. split; [simpl; auto|].
        exact (starts_with_two _ _ _ E1).
      * destruct (Text.starts_with i_dotless s) eqn:E2; [|discriminate].
        intros [= <-]. exists i_dotless. split; [simpl; auto|].
        exact (starts_with_two _ _ _ E2).
  - intros (e & He & ->). simpl in He.
    destruct He as [<-|[<-|[<-|[<-|[]]]]]; try reflexivity.
    + change (i_dotted +:+ r)
        with (String (ascii_of_nat 196) (String (ascii_of_nat 176) r)).
      cbn -[String.substring String.length Nat.sub]. now rewrite two_stripped.
    + change (i_dotless +:+ r)
        with (String (ascii_of_nat 196) (String (ascii_of_nat 177) r)).
      cbn -[String.substring String.length Nat.sub]. now rewrite two_stripped.
Qed.

(** The matcher finds at the head of [s] what the pattern spells. *)
Lemma nota_credito_here_spec (s : string) :
  nota_credito_here s = true <->
  exists w post, s = w +:+ post /\ credit_note_word w.
Proof.
  unfold nota_credito_here, credit_note_word. split.
  - intros H. apply orb_true_iff in H as [H|H].
    + destruct (Text.strip_prefix_ci "nota de cr" s) as [r|] eqn:E0; [|discriminate].
      destruct (strip_e r) as [r1|] eqn:E1; [|discriminate].
      destruct (Text.strip_prefix_ci "d" r1) as [r2|] eqn:E2; [|discriminate].
      destruct (strip_i r2) as [r3|] eqn:E3; [|discriminate].
      destruct (Text.strip_prefix_ci "to" r3) as [r4|] eqn:E4; [|discriminate].
      apply strip_prefix_ci_spec in E0 as (a & -> & Ha).
      apply strip_e_spec in E1 as (e & He & ->).
      apply strip_prefix_ci_spec in E2 as (d & -> & Hd).
      apply strip_i_spec in E3 as (i & Hi & ->).
      apply strip_prefix_ci_spec in E4 as (t & -> & Ht).
      exists (a +:+ e +:+ d +:+ i +:+ t), r4. split.
      * now rewrite !append_assoc.
      * left. exists a, e, d, i, t. repeat split; assumption || reflexivity.
    + destruct (Text.strip_prefix_ci "nc" s) as [r|] eqn:E; [|discriminate].
      apply strip_prefix_ci_spec in E as (m & -> & Hm). exists m, r. auto.
  - intros (w & post & -> & [(a & e & d & i & t & -> & Ha & He & Hd & Hi & Ht)|Hnc]).
    + rewrite !append_assoc.
      rewrite (strip_prefix_ci_complete "nota de cr" a) by exact Ha.
      rewrite (proj2 (strip_e_spec _ (d +:+ i +:+ t +:+ post)))
        by (exists e; auto).
      rewrite (strip_prefix_ci_complete "d" d) by exact Hd.
      rewrite (proj2 (strip_i_spec _ (t +:+ post))) by (exists i; auto).
      now rewrite (strip_prefix_ci_complete "to" t) by exact Ht.
    + rewrite (strip_prefix_ci_complete "nc" w) by exact Hnc. apply orb_true_r.
Qed.

Lemma nota_credito_search_spec (s : string) :
  nota_credito_search s = true <->
  exists pre w post, s = pre +:+ w +:+ post /\ credit_note_word w.
Proof.
  assert (Hunfold : forall s, nota_credito_search s
                              = nota_credito_here s ||
                                match s with
                                | EmptyString => false
                                | String _ s' => nota_credito_search s'
                                end) by (intros [|x t]; reflexivity).
  split.
  - induction s as [|c s IH]; rewrite Hunfold; intros H; apply orb_true_iff in H as [H|H].
    + apply nota_credito_here_spec in H as (w & post & Hs & Hw). now exists "", w, post.
    + discriminate.
    + apply nota_credito_here_spec in H as (w & post & Hs & Hw). now exists "", w, post.
    + destruct (IH H) as (pre & w & post & -> & Hw). now exists (String c pre), w, post.
  - intros (pre & w & post & -> & Hw).
    induction pre as [|c pre IH]; rewrite Hunfold.
    + apply orb_true_iff. left. apply nota_credito_here_spec. now exists w, post.
    + simpl. rewrite IH. apply orb_true_r.
Qed.

(** The mask the loop uses marks the credit notes, and only them. *)
Lemma nota_credito_is_credit_note (type : pyobj) :
  obj_is_nota_credito type = true <-> credit_note type.
Proof.
  unfold credit_note. split.
  - destruct type; simpl; try discriminate.
    intros H. apply nota_credito_search_spec in H as (pre & w & post & -> & Hw).
    eauto 10.
  - intros (s & pre & w & post & -> & -> & Hw). simpl.
    apply nota_credito_search_spec. eauto.
Qed.

End Texts.

(** ** [clean_data]: the cleaned table *)

Section Cleaning.
Import Pandas ExcelProcessor Denote Table.
Context {lib : Library}.

Lemma series_len_append_cell (s : series) (v : pyobj) :
  series_len (append_cell s v) = S (series_len s).
Proof.
  destruct s, v; simpl; rewrite ?length_app, ?length_map; simpl; lia.
Qed.

Lemma process_excel_file_rows (file : xlsx_file) (path : option string) (h0 h' : heap)
      (s : summary) (w : option (string * DataFrame)) :
  process_excel_file file path h0 = (Ok (s, w), h') ->
  rows_processed s = Z.of_nat (nrows (sheet file)).
Proof.
  unfold process_excel_file, read_excel.
  rewrite bind_assoc, bind_alloc, bind_ret. cbv beta iota.
  change (file_path (init file)) with file.
  set (p1 := ExcelProcessor.mk file (Some (length h0)) (month_detected (init file))).
  assert (Hh1 : holds p1 (h0 ++ [sheet file])%list (sheet file)) by apply lookup_snoc.
  destruct (detect_month_run p1 _ _ Hh1)
    as (p1' & h1 & junk1 & _ & _ & _ & Hsame & Hrun).
  destruct (Hsame ltac:(discriminate)) as [-> ->].
  unfold bind at 1. rewrite Hrun.
  destruct (detect_frame (sheet file)) as [my|e]; [|discriminate].
  set (p2 := ExcelProcessor.mk (file_path p1) (df p1) (Some my)).
  assert (Hh2 : holds p2 ((h0 ++ [sheet file]) ++ junk1)%list (sheet file)).
  { unfold holds. simpl. rewrite lookup_app_l by (rewrite length_app; simpl; lia).
    apply lookup_snoc. }
  destruct (clean_data_run p2 _ _ Hh2)
    as (p2' & h2 & junk2 & _ & _ & _ & _ & _ & Hrun2).
  unfold bind at 1. rewrite Hrun2.
  destruct (clean_frame (sheet file)) as [out|e] eqn:Hout; [|discriminate].
  rewrite (bind_load _ _ _ _ (lookup_snoc _ _)).
  apply clean_frame_nrows in Hout.
  destruct path; unfold ret; intros [= <- _ _]; simpl; lia.
Qed.

(** The frame the totals are computed from: every column has one cell per
    input row and the monetary columns hold numbers. *)
Lemma treated_frame (f0 f2 f3 : DataFrame) (moneda_idx : nat) (tipo : series) :
  wf_frame f0 ->
  index_of "Moneda" (labels f0) = Some moneda_idx ->
  getitem "Tipo" (scrub moneda_idx f0) = Ok tipo ->
  fold_result (scale_and_sign_frame (str_contains_nota_credito tipo))
              (Denote.numeric_cols moneda_idx (scrub moneda_idx f0))
              (scrub moneda_idx f0) = Ok f2 ->
  format_fecha f2 = Ok f3 ->
  lens (nrows f0) f3 /\
  forall c, In c (Denote.numeric_cols moneda_idx (scrub moneda_idx f0)) ->
            exists s, assoc c (columns f2) = Some s /\ assoc c (columns f3) = Some s /\
                      is_numeric s = true /\ series_len s = nrows f0.
Proof.
  intros Hwf Hidx Htipo Hfold Hfmt.
  assert (Hmask : length (str_contains_nota_credito tipo) = nrows f0).
  { unfold str_contains_nota_credito. rewrite length_map, to_object_length.
    apply getitem_assoc in Htipo. eapply scrub_lens; eauto. }
  assert (Hl2 : lens (nrows f0) f2)
    by (eapply fold_lens; eauto using scrub_lens).
  assert (Hl3 : lens (nrows f0) f3) by (eapply format_fecha_lens; eauto).
  split; [exact Hl3|]. intros c Hc.
  destruct (fold_numeric _ _ _ _ Hfold c Hc) as (s & Hs & Hnum).
  exists s. repeat split; eauto using format_fecha_numeric.
Qed.

Lemma cleaned_lens (f0 out : DataFrame) :
  wf_frame f0 -> clean_frame f0 = Ok out ->
  Forall (fun c => series_len (snd c) = nrows out) (columns out).
Proof.
  intros Hwf Hc.
  destruct (clean_frame_stages _ _ Hc) as (idx & tipo & f2 & f3 & Hidx & Htipo & Hfold & Hfmt & Htot).
  destruct (treated_frame _ _ _ _ _ Hwf Hidx Htipo Hfold Hfmt) as [Hlens _].
  assert (Hnd : NoDup (labels out)).
  { rewrite (clean_frame_labels _ _ _ Hc Hidx). now apply scrub_NoDup. }
  rewrite (clean_frame_nrows _ _ Hc).
  apply Forall_forall. intros [c s_out] Hin%list_elem_of_In. cbn [snd].
  apply (assoc_NoDup _ _ _ Hnd) in Hin.
  destruct (append_totals_column _ _ _ _ _ Htot Hin) as (s & v & Hs & _ & ->).
  rewrite series_len_append_cell. f_equal. now apply (Hlens c).
Qed.

Lemma cleaned_columns (f0 out : DataFrame) (col : string) (s : series) :
  wf_frame f0 -> clean_frame f0 = Ok out ->
  assoc col (columns out) = Some s ->
  series_len s = S (nrows f0) /\
  exists s0, assoc col (columns f0) = Some s0 /\ series_len s0 = nrows f0.
Proof.
  intros Hwf Hc Hs.
  destruct (clean_frame_stages _ _ Hc) as (idx & _ & _ & _ & Hidx & _).
  split.
  - pose proof (cleaned_lens _ _ Hwf Hc) as Hlens.
    rewrite List.Forall_forall in Hlens. apply assoc_Some_In in Hs.
    apply Hlens in Hs. cbn [snd] in Hs. rewrite Hs. now apply clean_frame_nrows.
  - apply assoc_In_labels in Hs. fold (labels out) in Hs.
    rewrite (clean_frame_labels _ _ _ Hc Hidx) in Hs.
    unfold scrub in Hs. rewrite labels_drop_columns, filter_In in Hs. destruct Hs as [Hs _].
    destruct (assoc col (columns f0)) as [s0|] eqn:E.
    + exists s0. split; [reflexivity|]. now apply (wf_lens _ Hwf col).
    + apply assoc_None in E. contradiction.
Qed.

(** C10.  A table that [clean_data] accepts comes back with exactly one
    more row, the totals row: every column of the cleaned table is a column
    of the input, and it has one cell for each row of the input and one
    more.  Hence the [rows_processed] that [process_excel_file] reports, the
    length of the cleaned table minus one, is the number of rows of the
    input. *)
Theorem cleaning_adds_one_row (self : ExcelProcessor.t) (h : heap) (f0 out : DataFrame) :
  holds self h f0 ->
  wf_frame f0 ->
  cleaned self h = Some out ->
  nrows out = S (nrows f0) /\
  (forall (col : string) (s : series),
     assoc col (columns out) = Some s ->
     length (to_object s) = S (nrows f0) /\
     exists s0, assoc col (columns f0) = Some s0 /\ length (to_object s0) = nrows f0) /\
  Z.of_nat (nrows out) - 1 = Z.of_nat (nrows f0) /\
  forall (file : xlsx_file) (path : option string) (h0 h' : heap) (s : summary)
         (w : option (string * DataFrame)),
    process_excel_file file path h0 = (Ok (s, w), h') ->
    rows_processed s = Z.of_nat (nrows (sheet file)).
Proof.
  intros Hholds Hwf Hc. apply (cleaned_clean_frame _ _ _ _ Hholds) in Hc.
  pose proof (clean_frame_nrows _ _ Hc) as Hn. split; [exact Hn|]. split; [|split; [lia|]].
  - intros col s Hs. rewrite to_object_length.
    destruct (cleaned_columns _ _ _ _ Hwf Hc Hs) as (Hlen & s0 & Hs0 & Hlen0).
    split; [exact Hlen|]. exists s0. now rewrite to_object_length.
  - intros file path h0 h' s w. apply process_excel_file_rows.
Qed.

(** C4.  A column after the marker "Moneda" is dropped if and only if it is
    entirely empty or entirely zero; a column at or before the marker is
    never dropped, whatever it holds. *)
Theorem scrub_drops_exactly_the_empty_columns
        (self : ExcelProcessor.t) (h : heap) (f0 out : DataFrame) :
  holds self h f0 ->
  wf_frame f0 ->
  cleaned self h = Some out ->
  exists moneda_idx : nat,
    index_of "Moneda" (labels f0) = Some moneda_idx /\
    forall (j : nat) (col : string) (s : series),
      columns f0 !! j = Some (col, s) ->
      (In col (labels out) <->
       (j <= moneda_idx)%nat \/ ~ (entirely_empty s \/ entirely_zero s)).
Proof.
  intros Hholds Hwf Hc. apply (cleaned_clean_frame _ _ _ _ Hholds) in Hc.
  pose proof (clean_frame_stages _ _ Hc) as (idx & _ & _ & _ & Hidx & _).
  exists idx. split; [exact Hidx|]. intros j col s Hj.
  rewrite (clean_frame_labels _ _ _ Hc Hidx). now apply scrub_labels.
Qed.

(** C3.  The cleaned table ends with one totals row: under every monetary
    column (a numeric column after the marker that was kept) it holds the
    sum of the data rows of that column as they stand in the cleaned table,
    that is after scaling and sign, as the library adds them; under every
    other column, the numeric columns up to the marker among them, it holds
    the empty text. *)
Theorem totals_row_holds_the_sums
        (self : ExcelProcessor.t) (h : heap) (f0 out : DataFrame) :
  holds self h f0 ->
  wf_frame f0 ->
  cleaned self h = Some out ->
  nrows out = S (nrows f0) /\
  forall (col : string) (s : series),
    assoc col (columns out) = Some s ->
    series_len s = S (nrows f0) /\
    if monetary f0 col
    then exists total, series_sum (series_take (nrows f0) s) = Ok total /\
                       to_object s !! nrows f0 = Some total
    else to_object s !! nrows f0 = Some (OStr "").
Proof.
  intros Hholds Hwf Hc. apply (cleaned_clean_frame _ _ _ _ Hholds) in Hc.
  split; [now apply clean_frame_nrows|].
  pose proof (clean_frame_stages _ _ Hc) as (idx & tipo & f2 & f3 & Hidx & Htipo & Hfold & Hfmt & Htot).
  destruct (treated_frame _ _ _ _ _ Hwf Hidx Htipo Hfold Hfmt) as [Hl3 Hnum].
  intros col s Hs.
  destruct (append_totals_column _ _ _ _ _ Htot Hs) as (s3 & v & Hs3 & Hcell & ->).
  pose proof (Hl3 _ _ Hs3) as Hlen.
  split; [now rewrite series_len_append_cell, Hlen|].
  unfold totals_cell in Hcell.
  destruct (mem col (Denote.numeric_cols idx (scrub idx f0))) eqn:Hmem.
  - apply mem_In in Hmem.
    rewrite (proj1 (numeric_cols_monetary _ _ Hwf Hidx col) Hmem).
    destruct (Hnum _ Hmem) as (s' & _ & Hs' & Hnumeric & _).
    rewrite Hs3 in Hs'. injection Hs' as <-.
    apply result_bind_Ok in Hcell as (s'' & Hget & Hcell).
    apply getitem_assoc in Hget. rewrite Hs3 in Hget. injection Hget as <-.
    apply result_bind_Ok in Hcell as (total & Hsum & Hcell). injection Hcell as <-.
    destruct (append_cell_sum _ _ _ Hnumeric Hlen Hsum) as (Hlast & Htake & _).
    exists total. split; assumption.
  - assert (Hnot : monetary f0 col = false).
    { apply not_true_iff_false. rewrite <- (numeric_cols_monetary _ _ Hwf Hidx col).
      rewrite <- mem_In. congruence. }
    rewrite Hnot. injection Hcell as <-.
    rewrite append_cell_object. simpl.
    apply lookup_snoc_length. now rewrite to_object_length.
Qed.

(** The data rows of a treated column come out as the loop leaves them. *)
Lemma treated_cells (f0 f2 f3 out : DataFrame) (moneda_idx : nat) (tipo : series)
      (c : string) (s : series) (i : nat) :
  wf_frame f0 ->
  index_of "Moneda" (labels f0) = Some moneda_idx ->
  getitem "Tipo" (scrub moneda_idx f0) = Ok tipo ->
  fold_result (scale_and_sign_frame (str_contains_nota_credito tipo))
              (Denote.numeric_cols moneda_idx (scrub moneda_idx f0))
              (scrub moneda_idx f0) = Ok f2 ->
  format_fecha f2 = Ok f3 ->
  append_totals (Denote.numeric_cols moneda_idx (scrub moneda_idx f0)) f3 = Ok out ->
  In c (Denote.numeric_cols moneda_idx (scrub moneda_idx f0)) ->
  assoc c (columns f2) = Some s ->
  (i < nrows f0)%nat ->
  series_len s = nrows f0 /\ cell out c i = to_object s !! i.
Proof.
  intros Hwf Hidx Htipo Hfold Hfmt Htot Hin Hs2 Hi.
  destruct (treated_frame _ _ _ _ _ Hwf Hidx Htipo Hfold Hfmt) as [Hl3 Hnum].
  destruct (Hnum _ Hin) as (s' & Hs2' & Hs3 & Hnumeric & Hlen).
  rewrite Hs2 in Hs2'. injection Hs2' as <-. split; [exact Hlen|].
  destruct (assoc c (columns out)) as [s_out|] eqn:Hout.
  2:{ apply assoc_None in Hout. exfalso. apply Hout.
      apply append_totals_shape in Htot as [Hlab _]. fold (labels out). rewrite Hlab.
      eapply assoc_In_labels; eauto. }
  destruct (append_totals_column _ _ _ _ _ Htot Hout) as (s3 & v & Hs3' & Htc' & ->).
  rewrite Hs3 in Hs3'. injection Hs3' as <-.
  unfold totals_cell in Htc'. apply mem_In in Hin. rewrite Hin in Htc'.
  apply result_bind_Ok in Htc' as (s'' & Hget & Htc').
  apply getitem_assoc in Hget. rewrite Hs3 in Hget. injection Hget as <-.
  apply result_bind_Ok in Htc' as (total & Hsum & Htc'). injection Htc' as <-.
  destruct (append_cell_sum _ _ _ Hnumeric Hlen Hsum) as (_ & _ & Hdata).
  unfold cell. now rewrite Hout, (Hdata _ Hi).
Qed.

(** C1.  In a monetary column every amount is multiplied by the exchange
    rate of its row, and the product is negated exactly when the type of the
    row is a credit note (a text in which "nota de cr", "e" or "é", "dito",
    or else "nc", stands in any case) and the product is positive.  A
    product that is negative, zero or NaN stays as it is, and a row of any
    other type is never negated.  The factor is the exchange rate of the
    input, unless "Tipo Cambio" is itself a monetary column to the left: the
    loop has then squared and signed it, and the factor is the rate as the
    cleaned table shows it. *)
Theorem credit_notes_are_negated
        (self : ExcelProcessor.t) (h : heap) (f0 out : DataFrame)
        (i : nat) (col : string) (amount rate type : pyobj) :
  holds self h f0 ->
  wf_frame f0 ->
  cleaned self h = Some out ->
  monetary f0 col = true ->
  cell f0 col i = Some amount ->
  cell f0 "Tipo Cambio" i = Some rate ->
  cell f0 "Tipo" i = Some type ->
  exists factor : pyobj,
    (if rescaled f0 col then cell out "Tipo Cambio" i = Some factor else factor = rate) /\
    let scaled := obj_mul amount factor in
    (credit_note type /\ obj_gt0 scaled = true -> cell out col i = Some (obj_neg scaled)) /\
    (~ (credit_note type /\ obj_gt0 scaled = true) -> cell out col i = Some scaled).
Proof.
  intros Hholds Hwf Hc Hmon Ha Hr Ht.
  apply (cleaned_clean_frame _ _ _ _ Hholds) in Hc.
  pose proof (clean_frame_stages _ _ Hc)
    as (idx & tipo & f2 & f3 & Hidx & Htipo & Hfold & Hfmt & Htot).
  assert (Hin : In col (Denote.numeric_cols idx (scrub idx f0)))
    by now apply numeric_cols_monetary.
  destruct (in_split _ _ Hin) as (pre & post & Hsplit).
  destruct (fold_signed _ _ _ _ Hfold (numeric_cols_NoDup _ _ Hwf) pre col post Hsplit)
    as (a & r & s & Hsa & Hrin & Hrout & Hsigned & Hs2).
  apply scrub_assoc in Hsa.
  pose proof Htipo as Htipo'. apply getitem_assoc in Htipo'. apply scrub_assoc in Htipo'.
  unfold cell in Ha, Ht. rewrite Hsa in Ha. rewrite Htipo' in Ht.
  assert (Hi : (i < nrows f0)%nat).
  { apply lookup_lt_Some in Ha. rewrite to_object_length in Ha.
    now rewrite (wf_lens _ Hwf _ _ Hsa) in Ha. }
  assert (Hm : str_contains_nota_credito tipo !! i = Some (obj_is_nota_credito type)).
  { unfold str_contains_nota_credito. now rewrite lookup_map, Ht. }
  assert (Hfactor : exists factor,
             to_object r !! i = Some factor /\
             if rescaled f0 col then cell out "Tipo Cambio" i = Some factor
             else factor = rate).
  { destruct (rescaled f0 col) eqn:Hres.
    - unfold rescaled in Hres. apply andb_true_iff in Hres.
      pose proof (proj2 (numeric_cols_order _ _ Hwf Hidx _ _ _ _ Hsplit) Hres) as Hpre.
      assert (Htcin : In "Tipo Cambio" (Denote.numeric_cols idx (scrub idx f0))).
      { rewrite Hsplit. apply in_or_app. now left. }
      destruct (treated_cells _ _ _ _ _ _ _ _ i Hwf Hidx Htipo Hfold Hfmt Htot Htcin
                              (Hrin Hpre) Hi) as [Hlen Hcell].
      destruct (to_object r !! i) as [factor|] eqn:E.
      + exists factor. now rewrite Hcell.
      + apply lookup_ge_None in E. rewrite to_object_length in E. lia.
    - assert (Hpre : ~ In "Tipo Cambio" pre).
      { intros Hpre. apply (numeric_cols_order _ _ Hwf Hidx _ _ _ _ Hsplit) in Hpre.
        unfold rescaled in Hres. apply andb_false_iff in Hres.
        destruct Hpre, Hres; congruence. }
      apply Hrout in Hpre. apply scrub_assoc in Hpre.
      unfold cell in Hr. rewrite Hpre in Hr. eauto. }
  destruct Hfactor as (factor & Hf & Hfactor).
  pose proof (signed_cell _ _ _ _ _ _ _ _ Hsigned Ha Hf Hm) as Hcell.
  destruct (treated_cells _ _ _ _ _ _ _ _ i Hwf Hidx Htipo Hfold Hfmt Htot Hin Hs2 Hi)
    as [_ Hout].
  exists factor. split; [exact Hfactor|]. cbv zeta. rewrite Hout, Hcell. unfold flip.
  split.
  - intros [Hcn Hgt]. apply nota_credito_is_credit_note in Hcn. now rewrite Hcn, Hgt.
  - intros Hnot. destruct (obj_is_nota_credito type) eqn:E; [|reflexivity].
    destruct (obj_gt0 (obj_mul amount factor)) eqn:G; [|reflexivity].
    exfalso. apply Hnot. split; [now apply nota_credito_is_credit_note | reflexivity].
Qed.

(** C7.  [clean_data] works on a copy: the frame the processor has loaded
    is the same object with the same content afterwards, and no object that
    existed before the call is changed.  So a second call on the same
    processor returns a table equal to the first, both being the cleaning
    of the table as loaded: no amount is scaled twice. *)
Theorem clean_data_leaves_the_loaded_frame
        (self self1 : ExcelProcessor.t) (h h1 : heap) (f0 : DataFrame) (l1 : loc) :
  holds self h f0 ->
  clean_data self h = (Ok (l1, self1), h1) ->
  holds self1 h1 f0 /\
  (forall l, df self = Some l -> df self1 = Some l /\ h1 !! l = Some f0) /\
  (forall k, (k < length h)%nat -> h1 !! k = h !! k) /\
  exists (out : DataFrame) (l2 : loc) (self2 : ExcelProcessor.t) (h2 : heap),
    clean_data self1 h1 = (Ok (l2, self2), h2) /\
    h1 !! l1 = Some out /\
    h2 !! l2 = Some out /\
    h2 !! l1 = Some out /\
    l1 <> l2 /\
    holds self2 h2 f0 /\
    clean_frame f0 = Ok out.
Proof.
  intros Hholds Hrun.
  destruct (clean_data_run self h f0 Hholds)
    as (self' & ha & junk & Hpath & Hmonth & (l & Hdf & Hl) & (new & Hnew) & Hsame & Heq).
  rewrite Hrun in Heq. destruct (clean_frame f0) as [out|e] eqn:Hout; [|discriminate].
  injection Heq as -> -> ->.
  assert (Hlt : (l < length ha)%nat) by (eapply lookup_lt_Some; eauto).
  assert (Hh1 : holds self' ((ha ++ junk) ++ [out])%list f0).
  { unfold holds. rewrite Hdf, <- app_assoc. now rewrite lookup_app_l. }
  split; [exact Hh1|]. split; [|split].
  - intros l0 Hl0. destruct (Hsame ltac:(congruence)) as [-> ->].
    split; [exact Hl0|]. unfold holds in Hholds. rewrite Hl0 in Hholds.
    rewrite <- app_assoc. rewrite lookup_app_l; [exact Hholds|].
    eapply lookup_lt_Some; eauto.
  - intros k Hk. subst ha. rewrite <- !app_assoc. now rewrite lookup_app_l.
  - destruct (clean_data_run self' _ f0 Hh1)
      as (self2 & hb & junk2 & _ & _ & (l' & Hdf2 & Hl') & (new2 & Hnew2) & Hsame2 & Heq2).
    rewrite Hout in Heq2.
    destruct (Hsame2 ltac:(congruence)) as [-> ->].
    exists out, (length (((ha ++ junk) ++ [out]) ++ junk2)%list), self',
           ((((ha ++ junk) ++ [out]) ++ junk2) ++ [out])%list.
    split; [exact Heq2|]. split; [apply lookup_snoc|]. split; [apply lookup_snoc|].
    split; [|split; [|split; [|reflexivity]]].
    + replace ((((ha ++ junk) ++ [out]) ++ junk2) ++ [out])%list
        with ((ha ++ junk) ++ out :: (junk2 ++ [out]))%list
        by (rewrite <- !app_assoc; reflexivity).
      now apply list_lookup_middle.
    + rewrite !length_app. simpl. lia.
    + unfold holds. rewrite Hdf. rewrite <- !app_assoc. now rewrite lookup_app_l.
Qed.

End Cleaning.

Section CleaningExamples.
Import Pandas ExcelProcessor Denote Table.
#[local] Existing Instance left_to_right.

Lemma ejemplo_wf : wf_frame Ejemplo.ledger.
Proof.
  split.
  - apply (bool_decide_unpack _). vm_compute. exact I.
  - repeat constructor.
Qed.

Lemma ejemplo_cleaned : cleaned (init Ejemplo.file) [] = Some Ejemplo.ledger_cleaned.
Proof. vm_compute. reflexivity. Qed.

Lemma cleaning_adds_one_row_witness :
  nrows Ejemplo.ledger_cleaned = S (nrows Ejemplo.ledger) /\
  (forall (col : string) (s : series),
     assoc col (columns Ejemplo.ledger_cleaned) = Some s ->
     length (to_object s) = S (nrows Ejemplo.ledger) /\
     exists s0, assoc col (columns Ejemplo.ledger) = Some s0 /\
                length (to_object s0) = nrows Ejemplo.ledger) /\
  Z.of_nat (nrows Ejemplo.ledger_cleaned) - 1 = Z.of_nat (nrows Ejemplo.ledger) /\
  forall (file : xlsx_file) (path : option string) (h0 h' : heap) (s : summary)
         (w : option (string * DataFrame)),
    process_excel_file file path h0 = (Ok (s, w), h') ->
    rows_processed s = Z.of_nat (nrows (sheet file)).
Proof.
  apply (cleaning_adds_one_row (init Ejemplo.file) [] Ejemplo.ledger Ejemplo.ledger_cleaned).
  - reflexivity.
  - exact ejemplo_wf.
  - vm_compute. reflexivity.
Defined.

(** Of the trailing columns of the example, the all-zero "IVA" and the
    empty "Otros" go, "Neto" and "Total" stay, and so does everything up to
    the marker. *)
Lemma scrub_drops_exactly_the_empty_columns_witness :
  exists moneda_idx : nat,
    index_of "Moneda" (labels Ejemplo.ledger) = Some moneda_idx /\
    forall (j : nat) (col : string) (s : series),
      columns Ejemplo.ledger !! j = Some (col, s) ->
      (In col (labels Ejemplo.ledger_cleaned) <->
       (j <= moneda_idx)%nat \/ ~ (entirely_empty s \/ entirely_zero s)).
Proof.
  apply (scrub_drops_exactly_the_empty_columns (init Ejemplo.file) [] Ejemplo.ledger).
  - reflexivity.
  - exact ejemplo_wf.
  - vm_compute. reflexivity.
Defined.

Lemma totals_row_holds_the_sums_witness :
  nrows Ejemplo.ledger_cleaned = S (nrows Ejemplo.ledger) /\
  forall (col : string) (s : series),
    assoc col (columns Ejemplo.ledger_cleaned) = Some s ->
    series_len s = S (nrows Ejemplo.ledger) /\
    if monetary Ejemplo.ledger col
    then exists total, series_sum (series_take (nrows Ejemplo.ledger) s) = Ok total /\
                       to_object s !! nrows Ejemplo.ledger = Some total
    else to_object s !! nrows Ejemplo.ledger = Some (OStr "").
Proof.
  apply (totals_row_holds_the_sums (init Ejemplo.file) [] Ejemplo.ledger).
  - reflexivity.
  - exact ejemplo_wf.
  - vm_compute. reflexivity.
Defined.

Lemma nota_de_credito_a : credit_note (OStr "3 - Nota de Crédito A").
Proof.
  exists "3 - Nota de Crédito A", "3 - ", "Nota de Crédito", " A".
  split; [reflexivity|]. split; [reflexivity|]. left.
  exists "Nota de Cr", e_acute_lower, "d", "i", "to".
  repeat split; try reflexivity; simpl; auto.
Qed.

Lemma rate_after_wf : wf_frame Ejemplo.rate_after.
Proof.
  split.
  - apply (bool_decide_unpack _). vm_compute. exact I.
  - repeat constructor.
Qed.

(** The dollar credit note of the example: 50 at rate 2 comes out as -100.
    Where the rate stands after the marker, the credit note of 10 at rate 2
    is scaled by the rate the loop has left, -4, and is not negated again. *)
Lemma credit_notes_are_negated_witness :
  cell Ejemplo.ledger_cleaned "Neto" 1 = Some (OFloat (-100)%float) /\
  cell Ejemplo.rate_after_cleaned "Neto" 1 = Some (OInt (-40)).
Proof.
  split.
  - destruct (credit_notes_are_negated (init Ejemplo.file) [] Ejemplo.ledger
                Ejemplo.ledger_cleaned 1 "Neto"
                (OFloat 50%float) (OFloat 2%float) (OStr "3 - Nota de Crédito A"))
      as (factor & Hfactor & Hneg & _).
    + reflexivity.
    + exact ejemplo_wf.
    + vm_compute. reflexivity.
    + reflexivity.
    + reflexivity.
    + reflexivity.
    + reflexivity.
    + change (rescaled Ejemplo.ledger "Neto") with false in Hfactor. cbv iota in Hfactor.
      subst factor. apply Hneg. split; [exact nota_de_credito_a | reflexivity].
  - destruct (credit_notes_are_negated (init Ejemplo.rate_after_file) [] Ejemplo.rate_after
                Ejemplo.rate_after_cleaned 1 "Neto" (OInt 10) (OInt 2) (OStr "NC"))
      as (factor & Hfactor & _ & Hkeep).
    + reflexivity.
    + exact rate_after_wf.
    + vm_compute. reflexivity.
    + reflexivity.
    + reflexivity.
    + reflexivity.
    + reflexivity.
    + change (rescaled Ejemplo.rate_after "Neto") with true in Hfactor. cbv iota in Hfactor.
      change (cell Ejemplo.rate_after_cleaned "Tipo Cambio" 1) with (Some (OInt (-4)))
        in Hfactor.
      injection Hfactor as <-. apply Hkeep. intros [_ H]. discriminate H.
Defined.

(** C3, as stated, fails: in the example the exchange rate is a column of
    numbers before the marker, and the totals row holds the empty text under
    it. *)
Lemma no_total_under_the_exchange_rate : ~ totals_under_every_numeric_column.
Proof.
  intros H.
  destruct (H left_to_right (init Ejemplo.file) [] Ejemplo.ledger Ejemplo.ledger_cleaned
              "Tipo Cambio"
              (SObject [OFloat 1%float; OFloat 2%float; OFloat 1%float; OStr ""]))
    as (data & total & Hnum & _ & Hsum & Hlast).
  - reflexivity.
  - exact ejemplo_wf.
  - vm_compute. reflexivity.
  - reflexivity.
  - reflexivity.
  - simpl in Hlast. injection Hlast as <-. clear H.
    destruct data; try discriminate Hnum; simpl in Hsum.
    + discriminate Hsum.
    + unfold obj_of_float in Hsum. destruct (cell64 _); discriminate Hsum.
Qed.

Lemma clean_data_leaves_the_loaded_frame_witness :
  exists (out : DataFrame) (l2 : loc) (self2 : ExcelProcessor.t) (h2 : heap),
    clean_data (ExcelProcessor.mk Ejemplo.file (Some 0%nat) None)
               (snd (clean_data (ExcelProcessor.mk Ejemplo.file (Some 0%nat) None)
                                [Ejemplo.ledger]))
    = (Ok (l2, self2), h2) /\
    h2 !! l2 = Some out /\ h2 !! 3%nat = Some out /\ clean_frame Ejemplo.ledger = Ok out.
Proof.
  destruct (clean_data_leaves_the_loaded_frame
              (ExcelProcessor.mk Ejemplo.file (Some 0%nat) None)
              (ExcelProcessor.mk Ejemplo.file (Some 0%nat) None)
              [Ejemplo.ledger]
              (snd (clean_data (ExcelProcessor.mk Ejemplo.file (Some 0%nat) None)
                               [Ejemplo.ledger]))
              Ejemplo.ledger 3%nat)
    as (_ & _ & _ & out & l2 & self2 & h2 & Hrun & _ & H2 & H1 & _ & _ & Hout).
  - reflexivity.
  - vm_compute. reflexivity.
  - exists out, l2, self2, h2. repeat split; assumption.
Defined.

End CleaningExamples.

(** ** [detect_month]: the period *)

Section Period.
Import Pandas ExcelProcessor Denote Table.
Context {lib : Library}.

(** *** Rows kept *)


Lemma getitem_frame_filter (mask : list bool) (f : DataFrame) (col : string) :
  assoc col (columns (frame_filter mask f))
  = option_map (series_filter mask) (assoc col (columns f)).
Proof.
  unfold frame_filter. simpl.
  apply (assoc_map_values (fun _ s => series_filter mask s)).
Qed.

(** The frame [dropna] leaves, in terms of the loaded "Fecha" column. *)
Lemma parsed_dates_spec (f0 : DataFrame) :
  parsed_dates f0 =
    match assoc "Fecha" (columns f0) with
    | None => Raise (KeyError "Fecha")
    | Some fecha =>
        let dates := if is_object fecha then to_datetime_dmy fecha else fecha in
        Ok (frame_filter (kept_rows fecha)
                         (if is_object fecha then setitem "Fecha" dates f0 else f0))
    end.
Proof.
  unfold parsed_dates, getitem, dropna_subset, kept_rows.
  destruct (assoc "Fecha" (columns f0)) as [fecha|] eqn:Hf; simpl; [|reflexivity].
  destruct (is_object fecha); simpl.
  - rewrite getitem_setitem_eq. reflexivity.
  - unfold getitem. rewrite Hf. reflexivity.
Qed.



(** A text cell is kept exactly when it parses. *)
Lemma kept_rows_object (xs : list pyobj) :
  kept_rows (SObject xs)
  = map (fun o => match obj_to_datetime o with Some _ => true | None => false end) xs.
Proof.
  unfold kept_rows, notna. simpl. rewrite !map_map.
  apply map_ext. intros o. now destruct (obj_to_datetime o).
Qed.



Lemma head_insert_by {A} (le : A -> A -> bool) (x : A) (l : list A) :
  head (insert_by le x l)
  = match head l with
    | None => Some x
    | Some y => if le x y then Some x else Some y
    end.
Proof. destruct l as [|y l]; simpl; [reflexivity|]. now destruct (le x y). Qed.

Lemma In_uniq (z : Z) (xs : list Z) : In z (uniq xs) <-> In z xs.
Proof.
  induction xs as [|x xs IH]; simpl; [reflexivity|].
  rewrite filter_In, IH, negb_true_iff, Z.eqb_neq.
  destruct (Z.eq_dec x z); intuition congruence.
Qed.

Lemma count_pos (k : Z) (vs : list Z) : In k vs <-> (0 < count k vs)%nat.
Proof.
  unfold count. induction vs as [|x vs IH]; simpl; [split; [tauto | lia]|].
  destruct (Z.eqb_spec k x); simpl.
  - split; [lia | intros _; left; congruence].
  - rewrite <- IH. intuition congruence.
Qed.

Lemma fold_best (t : list (Z * nat)) (y : Z * nat) :
  (forall z, In z t -> (snd z <= snd y)%nat) ->
  fold_left (fun best x => if (snd best <? snd x)%nat then x else best) t y = y.
Proof.
  induction t as [|x t IH]; simpl; intros H; [reflexivity|].
  replace (snd y <? snd x)%nat with false.
  - apply IH. intros z Hz. apply H. now right.
  - symmetry. apply Nat.ltb_ge, H. now left.
Qed.

(** The month [detect_month] picks: the one [value_counts] lists first,
    which is one of those with the most rows. *)
Lemma most_common (xs : list (option Z)) :
  somes xs <> [] ->
  exists m,
    idxmax (value_counts xs) = Ok m /\
    In m (somes xs) /\
    (forall m', (count m' (somes xs) <= count m (somes xs))%nat) /\
    exists rest, value_counts xs = (m, count m (somes xs)) :: rest.
Proof.
  intros Hne. unfold value_counts. set (vs := somes xs) in *.
  set (g := fun k : Z => (k, count k vs)).
  pose proof (order_counts_perm (map g (uniq vs))) as Hperm.
  pose proof (order_counts_sorted (map g (uniq vs))) as Hsorted.
  destruct (order_counts (map g (uniq vs))) as [|y t] eqn:Ho.
  { apply Permutation_nil in Hperm. destruct vs as [|v vs']; [congruence | discriminate]. }
  assert (Hhead : forall z, In z t -> (snd z <= snd y)%nat).
  { apply Sorted_extends in Hsorted.
    - rewrite List.Forall_forall in Hsorted. exact Hsorted.
    - intros a b c Hab Hbc. lia. }
  assert (Hy : In y (map g (uniq vs))) by (eapply Permutation_in; [exact Hperm | now left]).
  apply in_map_iff in Hy as (m & Hm & Hmin).
  apply (proj1 (In_uniq _ _)) in Hmin.
  exists m. unfold idxmax. rewrite (fold_best t y Hhead), <- Hm. simpl.
  split; [reflexivity|]. split; [exact Hmin|]. split; [|now exists t].
  intros m'. destruct (in_dec Z.eq_dec m' vs) as [Hin'|Hnin].
  - assert (Hg : In (g m') (y :: t)).
    { eapply Permutation_in; [symmetry; exact Hperm|]. apply in_map, In_uniq, Hin'. }
    destruct Hg as [Hg|Hg].
    + rewrite <- Hm in Hg. injection Hg as <-. lia.
    + apply Hhead in Hg. rewrite <- Hm in Hg. exact Hg.
  - rewrite count_pos in Hnin. lia.
Qed.

Lemma fold_max_ge (l : list nat) (x : nat) :
  In x l -> (x <= fold_right Nat.max 0%nat l)%nat.
Proof.
  induction l as [|y l IH]; simpl; [tauto|]. intros [->|H]; [lia|].
  specialize (IH H). lia.
Qed.

Lemma fold_max_In (l : list nat) : l <> [] -> In (fold_right Nat.max 0%nat l) l.
Proof.
  induction l as [|y l IH]; [congruence|]. intros _. simpl.
  destruct l as [|z l]; [left; simpl; lia|].
  specialize (IH ltac:(discriminate)).
  destruct (Nat.max_spec y (fold_right Nat.max 0%nat (z :: l))) as [[_ ->]|[_ ->]];
    [now right | now left].
Qed.

Lemma max_count_ge (k : Z) (vs : list Z) : (count k vs <= max_count vs)%nat.
Proof.
  destruct (in_dec Z.eq_dec k vs) as [Hin|Hnin].
  - apply fold_max_ge. now apply (in_map (fun k => count k vs)).
  - rewrite count_pos in Hnin. lia.
Qed.

Lemma max_count_attained (vs : list Z) :
  vs <> [] -> exists k, In k vs /\ count k vs = max_count vs.
Proof.
  intros Hne.
  assert (H : In (max_count vs) (map (fun k => count k vs) vs)).
  { apply fold_max_In. destruct vs; [congruence | discriminate]. }
  apply in_map_iff in H as (k & Hk & Hin). eauto.
Qed.

Lemma head_sort_min (l : list Z) :
  l <> [] ->
  exists y, head (sort_by Z.leb l) = Some y /\ In y l /\ forall z, In z l -> y <= z.
Proof.
  induction l as [|x l IH]; [congruence|]. intros _. simpl.
  rewrite head_insert_by.
  destruct l as [|x' l'].
  - simpl. exists x. split; [reflexivity|]. split; [now left|].
    intros z [<-|[]]. lia.
  - destruct (IH ltac:(discriminate)) as (y & Hy & Hin & Hmin). rewrite Hy.
    destruct (Z.leb_spec x y).
    + exists x. split; [reflexivity|]. split; [now left|].
      intros z [<-|Hz]; [lia|]. specialize (Hmin _ Hz). lia.
    + exists y. split; [reflexivity|]. split; [now right|].
      intros z [<-|Hz]; [lia | now apply Hmin].
Qed.

(** The year [detect_month] picks: the least of the most frequent. *)
Lemma mode_head (xs : list (option Z)) :
  somes xs <> [] ->
  exists y,
    head (mode xs) = Some y /\
    In y (somes xs) /\
    (forall y', (count y' (somes xs) <= count y (somes xs))%nat) /\
    (forall y', count y' (somes xs) = count y (somes xs) -> y <= y').
Proof.
  intros Hne. unfold mode. set (vs := somes xs) in *.
  set (F := List.filter (fun k => (count k vs =? max_count vs)%nat) (uniq vs)).
  assert (HF : forall k, In k F <-> In k vs /\ count k vs = max_count vs).
  { intros k. unfold F. now rewrite filter_In, In_uniq, Nat.eqb_eq. }
  assert (HFne : F <> []).
  { destruct (max_count_attained vs Hne) as (k & Hk & Hc).
    intros E. assert (Hin : In k F) by now apply HF. rewrite E in Hin. destruct Hin. }
  destruct (head_sort_min F HFne) as (y & Hy & Hin & Hmin).
  apply HF in Hin as [Hin Hc].
  exists y. split; [exact Hy|]. split; [exact Hin|]. split.
  - intros y'. rewrite Hc. apply max_count_ge.
  - intros y' Hy'. apply Hmin, HF. split; [|congruence].
    apply count_pos. rewrite Hy'. now apply count_pos.
Qed.

(** *** From the frame to the list of dates *)

Lemma somes_map_Some {A} (l : list A) : somes (map Some l) = l.
Proof. induction l; simpl; congruence. Qed.

Lemma filter_mask_is_some {A} (xs : list (option A)) :
  filter_mask (map (fun x => match x with Some _ => true | None => false end) xs) xs
  = map Some (somes xs).
Proof. induction xs as [|[x|] xs IH]; simpl; congruence. Qed.

Lemma filter_mask_map {A B} (g : A -> B) (mask : list bool) (xs : list A) :
  filter_mask mask (map g xs) = map g (filter_mask mask xs).
Proof.
  revert xs. induction mask as [|[|] mask IH]; intros [|x xs]; simpl; try reflexivity.
  - f_equal. apply IH.
  - apply IH.
Qed.

Lemma filter_mask_filter {A} (p : A -> bool) (xs : list A) :
  filter_mask (map p xs) xs = List.filter p xs.
Proof. induction xs as [|x xs IH]; simpl; [reflexivity|]. destruct (p x); congruence. Qed.

Lemma length_filter_mask_is_some {A} (xs : list (option A)) :
  length (filter_mask (map (fun x => match x with Some _ => true | None => false end) xs)
                      (map (fun x => match x with Some _ => true | None => false end) xs))
  = length (somes xs).
Proof. induction xs as [|[x|] xs IH]; simpl; congruence. Qed.

Lemma kept_rows_datetime (xs : list (option date)) :
  kept_rows (SDatetime xs)
  = map (fun x => match x with Some _ => true | None => false end) xs.
Proof. unfold kept_rows, notna. simpl. rewrite map_map. apply map_ext. now intros [d|]. Qed.

(** The frame [dropna] leaves when "Fecha" is text or dates: its "Fecha"
    column is the kept dates. *)
Lemma parsed_dates_kept (f0 : DataFrame) (ds : list date) :
  kept_dates f0 = Some ds ->
  exists f, parsed_dates f0 = Ok f /\
            nrows f = length ds /\
            getitem "Fecha" f = Ok (SDatetime (map Some ds)).
Proof.
  unfold kept_dates. rewrite parsed_dates_spec.
  destruct (assoc "Fecha" (columns f0)) as [[ | | |xs|xs]|] eqn:Hf; try discriminate;
    intros [= <-]; cbn [is_object]; eexists; (split; [reflexivity|]).
  - (* dates *)
    rewrite kept_rows_datetime. split.
    + unfold frame_filter. simpl. apply length_filter_mask_is_some.
    + unfold getitem. rewrite getitem_frame_filter, Hf. simpl.
      now rewrite filter_mask_is_some.
  - (* text *)
    assert (Hmask : kept_rows (SObject xs)
                    = map (fun x : option date => match x with Some _ => true | None => false end)
                          (map obj_to_datetime xs))
      by (rewrite kept_rows_object, map_map; reflexivity).
    rewrite Hmask. split.
    + unfold frame_filter. simpl. apply length_filter_mask_is_some.
    + unfold getitem. rewrite getitem_frame_filter, assoc_setitem. simpl.
      now rewrite filter_mask_is_some.
Qed.

Lemma period_of_kept (f : DataFrame) (ds : list date) :
  nrows f = length ds -> ds <> [] ->
  getitem "Fecha" f = Ok (SDatetime (map Some ds)) ->
  exists m y,
    period_of f = Ok (m, y) /\
    In m (map month ds) /\
    (forall m', (count m' (map month ds) <= count m (map month ds))%nat) /\
    (exists rest,
        value_counts (map (fun d => Some (month d)) ds)
        = (m, count m (map month ds)) :: rest) /\
    let ys := map year (List.filter (fun d => month d =? m) ds) in
    In y ys /\
    (forall y', (count y' ys <= count y ys)%nat) /\
    (forall y', count y' ys = count y ys -> y <= y').
Proof.
  intros Hn Hne Hf. unfold period_of.
  replace (nrows f =? 0)%nat with false
    by (symmetry; apply Nat.eqb_neq; rewrite Hn; destruct ds; [congruence | discriminate]).
  rewrite Hf. simpl. rewrite !map_map. simpl.
  set (months := map (fun d => Some (month d)) ds).
  assert (Hms : somes months = map month ds)
    by (unfold months; rewrite <- (map_map month Some); apply somes_map_Some).
  destruct (most_common months) as (m & Hidx & Hin & Hmax & Hfirst).
  { rewrite Hms. destruct ds; [congruence | discriminate]. }
  rewrite Hms in Hin, Hmax, Hfirst.
  rewrite Hidx. simpl.
  set (kept := List.filter (fun d => month d =? m) ds).
  assert (Hys : filter_mask
                  (map (fun m0 : option Z => match m0 with
                                             | Some m' => m' =? m
                                             | None => false
                                             end) months)
                  (map (fun d => Some (year d)) ds)
                = map Some (map year kept)).
  { unfold months. rewrite map_map, filter_mask_map. simpl.
    rewrite filter_mask_filter, map_map. reflexivity. }
  rewrite Hys.
  assert (Hkept : map year kept <> []).
  { apply in_map_iff in Hin as (d & Hd & Hin).
    assert (Hk : In d kept) by (apply filter_In; split; [exact Hin | now apply Z.eqb_eq]).
    intros E. apply (in_map year) in Hk. rewrite E in Hk. destruct Hk. }
  destruct (mode_head (map Some (map year kept))) as (y & Hhead & Hy & Hymax & Hymin).
  { now rewrite somes_map_Some. }
  rewrite somes_map_Some in Hy, Hymax, Hymin.
  replace (0 <? length (map Some (map year kept)))%nat with true.
  2:{ symmetry. apply Nat.ltb_lt. rewrite !length_map.
      destruct kept; [simpl in Hkept; congruence | simpl; lia]. }
  rewrite Hhead. simpl.
  exists m, y. repeat split; auto.
Qed.

(** C5, as the code has it.  When at least one date parses, [detect_month]
    returns a month with the most rows among the rows whose date parses:
    the month that [value_counts] lists first.  Which of several months with
    as many rows that is, is left to the sort of the library.  The year is
    the most frequent year among the rows of that month, the least one if
    several are as frequent. *)
Theorem detect_month_most_common
        (self : ExcelProcessor.t) (h : heap) (f0 : DataFrame) (ds : list date) :
  holds self h f0 ->
  kept_dates f0 = Some ds ->
  ds <> [] ->
  exists (m y : Z) (self' : ExcelProcessor.t) (h' : heap),
    detect_month self h = (Ok ((m, y), self'), h') /\
    month_detected self' = Some (m, y) /\
    In m (map month ds) /\
    (forall m', (count m' (map month ds) <= count m (map month ds))%nat) /\
    (exists rest,
        value_counts (map (fun d => Some (month d)) ds)
        = (m, count m (map month ds)) :: rest) /\
    let ys := map year (List.filter (fun d => month d =? m) ds) in
    In y ys /\
    (forall y', (count y' ys <= count y ys)%nat) /\
    (forall y', count y' ys = count y ys -> y <= y').
Proof.
  intros Hholds Hkept Hne.
  destruct (parsed_dates_kept _ _ Hkept) as (f & Hparsed & Hn & Hf).
  destruct (period_of_kept _ _ Hn Hne Hf) as (m & y & Hperiod & Hrest).
  destruct (detect_month_run self h f0 Hholds) as (s' & h1 & junk & _ & _ & _ & _ & Hrun).
  unfold detect_frame in Hrun. rewrite Hparsed in Hrun. simpl in Hrun.
  rewrite Hperiod in Hrun.
  exists m, y, (ExcelProcessor.mk (file_path s') (df s') (Some (m, y))), (h1 ++ junk)%list.
  split; [exact Hrun|]. split; [reflexivity | exact Hrest].
Qed.

End Period.

Section PeriodExamples.
Import Pandas ExcelProcessor Denote Table.
#[local] Existing Instance left_to_right.


(** *** Counting *)

(** Two rows of March and one of April 2025 give March 2025. *)
Lemma detect_month_most_common_witness :
  exists (m y : Z) (self' : ExcelProcessor.t) (h' : heap),
    detect_month (init Ejemplo.file) [] = (Ok ((m, y), self'), h') /\
    month_detected self' = Some (m, y) /\
    In m [3; 3; 4] /\
    (forall m', (count m' [3%Z; 3%Z; 4%Z] <= count m [3%Z; 3%Z; 4%Z])%nat).
Proof.
  destruct (detect_month_most_common (init Ejemplo.file) [] Ejemplo.ledger
              [mkdate 2025 3 15; mkdate 2025 3 16; mkdate 2025 4 1])
    as (m & y & self' & h' & Hrun & Hset & Hin & Hmax & _).
  - reflexivity.
  - vm_compute. reflexivity.
  - discriminate.
  - exists m, y, self', h'. repeat split; assumption.
Defined.

Example detect_month_march :
  fst (detect_month (init Ejemplo.file) [])
  = Ok ((3, 2025), ExcelProcessor.mk Ejemplo.file (Some 0%nat) (Some (3, 2025))).
Proof. vm_compute. reflexivity. Qed.

(** C5, as stated, fails: with a row of April before a row of March and
    nothing else, and a library whose sort leaves entries of equal count as
    they come, [detect_month] answers April. *)
Lemma ties_need_not_go_to_the_earlier_month : ~ ties_go_to_the_earlier_month.
Proof.
  intros H.
  set (f := mkxlsx ["Mis Comprobantes Emitidos - CUIT 30716820080"]
                   (mkframe 2 [("Fecha", SObject [OStr "15/04/2025"; OStr "10/03/2025"]);
                               ("Moneda", SObject [OStr "$"; OStr "$"])])).
  specialize (H left_to_right f [mkdate 2025 4 15; mkdate 2025 3 10] 4 2025
                (ExcelProcessor.mk f (Some 0%nat) (Some (4, 2025)))
                (snd (detect_month (init f) []))).
  specialize (H ltac:(vm_compute; reflexivity) ltac:(vm_compute; reflexivity) 3).
  specialize (H ltac:(vm_compute; reflexivity)). lia.
Qed.

End PeriodExamples.

(** ** [detect_info_from_header]: the banner *)

Section Header.
Import ExcelProcessor.

(** C8.  A workbook whose first sheet has no cell: [detect_info_from_header]
    takes the first cell of the first row before it looks for anything, and
    stops there with the [IndexError] of the indexer.  It does not come to
    raise the [ValueError] that quotes the banner, although neither the
    CUIT nor the direction can be told. *)
Theorem empty_banner_is_an_index_error (sheet : Pandas.DataFrame) :
  detect_info_from_header (init (mkxlsx [] sheet)) = Raise IndexError /\
  forall header_text : string,
    detect_info_from_header (init (mkxlsx [] sheet))
    <> Raise (ValueError (header_error header_text)).
Proof. split; [reflexivity | discriminate]. Qed.

End Header.

(** ** The remote store *)

Section Store.
Import ExcelProcessor DriveHandler.
Context {lib : Library}.

Lemma find_folder_run (folder_name : string) (parent_id : option nat) (d : DriveHandler.t) :
  find_folder folder_name parent_id d = (Ok (found_folder (files d) folder_name parent_id), d).
Proof. reflexivity. Qed.

Lemma after_lookup_files (d : DriveHandler.t) :
  files (after_lookup d) = files d /\ next_id (after_lookup d) = next_id d.
Proof. unfold after_lookup. now destruct (root_folder_id d). Qed.

Lemma after_lookup_root (d : DriveHandler.t) : root_of (after_lookup d) = root_of d.
Proof.
  unfold after_lookup, root_of. destruct (root_folder_id d) as [r|] eqn:E.
  - now rewrite E.
  - simpl. unfold root_of. rewrite E.
    now destruct (found_folder (files d) ROOT_FOLDER_NAME None).
Qed.

Lemma after_lookup_idem (d : DriveHandler.t) : after_lookup (after_lookup d) = after_lookup d.
Proof.
  unfold after_lookup at 1. destruct (root_folder_id (after_lookup d)) eqn:E; [reflexivity|].
  unfold after_lookup in *. destruct (root_folder_id d) eqn:E'; [congruence|].
  unfold with_root in *. simpl in *. f_equal. rewrite E.
  unfold root_of in *. simpl. now rewrite E' in E.
Qed.

Lemma get_root_folder_id_run (d : DriveHandler.t) :
  get_root_folder_id d = (of_option (root_of d) (Exception no_root_msg), after_lookup d).
Proof.
  unfold get_root_folder_id, after_lookup, with_root, root_of.
  destruct (root_folder_id d) as [r|] eqn:E; [reflexivity|].
  rewrite find_folder_run. reflexivity.
Qed.

Lemma get_client_structure_run (client_name : string) (d : DriveHandler.t) :
  get_client_structure client_name d
  = (result_bind (of_option (root_of d) (Exception no_root_msg)) (fun root =>
       structure_of (files d) root client_name), after_lookup d).
Proof.
  unfold get_client_structure. unfold bind at 1. rewrite get_root_folder_id_run.
  destruct (after_lookup_files d) as [Hf _].
  destruct (root_of d) as [r|] eqn:Hr; simpl; [|reflexivity].
  unfold bind at 1. rewrite find_folder_run, Hf. unfold structure_of.
  destruct (found_folder (files d) client_name (Some r)) as [c|]; simpl; [|reflexivity].
  unfold bind at 1. rewrite find_folder_run. unfold bind at 1. rewrite find_folder_run.
  now rewrite Hf.
Qed.

(** The look-up of the yearly workbook reads the store and writes nothing. *)
Lemma check_year_file_exists_run (client_name tipo : string) (year : Z) (d : DriveHandler.t) :
  check_year_file_exists client_name tipo year d
  = (result_bind (type_folder_of d client_name tipo) (fun folder =>
       let items := List.filter (workbook_query folder (year_filename client_name tipo year))
                                (files d) in
       Ok (mkcheck (0 <? length items)%nat (option_map id (head items)) folder
                   (year_filename client_name tipo year))),
     after_lookup d).
Proof.
  unfold check_year_file_exists, type_folder_of. unfold bind at 1.
  rewrite get_client_structure_run.
  destruct (after_lookup_files d) as [Hf _].
  destruct (root_of d) as [r|]; simpl; [|reflexivity].
  destruct (structure_of (files d) r client_name) as [st|e]; simpl; [|reflexivity].
  destruct (type_folder st tipo) as [folder|]; simpl; [|reflexivity].
  unfold bind, list_files, ret. now rewrite Hf.
Qed.

Lemma create_year_file_run (client_name tipo : string) (year : Z) (d : DriveHandler.t) :
  create_year_file client_name tipo year d
  = match type_folder_of d client_name tipo with
    | Ok folder =>
        upload_file [mksheet "_temp" [[OStr temp_note]]] folder
                    (year_filename client_name tipo year) (after_lookup d)
    | Raise e => (Raise e, after_lookup d)
    end.
Proof.
  unfold create_year_file, type_folder_of. unfold bind at 1.
  rewrite get_client_structure_run.
  destruct (root_of d) as [r|]; simpl; [|reflexivity].
  destruct (structure_of (files d) r client_name) as [st|e]; simpl; [|reflexivity].
  destruct (type_folder st tipo) as [folder|]; simpl; reflexivity.
Qed.

End Store.

(** ** [process_file]: the merge *)

Section Merge.
Import Pandas ExcelProcessor DriveHandler App Denote Table.
Context {lib : Library}.

Lemma add_sheet_to_workbook_run (self : ExcelProcessor.t) (wb : workbook)
      (sheet_name : string) (l : loc) (h : heap) (f : DataFrame) :
  h !! l = Some f ->
  add_sheet_to_workbook self (Some wb) sheet_name (Some l) h
  = (match add_sheet wb sheet_name f with
     | Ok r => Ok (r, self)
     | Raise e => Raise e
     end, h).
Proof.
  intros Hl. unfold add_sheet_to_workbook, add_sheet.
  unfold bind at 1. unfold ret at 1. cbv beta iota.
  rewrite (bind_load _ _ _ _ Hl).
  destruct (mem sheet_name (sheetnames wb)); [reflexivity|].
  cbv zeta. rewrite bind_lift.
  now destruct (sheet_title _ sheet_name).
Qed.

Lemma bind_on_heap {A B} (m : M A) (k : A -> ST world B) (w : world) :
  bind (on_heap m) k w
  = match m (w_heap w) with
    | (Ok a, h) => k a (mkworld h (w_drive w))
    | (Raise e, h) => (Raise e, mkworld h (w_drive w))
    end.
Proof. unfold bind, on_heap. now destruct (m (w_heap w)) as [[a|e] h]. Qed.

Lemma bind_on_drive_run {A B} (m : D A) (k : A -> ST world B) (k' : A -> D B)
      (h : heap) (d : DriveHandler.t) :
  (forall a d1, k a (mkworld h d1) = (let (r, d2) := k' a d1 in (r, mkworld h d2))) ->
  bind (on_drive m) k (mkworld h d)
  = (let (r, d2) := bind m k' d in (r, mkworld h d2)).
Proof.
  intros Hk. unfold bind, on_drive. cbn [w_drive w_heap].
  destruct (m d) as [[a|e] d1]; [apply Hk|reflexivity].
Qed.

Lemma bind_lift_run {A B} (r : result A) (k : A -> ST world B) (k' : A -> D B)
      (h : heap) (d : DriveHandler.t) :
  (forall a, k a (mkworld h d) = (let (r, d2) := k' a d in (r, mkworld h d2))) ->
  bind (lift r) k (mkworld h d)
  = (let (r, d2) := bind (lift r) k' d in (r, mkworld h d2)).
Proof.
  intros Hk. rewrite !bind_lift. destruct r as [a|e]; [apply Hk|reflexivity].
Qed.

(** [process_file] cleans the upload, then merges; the frames it builds
    stay its own. *)
Lemma process_file_try_run (req : request) (w : world) :
  exists h' : heap,
    process_file_try req w
    = match clean_frame (sheet (file req)) with
      | Raise e => (Raise e, mkworld h' (w_drive w))
      | Ok out =>
          let (r, d) := merge req out (w_drive w) in (r, mkworld h' d)
      end.
Proof.
  unfold process_file_try. rewrite bind_on_heap.
  unfold read_excel at 1. rewrite bind_alloc. unfold ret at 1. cbv beta iota.
  change (file_path (init (file req))) with (file req).
  set (p1 := ExcelProcessor.mk (file req) (Some (length (w_heap w)))
                               (month_detected (init (file req)))).
  cbn [w_drive w_heap].
  assert (Hh1 : holds p1 (w_heap w ++ [sheet (file req)])%list (sheet (file req)))
    by apply lookup_snoc.
  destruct (clean_data_run p1 _ _ Hh1)
    as (p1' & h1 & junk & _ & _ & _ & _ & Hsame & Hrun).
  destruct (Hsame ltac:(discriminate)) as [-> ->].
  rewrite bind_on_heap. cbn [w_drive w_heap]. rewrite Hrun.
  destruct (clean_frame (sheet (file req))) as [out|e]; [|eauto].
  set (h' := (((w_heap w ++ [sheet (file req)]) ++ junk) ++ [out])%list).
  exists h'. rewrite bind_on_heap. cbn [w_drive w_heap].
  unfold load at 1. fold h'.
  assert (Hout : h' !! length ((w_heap w ++ [sheet (file req)]) ++ junk)%list = Some out)
    by apply lookup_snoc.
  rewrite Hout. cbn [of_option].
  unfold merge. apply bind_on_drive_run. intros fc d1. cbv zeta.
  assert (Hproceed : forall (fid : option nat) (d : DriveHandler.t),
    (let* file_id := lift (of_option fid HttpError) in
     let* downloaded_file := on_drive (download_file file_id) in
     let* (result, _) :=
       on_heap (add_sheet_to_workbook p1 (Some downloaded_file) (month_name req)
                  (Some (length ((w_heap w ++ [sheet (file req)]) ++ junk)%list))) in
     if String.eqb (fst result) "exists"
     then raise (HTTPException 400 (duplicate_msg (month_name req) (filename fc)))
     else
       let* saved := lift (of_option (snd result) (Exception "no such file")) in
       let* _ := on_drive (update_file file_id saved) in
       ret (Processed (success_msg (month_name req) (filename fc))
                      (Z.of_nat (nrows out) - 1)
                      (client req) (tipo req) (year req) (month_name req)))
      (mkworld h' d)
    = (let (r, d') := proceed req out (filename fc) fid d in (r, mkworld h' d'))).
  { intros fid d. unfold proceed. apply bind_lift_run. intros file_id.
    apply bind_on_drive_run. intros wb d2.
    rewrite bind_on_heap. cbn [w_drive w_heap].
    rewrite (add_sheet_to_workbook_run _ _ _ _ _ _ Hout).
    unfold commit. rewrite bind_lift.
    destruct (add_sheet wb (month_name req) out) as [result|e]; [|reflexivity].
    cbv beta iota.
    destruct (String.eqb (fst result) "exists"); [reflexivity|].
    apply bind_lift_run. intros saved.
    apply bind_on_drive_run. intros newid d3. reflexivity. }
  destruct (negb (exists_ fc)).
  - destruct (negb (create_if_not_exists req)); [reflexivity|].
    apply bind_on_drive_run. intros fid d2. exact (Hproceed (Some fid) d2).
  - exact (Hproceed (file_id fc) d1).
Qed.

Lemma process_file_run (req : request) (w : world) :
  exists h' : heap,
    process_file req w
    = match clean_frame (sheet (file req)) with
      | Raise e => (Raise (handled e), mkworld h' (w_drive w))
      | Ok out =>
          match merge req out (w_drive w) with
          | (Ok r, d) => (Ok r, mkworld h' d)
          | (Raise e, d) => (Raise (handled e), mkworld h' d)
          end
      end.
Proof.
  destruct (process_file_try_run req w) as [h' Hrun]. exists h'.
  unfold process_file. rewrite Hrun.
  destruct (clean_frame (sheet (file req))) as [out|e].
  - destruct (merge req out (w_drive w)) as [[r|e] d]; [reflexivity|].
    now destruct e.
  - now destruct e.
Qed.

(** *** The store between two merges *)

Lemma find_has_id (fs : list drive_file) (f : drive_file) :
  NoDup (map id fs) -> In f fs -> List.find (has_id (id f)) fs = Some f.
Proof.
  induction fs as [|g fs IH]; simpl; [tauto|].
  intros Hnd [->|Hin].
  - unfold has_id. now rewrite Nat.eqb_refl.
  - apply NoDup_cons in Hnd as [Hnotin Hnd].
    unfold has_id at 1. destruct (id g =? id f)%nat eqn:E.
    + apply Nat.eqb_eq in E. exfalso. apply Hnotin. rewrite E.
      apply list_elem_of_In, in_map, Hin.
    + now apply IH.
Qed.

Lemma find_fresh (fs : list drive_file) (x : drive_file) :
  (forall f, In f fs -> id f <> id x) ->
  List.find (has_id (id x)) (fs ++ [x]) = Some x.
Proof.
  induction fs as [|g fs IH]; simpl; intros Hne.
  - unfold has_id. now rewrite Nat.eqb_refl.
  - unfold has_id at 1. destruct (id g =? id x)%nat eqn:E.
    + apply Nat.eqb_eq in E. exfalso. apply (Hne g); auto.
    + apply IH. intros f Hf. apply Hne. now right.
Qed.

Lemma id_set_content (file_id : nat) (wb : workbook) (f : drive_file) :
  id (set_content file_id wb f) = id f.
Proof. unfold set_content. now destruct (has_id file_id f). Qed.

Lemma find_set_content (file_id x : nat) (wb : workbook) (fs : list drive_file) :
  List.find (has_id x) (map (set_content file_id wb) fs)
  = option_map (set_content file_id wb) (List.find (has_id x) fs).
Proof.
  induction fs as [|g fs IH]; simpl; [reflexivity|].
  unfold has_id at 1 3. rewrite id_set_content.
  now destruct (id g =? x)%nat.
Qed.

Lemma found_folder_snoc (fs : list drive_file) (x : drive_file) (n : string)
      (p : option nat) :
  mime_type x <> Folder -> found_folder (fs ++ [x]) n p = found_folder fs n p.
Proof.
  intros Hx. unfold found_folder. rewrite List.filter_app. simpl.
  assert (Hq : folder_query n p x = false).
  { unfold folder_query. destruct (mime_type x); try congruence;
      now rewrite ?andb_false_r. }
  rewrite Hq. now rewrite app_nil_r.
Qed.

Lemma type_folder_of_ext (d d' : DriveHandler.t) (client_name tipo : string) :
  root_of d' = root_of d ->
  (forall n p, found_folder (files d') n p = found_folder (files d) n p) ->
  type_folder_of d' client_name tipo = type_folder_of d client_name tipo.
Proof.
  intros Hr Hf. unfold type_folder_of, structure_of. rewrite Hr.
  destruct (root_of d) as [r|]; simpl; [|reflexivity].
  rewrite Hf. destruct (found_folder (files d) client_name (Some r)) as [c|]; simpl;
    [|reflexivity].
  now rewrite !Hf.
Qed.

Lemma after_lookup_cached (d : DriveHandler.t) (r : nat) :
  root_of d = Some r -> root_folder_id (after_lookup d) = Some r.
Proof.
  unfold after_lookup, root_of. destruct (root_folder_id d) eqn:E; [now rewrite E|].
  simpl. unfold root_of. now rewrite E.
Qed.

Lemma type_folder_of_root (d : DriveHandler.t) (client_name tipo : string) (folder : nat) :
  type_folder_of d client_name tipo = Ok folder -> exists r, root_of d = Some r.
Proof.
  unfold type_folder_of. destruct (root_of d) as [r|]; [eauto|discriminate].
Qed.

Lemma download_file_run (file_id : nat) (d : DriveHandler.t) :
  download_file file_id d
  = (match List.find (has_id file_id) (files d) with
     | Some f => Ok (content f)
     | None => Raise HttpError
     end, d).
Proof.
  unfold download_file, bind, get_file, ret.
  change (fun f : drive_file => (id f =? file_id)%nat) with (has_id file_id).
  now destruct (List.find (has_id file_id) (files d)).
Qed.

Lemma update_file_run (file_id : nat) (wb : workbook) (d : DriveHandler.t)
      (f : drive_file) :
  List.find (has_id file_id) (files d) = Some f ->
  update_file file_id wb d
  = if mime_eqb (mime_type f) GoogleSheet then
      let rest := List.filter (fun g => negb (id g =? file_id)%nat) (files d) in
      match parent f with
      | Some p =>
          (Ok (Some (next_id d)),
           DriveHandler.mk (rest ++ [mkfile (next_id d) (name f) Xlsx (Some p) false wb])%list
                           (S (next_id d)) (root_folder_id d))
      | None => (Ok None, DriveHandler.mk rest (next_id d) (root_folder_id d))
      end
    else
      (Ok (Some file_id),
       DriveHandler.mk (map (set_content file_id wb) (files d)) (next_id d)
                       (root_folder_id d)).
Proof.
  intros Hf. unfold update_file. unfold bind at 1. unfold get_file at 1.
  change (fun f : drive_file => (id f =? file_id)%nat) with (has_id file_id).
  rewrite Hf. cbn [of_option].
  destruct (mime_eqb (mime_type f) GoogleSheet).
  - unfold bind at 1. unfold get_file at 1.
    change (fun f : drive_file => (id f =? file_id)%nat) with (has_id file_id).
    rewrite Hf. cbn [of_option]. unfold bind at 1. unfold delete_file at 1.
    destruct (parent f) as [p|]; reflexivity.
  - reflexivity.
Qed.

Lemma commit_exists (req : request) (out : DataFrame) (fname : string) (file_id : nat)
      (wb : workbook) (d : DriveHandler.t) :
  mem (month_name req) (sheetnames wb) = true ->
  commit req out fname file_id wb d
  = (Raise (HTTPException 400 (duplicate_msg (month_name req) fname)), d).
Proof.
  intros Hm. unfold commit, add_sheet. rewrite Hm. reflexivity.
Qed.

(** *** Sheet titles *)

Lemma remove_sheet_absent (n : string) (wb : workbook) :
  mem n (sheetnames wb) = false -> remove_sheet n wb = wb.
Proof.
  induction wb as [|x wb IH]; simpl; [reflexivity|].
  rewrite String.eqb_sym. destruct (String.eqb (title x) n); simpl; [discriminate|].
  intros H. now rewrite IH.
Qed.

Lemma workbook_query_name (folder : nat) (fname : string) (f : drive_file) :
  workbook_query folder fname f = true ->
  name f = fname /\ parent f = Some folder /\ trashed f = false.
Proof.
  unfold workbook_query, in_parent. intros H.
  apply andb_prop in H as [H Ht]. apply andb_prop in H as [Hn Hp].
  apply String.eqb_eq in Hn. destruct (parent f) as [q|]; [|discriminate].
  apply Nat.eqb_eq in Hp. subst q. now destruct (trashed f).
Qed.

Lemma workbook_query_new (folder next : nat) (fname : string) (wb : workbook) :
  workbook_query folder fname (mkfile next fname Xlsx (Some folder) false wb) = true.
Proof.
  unfold workbook_query, in_parent. simpl. now rewrite String.eqb_refl, Nat.eqb_refl.
Qed.

(** A merge that goes through leaves the sheet in the workbook it wrote. *)
Lemma merge_located (req : request) (out : DataFrame) (d d1 d2 : DriveHandler.t)
      (fc : file_check) (file_id : nat) :
  check_year_file_exists (client req) (tipo req) (year req) d = (Ok fc, d1) ->
  located req fc d1 file_id d2 ->
  merge req out d = proceed req out (filename fc) (Some file_id) d2.
Proof.
  intros Hcheck Hloc. unfold merge. unfold bind at 1. rewrite Hcheck. cbv zeta.
  destruct Hloc as [(-> & -> & ->)|(-> & -> & Hcreate)]; cbn [negb]; [reflexivity|].
  unfold bind at 1. now rewrite Hcreate.
Qed.

Lemma cleaned_upload (req : request) (h : heap) (out : DataFrame) :
  cleaned (init (file req)) h = Some out -> clean_frame (sheet (file req)) = Ok out.
Proof. apply cleaned_clean_frame. reflexivity. Qed.

(** C6.  When the yearly workbook is not in the store and the request does
    not carry the confirmation, [process_file] writes nothing to the store:
    its files and the next id are as before.  If the upload can be cleaned,
    the answer is the request for confirmation (cleaning comes first in the
    handler; an upload it rejects is answered with an error, the store
    untouched all the same). *)
Theorem absent_workbook_needs_confirmation
        (req : request) (w : world) (fc : file_check) (d1 : DriveHandler.t) :
  create_if_not_exists req = false ->
  check_year_file_exists (client req) (tipo req) (year req) (w_drive w) = (Ok fc, d1) ->
  exists_ fc = false ->
  exists (r : result response) (w' : world),
    process_file req w = (r, w') /\
    files (w_drive w') = files (w_drive w) /\
    next_id (w_drive w') = next_id (w_drive w) /\
    forall out : DataFrame,
      cleaned (init (file req)) (w_heap w) = Some out ->
      r = Ok (NeedsConfirmation
                (confirm_msg (year_filename (client req) (tipo req) (year req)))).
Proof.
  intros Hflag Hcheck Habsent.
  destruct (process_file_run req w) as [h' Hrun].
  destruct (after_lookup_files (w_drive w)) as [Hfiles Hnext].
  assert (Hmerge : forall out,
    merge req out (w_drive w)
    = (Ok (NeedsConfirmation
             (confirm_msg (year_filename (client req) (tipo req) (year req)))),
       after_lookup (w_drive w))).
  { intros out. unfold merge. unfold bind at 1. rewrite Hcheck. cbv zeta.
    rewrite Habsent, Hflag. cbn [negb]. unfold ret.
    rewrite check_year_file_exists_run in Hcheck.
    destruct (type_folder_of (w_drive w) (client req) (tipo req)); [|discriminate].
    cbn [result_bind] in Hcheck. now injection Hcheck as <- <-. }
  destruct (clean_frame (sheet (file req))) as [out|e] eqn:Hclean.
  - rewrite Hmerge in Hrun. eexists _, _. split; [exact Hrun|]. cbn [w_drive].
    split; [exact Hfiles|]. split; [exact Hnext|]. intros out' Hout'.
    apply cleaned_upload in Hout'. congruence.
  - eexists _, _. split; [exact Hrun|]. cbn [w_drive].
    split; [reflexivity|]. split; [reflexivity|].
    intros out' Hout'. apply cleaned_upload in Hout'. congruence.
Qed.

(** X21.  A merge whose month is already a sheet of the workbook it fetched
    (the one found, or the one just created) is rejected with the duplicate
    error, status 400: [add_sheet_to_workbook] answers "exists" and leaves
    the local file as it was, and the store stays as it was when the workbook
    was fetched (for a workbook that was found: as it was before the
    request). *)
Theorem existing_sheet_is_rejected (req : request) (w : world)
        (out : DataFrame) (fc : file_check) (d1 d2 d3 : DriveHandler.t)
        (file_id : nat) (wb : workbook) :
  cleaned (init (file req)) (w_heap w) = Some out ->
  check_year_file_exists (client req) (tipo req) (year req) (w_drive w) = (Ok fc, d1) ->
  located req fc d1 file_id d2 ->
  download_file file_id d2 = (Ok wb, d3) ->
  In (month_name req) (sheetnames wb) ->
  (exists w' : world,
      process_file req w
      = (Raise (HTTPException 400 (duplicate_msg (month_name req) (filename fc))), w')
      /\ w_drive w' = d2
      /\ (exists_ fc = true ->
          files (w_drive w') = files (w_drive w) /\
          next_id (w_drive w') = next_id (w_drive w))) /\
  (forall (self : ExcelProcessor.t) (l : loc) (h : heap),
      h !! l = Some out ->
      add_sheet_to_workbook self (Some wb) (month_name req) (Some l) h
      = (Ok (("exists", Some wb), self), h)).
Proof.
  intros Hclean Hcheck Hloc Hdown Hin.
  apply mem_In in Hin. split.
  - destruct (process_file_run req w) as [h' Hrun].
    rewrite (cleaned_upload _ _ _ Hclean) in Hrun.
    rewrite (merge_located _ _ _ _ _ _ _ Hcheck Hloc) in Hrun.
    unfold proceed in Hrun. rewrite bind_lift in Hrun. cbn [of_option] in Hrun.
    unfold bind at 1 in Hrun. rewrite Hdown in Hrun.
    rewrite (commit_exists _ _ _ _ _ _ Hin) in Hrun.
    rewrite download_file_run in Hdown. injection Hdown as _ <-.
    eexists. split; [exact Hrun|]. split; [reflexivity|]. cbn [w_drive].
    intros Hthere. destruct Hloc as [(_ & _ & ->)|(Habsent & _)]; [|congruence].
    rewrite check_year_file_exists_run in Hcheck. injection Hcheck as _ <-.
    apply after_lookup_files.
  - intros self l h Hl. rewrite (add_sheet_to_workbook_run _ _ _ _ _ _ Hl).
    unfold add_sheet. now rewrite Hin.
Qed.

End Merge.

Section MergeExamples.
Import Pandas ExcelProcessor DriveHandler App Denote Table.
#[local] Existing Instance left_to_right.

Lemma absent_workbook_needs_confirmation_witness :
  exists (r : result response) (w' : world),
    process_file (Tienda.pedido 2026 false) (mkworld [] (Tienda.drive Xlsx ["Enero"]))
    = (r, w') /\
    files (w_drive w') = files (Tienda.drive Xlsx ["Enero"]) /\
    next_id (w_drive w') = 5%nat /\
    forall out : DataFrame,
      cleaned (init Ejemplo.file) [] = Some out ->
      r = Ok (NeedsConfirmation
                "El archivo 'Libro Iva Ventas 2026 Panaderia Sol.xlsx' no existe. ¿Desea crearlo?").
Proof.
  apply (absent_workbook_needs_confirmation
           (Tienda.pedido 2026 false) (mkworld [] (Tienda.drive Xlsx ["Enero"]))
           (mkcheck false None 2 "Libro Iva Ventas 2026 Panaderia Sol.xlsx")
           (after_lookup (Tienda.drive Xlsx ["Enero"]))).
  - reflexivity.
  - vm_compute. reflexivity.
  - reflexivity.
Defined.

Lemma existing_sheet_is_rejected_witness :
  exists w' : world,
    process_file (Tienda.pedido 2025 false)
                 (mkworld [] (Tienda.drive Xlsx ["Enero"; "Marzo"]))
    = (Raise (HTTPException 400
         "La pestaña 'Marzo' ya existe en el archivo 'Libro Iva Ventas 2025 Panaderia Sol.xlsx'"),
       w')
    /\ files (w_drive w') = files (Tienda.drive Xlsx ["Enero"; "Marzo"]).
Proof.
  destruct (existing_sheet_is_rejected
              (Tienda.pedido 2025 false)
              (mkworld [] (Tienda.drive Xlsx ["Enero"; "Marzo"]))
              Ejemplo.ledger_cleaned
              (mkcheck true (Some 4%nat) 2 "Libro Iva Ventas 2025 Panaderia Sol.xlsx")
              (after_lookup (Tienda.drive Xlsx ["Enero"; "Marzo"]))
              (after_lookup (Tienda.drive Xlsx ["Enero"; "Marzo"]))
              (after_lookup (Tienda.drive Xlsx ["Enero"; "Marzo"]))
              4%nat [mksheet "Enero" []; mksheet "Marzo" []])
    as [(w' & Hrun & _ & Hsame) _].
  - vm_compute. reflexivity.
  - vm_compute. reflexivity.
  - left. repeat split.
  - vm_compute. reflexivity.
  - simpl. tauto.
  - exists w'. split; [exact Hrun|]. exact (proj1 (Hsame eq_refl)).
Defined.

(** C2.  The yearly workbook holds a sheet "MARZO", and the ledger of
    "Marzo" is merged twice.  The test of [add_sheet_to_workbook] looks for
    the very name "Marzo" and does not find it; [create_sheet], for which
    titles that differ in case only are the same, files the ledger as
    "Marzo1".  The first merge answers that the sheet "Marzo" was added.  The
    second merge of the same ledger is not rejected: it answers the same,
    and the workbook then holds the ledger twice, as "Marzo1" and "Marzo2". *)
Theorem month_in_another_case_is_merged_twice :
  let req := Tienda.pedido 2025 false in
  let w := mkworld [] (Tienda.drive Xlsx ["MARZO"]) in
  let added :=
    Processed
      "Pestaña 'Marzo' agregada exitosamente al archivo 'Libro Iva Ventas 2025 Panaderia Sol.xlsx'"
      3 "Panaderia Sol" "ventas" 2025 "Marzo" in
  let w1 := snd (process_file req w) in
  let w2 := snd (process_file req w1) in
  let sheets_of (w : world) :=
    map (fun f => sheetnames (content f)) (List.filter (has_id 4) (files (w_drive w))) in
  sheets_of w = [["MARZO"]] /\
  fst (process_file req w) = Ok added /\
  sheets_of w1 = [["MARZO"; "Marzo1"]] /\
  fst (process_file req w1) = Ok added /\
  sheets_of w2 = [["MARZO"; "Marzo1"; "Marzo2"]].
Proof. vm_compute. repeat split; reflexivity. Qed.

(** A Google Sheet is replaced by a workbook with a new id; the second merge
    finds it. *)
Example google_sheet_merged_twice :
  let req := Tienda.pedido 2025 false in
  let w1 := snd (process_file req (mkworld [] (Tienda.drive GoogleSheet ["Enero"]))) in
  map id (files (w_drive w1)) = [0; 1; 2; 3; 5]%nat /\
  fst (process_file req w1)
  = Raise (HTTPException 400
      "La pestaña 'Marzo' ya existe en el archivo 'Libro Iva Ventas 2025 Panaderia Sol.xlsx'").
Proof. vm_compute. split; reflexivity. Qed.

(** With the confirmation, the workbook of a new year is created, its
    placeholder sheet replaced by the month's. *)
Example new_year_merged :
  let req := Tienda.pedido 2026 true in
  let w1 := snd (process_file req (mkworld [] (Tienda.drive Xlsx ["Enero"]))) in
  map (fun f => (name f, sheetnames (content f)))
      (List.filter (has_id 5) (files (w_drive w1)))
  = [("Libro Iva Ventas 2026 Panaderia Sol.xlsx", ["Marzo"])].
Proof. vm_compute. reflexivity. Qed.

End MergeExamples.

(** ** [cuit_mapper.py]: the mapping *)

Section Mapping.
Import CUITMapper.

Lemma get_set_eq (k v : string) (d : dict) : get k (set k v d) = Some v.
Proof.
  induction d as [|[k' v'] d IH]; simpl.
  - now rewrite String.eqb_refl.
  - destruct (String.eqb k' k) eqn:E; simpl; rewrite E; [reflexivity | exact IH].
Qed.

Lemma get_set_ne (k k' v : string) (d : dict) :
  k' <> k -> get k' (set k v d) = get k' d.
Proof.
  intros Hne. induction d as [|[k0 v0] d IH]; simpl.
  - destruct (String.eqb_spec k k'); [congruence | reflexivity].
  - destruct (String.eqb_spec k0 k) as [->|Hk]; simpl.
    + destruct (String.eqb_spec k k'); [congruence | reflexivity].
    + now rewrite IH.
Qed.

Lemma contains_get (k : string) (d : dict) :
  contains k d = match get k d with Some _ => true | None => false end.
Proof.
  unfold contains. induction d as [|[k' v'] d IH]; simpl; [reflexivity|].
  now destruct (String.eqb k' k).
Qed.

Lemma keys_set (k v : string) (d : dict) :
  map fst (set k v d) = if contains k d then map fst d else (map fst d ++ [k])%list.
Proof.
  unfold contains. induction d as [|[k' v'] d IH]; simpl; [reflexivity|].
  destruct (String.eqb k' k) eqn:E; simpl; [reflexivity|].
  rewrite IH. now destruct (existsb _ d).
Qed.

Lemma get_None_keys (k : string) (d : dict) : get k d = None <-> ~ In k (map fst d).
Proof.
  induction d as [|[k' v'] d IH]; simpl; [tauto|].
  destruct (String.eqb_spec k' k) as [->|Hne].
  - split; [discriminate | tauto].
  - rewrite IH. tauto.
Qed.

(** A lookup finds the one item with that key. *)
Lemma get_split (pre post : dict) (k v : string) :
  NoDup (map fst (pre ++ (k, v) :: post)%list) ->
  get k (pre ++ (k, v) :: post)%list = Some v.
Proof.
  induction pre as [|[k' v'] pre IH]; simpl; intros Hnd.
  - now rewrite String.eqb_refl.
  - apply NoDup_cons in Hnd as [Hk Hnd].
    destruct (String.eqb_spec k' k) as [->|Hne]; [|now apply IH].
    exfalso. apply Hk. rewrite map_app. simpl.
    apply list_elem_of_In, in_or_app. right. now left.
Qed.

(** X1.  [add_client] records the client under the CUIT, whether the CUIT
    was there or not, and changes the answer for no other CUIT; the number
    of clients grows by one exactly when the CUIT is new.  What it saves is
    what a mapper created afterwards loads. *)
Theorem add_client_is_recorded (cuit client_name : string) (self : t) :
  let self' := add_client cuit client_name self in
  get_client_by_cuit cuit self' = Some client_name /\
  client_exists cuit self' = true /\
  (forall c, c <> cuit -> get_client_by_cuit c self' = get_client_by_cuit c self) /\
  length (get_all_clients self')
  = (if client_exists cuit self then length (get_all_clients self)
     else S (length (get_all_clients self))) /\
  init (file self') = self'.
Proof.
  unfold add_client, get_client_by_cuit, client_exists, get_all_clients, save_mapping, init.
  simpl. split; [apply get_set_eq|]. split.
  - now rewrite contains_get, get_set_eq.
  - split; [intros c Hc; now apply get_set_ne|]. split; [|reflexivity].
    rewrite <- !(length_map fst), keys_set.
    destruct (contains cuit (mapping self)); [reflexivity|].
    rewrite length_app. simpl. lia.
Qed.

(** X2.  [get_cuit_by_client] answers the first CUIT, in the order of
    registration, that is registered for the name: what it answers maps
    back to the name, and it answers the CUIT a client is registered under
    exactly when no CUIT registered before has the same name. *)
Theorem get_cuit_by_client_first (self : t) (pre post : dict) (cuit client_name : string) :
  NoDup (map fst (mapping self)) ->
  mapping self = (pre ++ (cuit, client_name) :: post)%list ->
  get_client_by_cuit cuit self = Some client_name /\
  (exists c, get_cuit_by_client client_name self = Some c /\
             get_client_by_cuit c self = Some client_name) /\
  (get_cuit_by_client client_name self = Some cuit <->
   forall kv, In kv pre -> snd kv <> client_name).
Proof.
  intros Hnd Hm. unfold get_client_by_cuit, get_cuit_by_client. rewrite Hm in *.
  split; [now apply get_split|].
  assert (Hfind : forall pre0,
    List.find (fun kv : string * string => String.eqb (snd kv) client_name)
              (pre0 ++ (cuit, client_name) :: post)%list
    = match List.find (fun kv : string * string => String.eqb (snd kv) client_name) pre0 with
      | Some kv => Some kv
      | None => Some (cuit, client_name)
      end).
  { induction pre0 as [|kv pre0 IH]; simpl.
    - now rewrite String.eqb_refl.
    - destruct (String.eqb (snd kv) client_name); [reflexivity | exact IH]. }
  rewrite Hfind. split.
  - destruct (List.find _ pre) as [[c n]|] eqn:E; simpl.
    + exists c. split; [reflexivity|]. apply find_some in E as [Hin Heq].
      simpl in Heq. apply String.eqb_eq in Heq. subst n.
      apply in_split in Hin as (p1 & p2 & ->).
      rewrite <- app_assoc in *. simpl in *. now apply get_split.
    + exists cuit. split; [reflexivity | now apply get_split].
  - destruct (List.find _ pre) as [[c n]|] eqn:E; simpl.
    + apply find_some in E as [Hin Heq]. simpl in Heq. apply String.eqb_eq in Heq.
      split.
      * intros [= ->]. exfalso.
        apply in_split in Hin as (p1 & p2 & ->).
        rewrite <- app_assoc, map_app in Hnd. simpl in Hnd.
        apply NoDup_app in Hnd as (_ & _ & Hnd).
        apply NoDup_cons in Hnd as [Hk _]. apply Hk.
        rewrite map_app. simpl. apply list_elem_of_In, in_or_app. right. now left.
      * intros H. now destruct (H _ Hin).
    + split; [|reflexivity]. intros _ kv Hin Heq.
      apply (find_none _ _ E) in Hin. apply String.eqb_neq in Hin. contradiction.
Qed.

Lemma get_cuit_by_client_first_witness :
  get_client_by_cuit "20111111112" (mk [("30716820080", "Sol"); ("20111111112", "Sol")] None)
  = Some "Sol" /\
  (exists c,
      get_cuit_by_client "Sol" (mk [("30716820080", "Sol"); ("20111111112", "Sol")] None)
      = Some c /\
      get_client_by_cuit c (mk [("30716820080", "Sol"); ("20111111112", "Sol")] None)
      = Some "Sol") /\
  (get_cuit_by_client "Sol" (mk [("30716820080", "Sol"); ("20111111112", "Sol")] None)
   = Some "20111111112" <->
   forall kv, In kv [("30716820080", "Sol")] -> snd kv <> "Sol").
Proof.
  apply (get_cuit_by_client_first
           (mk [("30716820080", "Sol"); ("20111111112", "Sol")] None)
           [("30716820080", "Sol")] [] "20111111112" "Sol").
  - apply (bool_decide_unpack _). vm_compute. exact I.
  - reflexivity.
Defined.

End Mapping.

(** ** [GET /api/clients] *)

Section Clients.
Import CUITMapper Api.
Context {lib : Library}.

(** The sort is stable: the items of one key keep their order. *)
Lemma sort_by_stable {A} (key : A -> string) (p : A -> bool) (l : list A) (k : string) :
  (forall a, p a = true <-> key a = k) ->
  List.filter p (Pandas.sort_by (fun a b => String.leb (key a) (key b)) l)
  = List.filter p l.
Proof.
  intros Hp.
  assert (Hrefl : forall s, String.leb s s = true).
  { intros s. destruct (String.leb_total s s); assumption. }
  assert (Hins : forall x l0,
    List.filter p (Pandas.insert_by (fun a b => String.leb (key a) (key b)) x l0)
    = List.filter p (x :: l0)).
  { intros x l0. induction l0 as [|y l0 IH]; [reflexivity|].
    cbn [Pandas.insert_by]. destruct (String.leb (key x) (key y)) eqn:E; [reflexivity|].
    cbn [List.filter] in *. rewrite IH.
    destruct (p x) eqn:Ex; [|reflexivity].
    destruct (p y) eqn:Ey; [|reflexivity].
    apply Hp in Ex, Ey. rewrite Ex, Ey, Hrefl in E. discriminate. }
  induction l as [|x l IH]; [reflexivity|].
  cbn [Pandas.sort_by]. rewrite Hins. cbn [List.filter]. now rewrite IH.
Qed.

(** X3.  [get_clients] never fails and changes nothing.  It lists every
    client of the mapping once, with its CUIT as id and enabled, in the
    order of the names as [str.lower()] gives them, compared code point by
    code point; clients whose lowered names are the same come in the order
    of the mapping. *)
Theorem get_clients_sorted (s : server) :
  let registered := map (fun kv => mkentry (snd kv) (fst kv) true)
                        (mapping (s_mapper s)) in
  exists clients : list client_entry,
    get_clients s = (Ok clients, s) /\
    Permutation clients registered /\
    Sorted (fun a b => String.leb (str_lower (e_name a)) (str_lower (e_name b)) = true)
           clients /\
    forall key : string,
      List.filter (fun e => String.eqb (str_lower (e_name e)) key) clients
      = List.filter (fun e => String.eqb (str_lower (e_name e)) key) registered.
Proof.
  intros registered. eexists. split.
  - unfold get_clients, try_except, get_clients_try, bind, ask_mapper, ret,
      get_all_clients. reflexivity.
  - fold registered. split; [apply sort_by_perm|]. split.
    + apply (sort_by_sorted by_lower_name). intros a b. apply String.leb_total.
    + intros key. apply (sort_by_stable (fun e => str_lower (e_name e))) with (k := key).
      intros a. apply String.eqb_eq.
Qed.

End Clients.

(** ** [Utils/drive_handler.py]: clients and workbooks *)

Section DriveMore.
Import ExcelProcessor DriveHandler DriveClients.
Context {lib : Library}.

Lemma collect_clients_run (items : list drive_file) :
  collect_clients items
  = if forallb is_cuits items then Ok [] else Raise AttributeError.
Proof.
  induction items as [|item items IH]; simpl; [reflexivity|].
  unfold is_cuits at 1. destruct (String.eqb (Text.lower (name item)) "cuits"); simpl;
    [exact IH | reflexivity].
Qed.

Lemma forallb_Permutation {A} (p : A -> bool) (l l' : list A) :
  Permutation l l' -> forallb p l = forallb p l'.
Proof.
  induction 1; simpl; try congruence.
  - destruct (p x), (p y); reflexivity.
Qed.

Lemma list_clients_run (order : list drive_file -> list drive_file) (d : DriveHandler.t) :
  (forall l, Permutation (order l) l) ->
  list_clients order d
  = (match root_of d with
     | None => Raise (Exception no_root_msg)
     | Some r =>
         if forallb is_cuits (List.filter (client_folder r) (files d))
         then Ok [] else Raise AttributeError
     end, after_lookup d).
Proof.
  intros Horder. unfold list_clients. unfold bind at 1. rewrite get_root_folder_id_run.
  destruct (root_of d) as [r|]; cbn [of_option]; [|reflexivity].
  unfold bind, list_files, lift. rewrite (proj1 (after_lookup_files d)).
  rewrite collect_clients_run.
  now rewrite (forallb_Permutation _ _ _ (Horder _)).
Qed.

(** X4.  [list_clients] reads [self.DISABLED_CLIENTS], which the class does
    not define: whatever the order of the listing, it raises
    [AttributeError] as soon as the root folder holds a live folder that is
    not named "cuits" (in any case), and answers the empty list otherwise.
    So it never lists a client, [find_client_by_cuit] fails with it or finds
    nothing, and [test_connection] answers [True] only for a root folder
    without client folders.  None of them writes to the store. *)
Theorem list_clients_lists_nothing
        (order_by_name : list drive_file -> list drive_file) (d : DriveHandler.t)
        (cuit : string) :
  (forall l, Permutation (order_by_name l) l) ->
  let outcome :=
    match root_of d with
    | None => Raise (Exception no_root_msg)
    | Some r =>
        if forallb is_cuits (List.filter (client_folder r) (files d))
        then Ok [] else Raise AttributeError
    end in
  list_clients order_by_name d = (outcome, after_lookup d) /\
  find_client_by_cuit order_by_name cuit d
  = (result_bind outcome (fun _ => Ok (mksearch false None cuit)), after_lookup d) /\
  files (after_lookup d) = files d /\
  (test_connection order_by_name d = true <->
   exists r, found_folder (files d) ROOT_FOLDER_NAME None = Some r /\
             forall f, In f (files d) -> client_folder r f = true -> is_cuits f = true).
Proof.
  intros Horder outcome. split; [now apply list_clients_run|]. split; [|split].
  - unfold find_client_by_cuit. unfold bind at 1. rewrite list_clients_run by exact Horder.
    fold outcome. now destruct outcome.
  - apply after_lookup_files.
  - unfold test_connection. rewrite list_clients_run by exact Horder.
    unfold root_of. cbn [root_folder_id files].
    destruct (found_folder (files d) ROOT_FOLDER_NAME None) as [r|]; cbn.
    + destruct (forallb is_cuits (List.filter (client_folder r) (files d))) eqn:E.
      * split; [|reflexivity]. intros _. exists r. split; [reflexivity|].
        intros f Hf Hc. rewrite forallb_forall in E. apply E, filter_In. now split.
      * split; [discriminate|]. intros (r' & [= <-] & H).
        assert (E' : forallb is_cuits (List.filter (client_folder r) (files d)) = true).
        { apply forallb_forall. intros f Hf. apply filter_In in Hf as [Hf Hc]. now apply H. }
        congruence.
    + split; [discriminate|]. now intros (r & [=] & _).
Qed.

Lemma create_client_run (client_name cuit : string) (d : DriveHandler.t) :
  create_client client_name cuit d
  = match root_of d with
    | None => (Raise (Exception no_root_msg), after_lookup d)
    | Some r =>
        match found_folder (files d) client_name (Some r) with
        | Some _ => (Ok (mkresult false None None None (exists_msg client_name)),
                     after_lookup d)
        | None =>
            (Ok (mkresult true (Some (next_id d)) (Some (S (next_id d)))
                          (Some (S (S (next_id d)))) (created_msg client_name)),
             DriveHandler.mk (files d ++ client_folders client_name r (next_id d))%list
                             (S (S (S (next_id d)))) (Some r))
        end
    end.
Proof.
  unfold create_client. unfold bind at 1. rewrite get_root_folder_id_run.
  destruct (root_of d) as [r|] eqn:Hr; cbn [of_option]; [|reflexivity].
  unfold bind at 1. rewrite find_folder_run.
  destruct (after_lookup_files d) as [Hf Hn]. rewrite Hf.
  destruct (found_folder (files d) client_name (Some r)); [reflexivity|].
  unfold bind, create_folder, ret. cbn [files next_id root_folder_id].
  rewrite Hf, Hn, (after_lookup_cached _ _ Hr), <- !app_assoc. reflexivity.
Qed.

Lemma found_folder_app_None (fs gs : list drive_file) (n : string) (p : option nat) :
  found_folder fs n p = None -> found_folder (fs ++ gs) n p = found_folder gs n p.
Proof.
  unfold found_folder. rewrite List.filter_app.
  destruct (List.filter (folder_query n p) fs); [reflexivity | discriminate].
Qed.

Lemma found_folder_no_parent (fs : list drive_file) (n : string) (p : nat) :
  (forall f, In f fs -> parent f <> Some p) -> found_folder fs n (Some p) = None.
Proof.
  intros H. unfold found_folder.
  replace (List.filter (folder_query n (Some p)) fs) with (@nil drive_file); [reflexivity|].
  symmetry. induction fs as [|f fs IH]; simpl; [reflexivity|].
  replace (folder_query n (Some p) f) with false.
  - apply IH. intros g Hg. apply H. now right.
  - symmetry. unfold folder_query, in_parent.
    specialize (H f (or_introl eq_refl)).
    destruct (parent f) as [q|]; [|now rewrite andb_false_r].
    destruct (Nat.eqb_spec q p); [congruence | now rewrite andb_false_r].
Qed.

(** X5.  [create_client] for a client that has no folder under the root
    creates the client's folder and, in it, "Ventas" and "Compras", and
    touches nothing else; [get_client_structure] then answers these three
    folders.  For a client that has a folder it reports that the client
    exists and writes nothing; so a second [create_client] always does. *)
Theorem create_client_then_structure
        (client_name cuit : string) (d : DriveHandler.t) (r : nat) :
  query_safe client_name ->
  root_of d = Some r ->
  (r < next_id d)%nat ->
  parents_ok d ->
  exists (res : client_result) (d' : DriveHandler.t),
    create_client client_name cuit d = (Ok res, d') /\
    (match found_folder (files d) client_name (Some r) with
     | Some _ =>
         res = mkresult false None None None (exists_msg client_name) /\
         files d' = files d /\ next_id d' = next_id d
     | None =>
         res = mkresult true (Some (next_id d)) (Some (S (next_id d)))
                        (Some (S (S (next_id d)))) (created_msg client_name) /\
         files d' = (files d ++ client_folders client_name r (next_id d))%list /\
         get_client_structure client_name d'
         = (Ok (mkstructure (next_id d) (Some (S (next_id d)))
                            (Some (S (S (next_id d))))), d')
     end) /\
    create_client client_name cuit d'
    = (Ok (mkresult false None None None (exists_msg client_name)), d').
Proof.
  intros _ Hroot Hr Hparents. rewrite create_client_run, Hroot.
  destruct (found_folder (files d) client_name (Some r)) as [c|] eqn:Hfound.
  - eexists _, _. split; [reflexivity|].
    destruct (after_lookup_files d) as [Hf Hn]. split; [now repeat split|].
    rewrite create_client_run, after_lookup_root, Hroot, Hf, Hfound.
    now rewrite after_lookup_idem.
  - eexists _, _. split; [reflexivity|]. cbn [files next_id].
    set (n := next_id d) in *.
    set (d' := DriveHandler.mk (files d ++ client_folders client_name r n)%list
                               (S (S (S n))) (Some r)).
    assert (Hclient : found_folder (files d') client_name (Some r) = Some n).
    { unfold d'. cbn [files]. rewrite found_folder_app_None by exact Hfound.
      unfold found_folder, client_folders, folder_query, in_parent. simpl.
      now rewrite String.eqb_refl, Nat.eqb_refl. }
    assert (Hnone : forall nm, found_folder (files d) nm (Some n) = None).
    { intros nm. apply found_folder_no_parent. intros f Hf Hp.
      apply (Hparents f n Hf) in Hp. unfold n in Hp. lia. }
    assert (Hrn : (r =? n)%nat = false) by (apply Nat.eqb_neq; lia).
    assert (Hventas : found_folder (files d') "Ventas" (Some n) = Some (S n)).
    { unfold d'. cbn [files]. rewrite found_folder_app_None by apply Hnone.
      unfold found_folder, client_folders, folder_query, in_parent. simpl.
      rewrite Hrn, Nat.eqb_refl, !andb_false_r. reflexivity. }
    assert (Hcompras : found_folder (files d') "Compras" (Some n) = Some (S (S n))).
    { unfold d'. cbn [files]. rewrite found_folder_app_None by apply Hnone.
      unfold found_folder, client_folders, folder_query, in_parent. simpl.
      rewrite Hrn, Nat.eqb_refl, !andb_false_r. reflexivity. }
    split; [split; [reflexivity|]; split; [reflexivity|]|].
    + rewrite get_client_structure_run. unfold root_of, after_lookup, structure_of.
      cbn [root_folder_id d' of_option result_bind].
      fold d'. now rewrite Hclient, Hventas, Hcompras.
    + rewrite create_client_run. unfold root_of, after_lookup.
      cbn [root_folder_id d']. fold d'. now rewrite Hclient.
Qed.

End DriveMore.

Section DriveMoreExamples.
Import ExcelProcessor DriveHandler DriveClients.
#[local] Existing Instance left_to_right.

Lemma list_clients_lists_nothing_witness :
  list_clients (fun l => l) (Tienda.drive Xlsx ["Enero"])
  = (Raise AttributeError, after_lookup (Tienda.drive Xlsx ["Enero"])) /\
  test_connection (fun l => l) (Tienda.drive Xlsx ["Enero"]) = false.
Proof.
  destruct (list_clients_lists_nothing (fun l => l) (Tienda.drive Xlsx ["Enero"])
                                       "30716820080")
    as (Hlist & _ & _ & Htest); [reflexivity|].
  split; [exact Hlist|].
  destruct (test_connection (fun l => l) (Tienda.drive Xlsx ["Enero"])) eqn:E;
    [|reflexivity].
  destruct (proj1 Htest eq_refl) as (r & Hr & Hall).
  vm_compute in Hr. injection Hr as <-.
  specialize (Hall (mkfile 1 "Panaderia Sol" Folder (Some 0%nat) false [])).
  assert (H : is_cuits (mkfile 1 "Panaderia Sol" Folder (Some 0%nat) false []) = true).
  { apply Hall; [simpl; tauto | reflexivity]. }
  vm_compute in H. discriminate.
Defined.

(** *** New clients *)

Lemma create_client_then_structure_witness :
  exists (res : client_result) (d' : DriveHandler.t),
    create_client "Taller Luna" "20111111112" (Tienda.drive Xlsx ["Enero"]) = (Ok res, d') /\
    success res = true /\
    get_client_structure "Taller Luna" d'
    = (Ok (mkstructure 5 (Some 6%nat) (Some 7%nat)), d') /\
    create_client "Taller Luna" "20111111112" d'
    = (Ok (mkresult false None None None "El cliente 'Taller Luna' ya existe"), d').
Proof.
  destruct (create_client_then_structure "Taller Luna" "20111111112"
                                         (Tienda.drive Xlsx ["Enero"]) 0)
    as (res & d' & Hrun & Hcase & Hagain).
  - split; reflexivity.
  - reflexivity.
  - simpl. lia.
  - intros f p Hf Hp. simpl in Hf.
    destruct Hf as [<-|[<-|[<-|[<-|[<-|[]]]]]]; simpl in Hp; try discriminate;
      injection Hp as <-; simpl; lia.
  - exists res, d'. split; [exact Hrun|].
    change (found_folder (files (Tienda.drive Xlsx ["Enero"])) "Taller Luna" (Some 0%nat))
      with (@None nat) in Hcase.
    destruct Hcase as (-> & _ & Hstructure).
    split; [reflexivity|]. split; [exact Hstructure | exact Hagain].
Defined.

End DriveMoreExamples.

(** ** [Utils/drive_handler.py]: round trips *)

Section RoundTrips.
Import ExcelProcessor DriveHandler.
Context {lib : Library}.

Lemma find_has_id_Some (fs : list drive_file) (file_id : nat) (f : drive_file) :
  List.find (has_id file_id) fs = Some f -> In f fs /\ id f = file_id.
Proof.
  intros H. apply find_some in H as [Hin Hid]. split; [exact Hin|].
  now apply Nat.eqb_eq in Hid.
Qed.

Lemma find_deleted (fs gs : list drive_file) (file_id : nat) :
  (forall g, In g gs -> id g <> file_id) ->
  List.find (has_id file_id)
            (List.filter (fun g => negb (id g =? file_id)%nat) fs ++ gs) = None.
Proof.
  intros Hgs. induction fs as [|f fs IH]; simpl.
  - induction gs as [|g gs IHg]; simpl; [reflexivity|].
    unfold has_id at 1. destruct (Nat.eqb_spec (id g) file_id) as [E|_].
    + now destruct (Hgs g (or_introl eq_refl)).
    + apply IHg. intros g' Hg'. apply Hgs. now right.
  - destruct (Nat.eqb_spec (id f) file_id) as [E|E]; simpl; [exact IH|].
    unfold has_id at 1. destruct (Nat.eqb_spec (id f) file_id); [contradiction | exact IH].
Qed.

(** X6.  [update_file] on an id the store does not have fails and changes
    nothing.  On a workbook it replaces the content under the same id; on a
    Google Sheet it deletes the entry and uploads the workbook under a new
    id, after which the old id is gone; on a Google Sheet without parent it
    deletes the entry, uploads nothing and answers [None].  Whenever it
    answers an id, a download of that id gives back the workbook; no other
    entry is touched. *)
Theorem update_then_download (file_id : nat) (wb : workbook) (d : DriveHandler.t) :
  store_ok d ->
  match List.find (has_id file_id) (files d) with
  | None => update_file file_id wb d = (Raise HttpError, d)
  | Some f =>
      exists (answer : option nat) (d' : DriveHandler.t),
        update_file file_id wb d = (Ok answer, d') /\
        (forall g, In g (files d) -> id g <> file_id -> In g (files d')) /\
        match answer with
        | Some new_id =>
            download_file new_id d' = (Ok wb, d') /\
            (if mime_eqb (mime_type f) GoogleSheet
             then new_id = next_id d /\ download_file file_id d' = (Raise HttpError, d')
             else new_id = file_id)
        | None =>
            mime_type f = GoogleSheet /\ parent f = None /\
            files d' = List.filter (fun g => negb (id g =? file_id)%nat) (files d) /\
            download_file file_id d' = (Raise HttpError, d')
        end
  end.
Proof.
  intros [Hnd Hlt].
  destruct (List.find (has_id file_id) (files d)) as [f|] eqn:Hfind.
  - destruct (find_has_id_Some _ _ _ Hfind) as [Hin Hid].
    rewrite (update_file_run _ _ _ f Hfind).
    assert (Hkept : forall g, In g (files d) -> id g <> file_id ->
                              In g (List.filter (fun g => negb (id g =? file_id)%nat) (files d))).
    { intros g Hg Hne. apply filter_In. split; [exact Hg|].
      now apply negb_true_iff, Nat.eqb_neq. }
    assert (Hfid : (file_id < next_id d)%nat) by (rewrite <- Hid; now apply Hlt).
    destruct (mime_eqb (mime_type f) GoogleSheet) eqn:Hmime.
    + cbv zeta. destruct (parent f) as [p|] eqn:Hp.
      * eexists _, _. split; [reflexivity|]. cbn [files]. split.
        { intros g Hg Hne. apply in_or_app. left. now apply Hkept. }
        rewrite !download_file_run. cbn [files].
        set (new := mkfile (next_id d) (name f) Xlsx (Some p) false wb).
        rewrite (find_fresh _ new).
        2:{ intros g Hg. apply filter_In in Hg as [Hg _]. apply Hlt in Hg. simpl. lia. }
        split; [reflexivity|]. split; [reflexivity|].
        rewrite find_deleted; [reflexivity|].
        intros g [<-|[]]. simpl. lia.
      * eexists _, _. split; [reflexivity|]. cbn [files]. split; [exact Hkept|].
        split; [destruct (mime_type f); (reflexivity || discriminate)|].
        split; [reflexivity|]. split; [reflexivity|].
        rewrite download_file_run. cbn [files].
        rewrite <- (app_nil_r (List.filter _ (files d))).
        rewrite find_deleted; [reflexivity | intros g []].
    + eexists _, _. split; [reflexivity|]. cbn [files]. split.
      * intros g Hg Hne. apply in_map_iff. exists g. split; [|exact Hg].
        unfold set_content, has_id. now destruct (Nat.eqb_spec (id g) file_id).
      * rewrite download_file_run. cbn [files]. rewrite find_set_content, Hfind.
        cbn [option_map]. unfold set_content, has_id. rewrite Hid, Nat.eqb_refl.
        split; reflexivity.
  - unfold update_file. unfold bind at 1. unfold get_file at 1.
    change (fun f : drive_file => (id f =? file_id)%nat) with (has_id file_id).
    now rewrite Hfind.
Qed.

(** X7.  [create_year_file] does not look for the workbook first: it adds a
    workbook with the single sheet "_temp" under a new id, whatever the
    folder holds.  A download of the new id gives that workbook, and
    [check_year_file_exists] then reports the workbook as existing, under
    the id of one of the workbooks of that name in the folder: the new id
    if there was none before. *)
Theorem create_year_file_then_check
        (client_name tipo : string) (year : Z) (d : DriveHandler.t) (folder : nat) :
  query_safe client_name ->
  query_safe tipo ->
  store_ok d ->
  type_folder_of d client_name tipo = Ok folder ->
  let fname := year_filename client_name tipo year in
  let shell := [mksheet "_temp" [[OStr temp_note]]] in
  let before := List.filter (workbook_query folder fname) (files d) in
  exists d' : DriveHandler.t,
    create_year_file client_name tipo year d = (Ok (next_id d), d') /\
    files d' = (files d ++ [mkfile (next_id d) fname Xlsx (Some folder) false shell])%list /\
    download_file (next_id d) d' = (Ok shell, d') /\
    exists file_id : nat,
      check_year_file_exists client_name tipo year d'
      = (Ok (mkcheck true (Some file_id) folder fname), d') /\
      In file_id (map id before ++ [next_id d]).
Proof.
  intros _ _ [Hnd Hlt] Hfolder fname shell before.
  rewrite create_year_file_run, Hfolder. unfold upload_file.
  destruct (after_lookup_files d) as [Hf Hn]. rewrite Hf, Hn.
  destruct (type_folder_of_root _ _ _ _ Hfolder) as [r Hroot].
  rewrite (after_lookup_cached _ _ Hroot).
  fold fname shell.
  set (new := mkfile (next_id d) fname Xlsx (Some folder) false shell).
  set (d' := DriveHandler.mk (files d ++ [new])%list (S (next_id d)) (Some r)).
  exists d'. split; [reflexivity|]. split; [reflexivity|].
  assert (Hfresh : forall f, In f (files d) -> id f <> id new).
  { intros f Hin. apply Hlt in Hin. simpl. lia. }
  split.
  - rewrite download_file_run. unfold d'. cbn [files].
    change (next_id d) with (id new). now rewrite (find_fresh _ _ Hfresh).
  - rewrite check_year_file_exists_run.
    assert (Hfolder' : type_folder_of d' client_name tipo = Ok folder).
    { rewrite <- Hfolder. apply type_folder_of_ext.
      - now rewrite Hroot.
      - intros n p. unfold d'. cbn [files]. now apply found_folder_snoc. }
    rewrite Hfolder'. cbn [result_bind]. fold fname.
    assert (Hitems : List.filter (workbook_query folder fname) (files d')
                     = (before ++ [new])%list).
    { unfold d'. cbn [files]. rewrite List.filter_app. fold before.
      simpl List.filter. unfold new at 1. now rewrite workbook_query_new. }
    rewrite Hitems. unfold after_lookup. cbn [root_folder_id d']. fold d'.
    destruct before as [|f0 rest].
    + exists (next_id d). split; [reflexivity|]. now left.
    + exists (id f0). split; [reflexivity|]. now left.
Qed.

Lemma upper_lower_char (c : ascii) : Text.upper_char (Text.lower_char c) = Text.upper_char c.
Proof. destruct c as [[] [] [] [] [] [] [] []]; vm_compute; reflexivity. Qed.

Lemma lower_lower_char (c : ascii) : Text.lower_char (Text.lower_char c) = Text.lower_char c.
Proof. destruct c as [[] [] [] [] [] [] [] []]; vm_compute; reflexivity. Qed.

Lemma lower_lower (s : string) : Text.lower (Text.lower s) = Text.lower s.
Proof. induction s as [|c s IH]; simpl; [reflexivity|]. now rewrite lower_lower_char, IH. Qed.

Lemma capitalize_lower (s : string) : Text.capitalize (Text.lower s) = Text.capitalize s.
Proof.
  destruct s as [|c s]; simpl; [reflexivity|]. now rewrite upper_lower_char, lower_lower.
Qed.

(** X8.  The type of ledger counts up to the case of its letters: two
    spellings that differ in case only name the same workbook in the same
    folder, so that wherever the folder exists [check_year_file_exists] and
    [create_year_file] do the same for both.  A type that is not "ventas"
    in any case is filed in the folder "Compras". *)
Theorem tipo_counts_up_to_case
        (client_name tipo tipo' : string) (year : Z) (d : DriveHandler.t) (folder : nat) :
  Text.lower tipo = Text.lower tipo' ->
  type_folder_of d client_name tipo = Ok folder ->
  year_filename client_name tipo' year = year_filename client_name tipo year /\
  type_folder_of d client_name tipo' = Ok folder /\
  check_year_file_exists client_name tipo' year d
  = check_year_file_exists client_name tipo year d /\
  create_year_file client_name tipo' year d = create_year_file client_name tipo year d /\
  (Text.lower tipo <> "ventas" ->
   exists structure,
     fst (get_client_structure client_name d) = Ok structure /\
     compras_id structure = Some folder).
Proof.
  intros Hcase Hfolder.
  assert (Hname : year_filename client_name tipo' year = year_filename client_name tipo year).
  { unfold year_filename. now rewrite <- (capitalize_lower tipo'), <- Hcase, capitalize_lower. }
  assert (Hfolder' : type_folder_of d client_name tipo' = Ok folder).
  { revert Hfolder. unfold type_folder_of, type_folder.
    destruct (root_of d) as [r|]; cbn [of_option result_bind]; [|discriminate].
    destruct (structure_of (files d) r client_name) as [st|e]; cbn [result_bind];
      [|discriminate].
    rewrite <- Hcase.
    destruct (String.eqb (Text.lower tipo) "ventas").
    - destruct (ventas_id st); [tauto | discriminate].
    - destruct (compras_id st); [tauto | discriminate]. }
  split; [exact Hname|]. split; [exact Hfolder'|]. split; [|split].
  - now rewrite !check_year_file_exists_run, Hfolder, Hfolder', Hname.
  - now rewrite !create_year_file_run, Hfolder, Hfolder', Hname.
  - intros Hne. rewrite get_client_structure_run. cbn [fst].
    revert Hfolder. unfold type_folder_of, type_folder.
    destruct (root_of d) as [r|]; cbn [of_option result_bind]; [|discriminate].
    destruct (structure_of (files d) r client_name) as [st|e]; cbn [result_bind];
      [|discriminate].
    destruct (String.eqb_spec (Text.lower tipo) "ventas"); [contradiction|].
    destruct (compras_id st) as [c|] eqn:Hc; [|discriminate].
    intros [= <-]. now exists st.
Qed.

End RoundTrips.

Section RoundTripsExamples.
Import ExcelProcessor DriveHandler.
#[local] Existing Instance left_to_right.

Lemma update_then_download_witness :
  exists (answer : option nat) (d' : DriveHandler.t),
    update_file 4 [mksheet "Marzo" []] (Tienda.drive GoogleSheet ["Enero"]) = (Ok answer, d') /\
    answer = Some 5%nat /\
    download_file 5 d' = (Ok [mksheet "Marzo" []], d') /\
    download_file 4 d' = (Raise HttpError, d').
Proof.
  pose proof (update_then_download 4 [mksheet "Marzo" []]
                                   (Tienda.drive GoogleSheet ["Enero"])) as H.
  change (List.find (has_id 4) (files (Tienda.drive GoogleSheet ["Enero"])))
    with (Some (Tienda.libro GoogleSheet ["Enero"])) in H.
  destruct H as (answer & d' & Hrun & _ & Hanswer).
  - split.
    + apply (bool_decide_unpack _). vm_compute. exact I.
    + intros f Hf. simpl in Hf.
      destruct Hf as [<-|[<-|[<-|[<-|[<-|[]]]]]]; simpl; lia.
  - exists answer, d'. split; [exact Hrun|].
    assert (Ha : answer = Some 5%nat).
    { pose proof Hrun as Hrun'. vm_compute in Hrun'. now injection Hrun' as <- _. }
    subst answer. destruct Hanswer as (Hnew & _ & Hold).
    now repeat split.
Defined.

Lemma create_year_file_then_check_witness :
  exists d' : DriveHandler.t,
    create_year_file "Panaderia Sol" "ventas" 2025 (Tienda.drive Xlsx ["Enero"])
    = (Ok 5%nat, d') /\
    length (files d') = 6%nat /\
    exists file_id : nat,
      check_year_file_exists "Panaderia Sol" "ventas" 2025 d'
      = (Ok (mkcheck true (Some file_id) 2 "Libro Iva Ventas 2025 Panaderia Sol.xlsx"), d') /\
      In file_id [4; 5]%nat.
Proof.
  destruct (create_year_file_then_check "Panaderia Sol" "ventas" 2025
                                        (Tienda.drive Xlsx ["Enero"]) 2)
    as (d' & Hrun & Hfiles & _ & Hcheck).
  - split; reflexivity.
  - split; reflexivity.
  - split.
    + apply (bool_decide_unpack _). vm_compute. exact I.
    + intros f Hf. simpl in Hf.
      destruct Hf as [<-|[<-|[<-|[<-|[<-|[]]]]]]; simpl; lia.
  - vm_compute. reflexivity.
  - exists d'. split; [exact Hrun|]. split; [now rewrite Hfiles|]. exact Hcheck.
Defined.

(** *** The type of ledger *)

Lemma tipo_counts_up_to_case_witness :
  year_filename "Panaderia Sol" "VENTAS" 2025 = "Libro Iva Ventas 2025 Panaderia Sol.xlsx" /\
  check_year_file_exists "Panaderia Sol" "VENTAS" 2025 (Tienda.drive Xlsx ["Enero"])
  = check_year_file_exists "Panaderia Sol" "ventas" 2025 (Tienda.drive Xlsx ["Enero"]).
Proof.
  destruct (tipo_counts_up_to_case "Panaderia Sol" "ventas" "VENTAS" 2025
                                   (Tienda.drive Xlsx ["Enero"]) 2)
    as (Hname & _ & Hcheck & _).
  - reflexivity.
  - vm_compute. reflexivity.
  - split; [exact Hname | exact Hcheck].
Defined.

End RoundTripsExamples.

(** ** [clean_data]: failures, order of the columns, the other cells *)

Section CleaningMore.
Import Pandas ExcelProcessor Denote Table.
Context {lib : Library}.

Lemma step_ok (mask : list bool) (f : DataFrame) (col : string) (a r : series) :
  assoc col (columns f) = Some a -> is_numeric a = true ->
  assoc "Tipo Cambio" (columns f) = Some r -> rate_multiplies r = true ->
  exists (s : series) (f' : DataFrame),
    scale_and_sign_frame mask f col = Ok f' /\
    is_numeric s = true /\
    forall c, assoc c (columns f') = if String.eqb c col then Some s else assoc c (columns f).
Proof.
  intros Ha Hnum Hr Hmul. unfold scale_and_sign_frame, getitem.
  rewrite Ha, Hr. cbn [of_option result_bind].
  assert (Hscaled : exists scaled, series_mul a r = Ok scaled /\ is_numeric scaled = true).
  { destruct a, r; try discriminate; simpl; eauto. }
  destruct Hscaled as (scaled & -> & Hs). cbn [result_bind].
  rewrite assoc_setitem, String.eqb_refl. cbn [of_option result_bind].
  assert (Hneg : exists positive negated,
            series_gt0 scaled = Ok positive /\
            negate_where (zip_with andb mask positive) scaled = Ok negated /\
            is_numeric negated = true).
  { destruct scaled; try discriminate; simpl; eauto. }
  destruct Hneg as (positive & negated & -> & Hn & Hnn). cbn [result_bind].
  rewrite Hn. cbn [result_bind].
  exists negated. eexists. split; [reflexivity|]. split; [exact Hnn|].
  intros c. rewrite !assoc_setitem. now destruct (String.eqb c col).
Qed.

Lemma fold_ok (mask : list bool) (cols : list string) :
  forall f,
    (forall c, In c cols -> exists s, assoc c (columns f) = Some s /\ is_numeric s = true) ->
    (cols <> [] -> exists r, assoc "Tipo Cambio" (columns f) = Some r /\
                             rate_multiplies r = true) ->
    exists f', fold_result (scale_and_sign_frame mask) cols f = Ok f'.
Proof.
  induction cols as [|col cols IH]; intros f Hcols Hrate; simpl; [eauto|].
  destruct (Hcols col (or_introl eq_refl)) as (a & Ha & Hnum).
  destruct (Hrate ltac:(discriminate)) as (r & Hr & Hmul).
  destruct (step_ok mask f col a r Ha Hnum Hr Hmul) as (s & f' & -> & Hs & Hassoc).
  cbn [result_bind]. apply IH.
  - intros c Hc. rewrite Hassoc. destruct (String.eqb c col); [eauto|].
    apply Hcols. now right.
  - intros _. rewrite Hassoc. destruct (String.eqb "Tipo Cambio" col); [|eauto].
    exists s. split; [reflexivity|]. now destruct s.
Qed.

Lemma fold_fails (mask : list bool) (col : string) (cols : list string) (f : DataFrame)
      (a : series) :
  assoc col (columns f) = Some a -> is_numeric a = true ->
  fold_result (scale_and_sign_frame mask) (col :: cols) f
  = match assoc "Tipo Cambio" (columns f) with
    | None => Raise (KeyError "Tipo Cambio")
    | Some r =>
        if rate_multiplies r
        then fold_result (scale_and_sign_frame mask) (col :: cols) f
        else Raise TypeError
    end.
Proof.
  intros Ha Hnum. destruct (assoc "Tipo Cambio" (columns f)) as [r|] eqn:Hr.
  - destruct (rate_multiplies r) eqn:Hmul; [reflexivity|].
    simpl. unfold scale_and_sign_frame, getitem. rewrite Ha, Hr. cbn [of_option result_bind].
    destruct a, r; try discriminate; reflexivity.
  - simpl. unfold scale_and_sign_frame, getitem. now rewrite Ha, Hr.
Qed.

Lemma numeric_cols_numeric (moneda_idx : nat) (f : DataFrame) (c : string) :
  In c (Denote.numeric_cols moneda_idx f) ->
  exists s, assoc c (columns f) = Some s /\ is_numeric s = true.
Proof.
  unfold Denote.numeric_cols, column_is_numeric. intros H.
  apply filter_In in H as [_ H].
  destruct (assoc c (columns f)) as [s|]; [eauto | discriminate].
Qed.

Lemma map_result_total {A B} (g : A -> result B) (xs : list A) :
  (forall x, In x xs -> exists y, g x = Ok y) -> exists ys, map_result g xs = Ok ys.
Proof.
  induction xs as [|x xs IH]; simpl; intros H; [eauto|].
  destruct (H x (or_introl eq_refl)) as [y ->]. cbn [result_bind].
  destruct IH as [ys ->]; [intros; apply H; now right|]. cbn [result_bind]. eauto.
Qed.

Lemma append_totals_ok (ncols : list string) (f : DataFrame) :
  (forall c, In c ncols -> exists s, assoc c (columns f) = Some s /\ is_numeric s = true) ->
  exists out, append_totals ncols f = Ok out.
Proof.
  intros H. unfold append_totals.
  destruct (map_result_total (totals_cell f ncols) (labels f)) as [row ->]; [|simpl; eauto].
  intros c _. unfold totals_cell. destruct (mem c ncols) eqn:E; [|eauto].
  apply mem_In in E. destruct (H c E) as (s & Hs & Hnum).
  unfold getitem. rewrite Hs. cbn [of_option result_bind].
  destruct s; try discriminate; simpl; eauto.
Qed.

(** The outcome of [clean_data], frame by frame. *)
Lemma clean_frame_outcome (f0 : DataFrame) :
  match clean_error f0 with
  | Some e => clean_frame f0 = Raise e
  | None => exists out, clean_frame f0 = Ok out
  end.
Proof.
  unfold clean_error, clean_frame.
  destruct (index_of "Moneda" (labels f0)) as [idx|]; cbn [of_option result_bind];
    [|reflexivity].
  set (f := scrub idx f0).
  unfold getitem.
  destruct (assoc "Tipo" (columns f)) as [tipo|]; cbn [of_option result_bind];
    [|reflexivity].
  set (mask := str_contains_nota_credito tipo).
  set (cols := Denote.numeric_cols idx f).
  assert (Hnum : forall c, In c cols ->
            exists s, assoc c (columns f) = Some s /\ is_numeric s = true)
    by apply numeric_cols_numeric.
  assert (Hafter : forall f2,
    fold_result (scale_and_sign_frame mask) cols f = Ok f2 ->
    match match assoc "Fecha" (columns f) with
          | Some fecha => if is_dates fecha then None else Some AttributeError
          | None => Some (KeyError "Fecha")
          end with
    | Some e => result_bind (format_fecha f2) (fun f3 => append_totals cols f3) = Raise e
    | None => exists out, result_bind (format_fecha f2) (fun f3 => append_totals cols f3)
                          = Ok out
    end).
  { intros f2 Hfold.
    assert (Hfecha : match assoc "Fecha" (columns f) with
                     | Some fecha =>
                         exists fecha', assoc "Fecha" (columns f2) = Some fecha' /\
                                        is_dates fecha' = is_dates fecha /\
                                        (is_dates fecha = true -> fecha' = fecha)
                     | None => assoc "Fecha" (columns f2) = None
                     end).
    { destruct (in_dec string_dec "Fecha" cols) as [Hin|Hnin].
      - destruct (Hnum _ Hin) as (s & Hs & Hsn). rewrite Hs.
        destruct (fold_numeric _ _ _ _ Hfold _ Hin) as (s' & Hs' & Hsn').
        exists s'. split; [exact Hs'|]. split.
        + destruct s, s'; try discriminate; reflexivity.
        + destruct s; discriminate.
      - rewrite <- (fold_untouched _ _ _ _ Hfold _ Hnin).
        destruct (assoc "Fecha" (columns f2)); eauto. }
    assert (Hcols2 : forall f3, format_fecha f2 = Ok f3 ->
              forall c, In c cols ->
                        exists s, assoc c (columns f3) = Some s /\ is_numeric s = true).
    { intros f3 Hf3 c Hc. destruct (fold_numeric _ _ _ _ Hfold _ Hc) as (s & Hs & Hsn).
      exists s. split; [|exact Hsn]. now apply (format_fecha_numeric f2). }
    unfold format_fecha in *. unfold getitem in *.
    destruct (assoc "Fecha" (columns f)) as [fecha|].
    - destruct Hfecha as (fecha' & Hf' & Hd & Hsame). rewrite Hf' in *.
      cbn [of_option result_bind] in *.
      destruct (is_dates fecha) eqn:Hdates.
      + rewrite (Hsame eq_refl) in *.
        destruct fecha; try discriminate; cbn [is_object dt_strftime result_bind] in *;
          apply append_totals_ok; now apply Hcols2.
      + destruct fecha'; try discriminate; reflexivity.
    - now rewrite Hfecha. }
  destruct cols as [|col cols'] eqn:Hcols.
  - cbn [fold_result result_bind]. exact (Hafter f eq_refl).
  - destruct (Hnum col (or_introl eq_refl)) as (a & Ha & Han).
    rewrite (fold_fails mask col cols' f a Ha Han).
    destruct (assoc "Tipo Cambio" (columns f)) as [r|] eqn:Hr; [|reflexivity].
    destruct (rate_multiplies r) eqn:Hmul; [|reflexivity].
    destruct (fold_ok mask (col :: cols') f Hnum) as [f2 Hf2]; [eauto|].
    rewrite Hf2. cbn [result_bind]. exact (Hafter f2 Hf2).
Qed.

(** X9.  [clean_data] fails at the first of these, and only then: no
    column "Moneda" ([ValueError] with its message); no column "Tipo" left
    after the empty columns are dropped ([KeyError]); a monetary column but
    no column "Tipo Cambio" left ([KeyError]) or one of dates ([TypeError]);
    no column "Fecha" left ([KeyError]) or one that is neither text nor
    dates ([AttributeError]).  Products with an exchange rate of [object]
    dtype are left out of the statement. *)
Theorem clean_data_fails_first (self : ExcelProcessor.t) (h : heap) (f0 : DataFrame) :
  holds self h f0 ->
  (forall moneda_idx rate,
      index_of "Moneda" (labels f0) = Some moneda_idx ->
      assoc "Tipo Cambio" (columns (scrub moneda_idx f0)) = Some rate ->
      is_object rate = false) ->
  match clean_error f0 with
  | Some e => fst (clean_data self h) = Raise e
  | None => exists out, cleaned self h = Some out
  end.
Proof.
  intros Hholds _. pose proof (clean_frame_outcome f0) as Hout.
  destruct (clean_data_run self h f0 Hholds)
    as (self' & h1 & junk & _ & _ & _ & _ & _ & Hrun).
  destruct (clean_error f0) as [e|].
  - now rewrite Hrun, Hout.
  - destruct Hout as [out Hout]. exists out. now apply (clean_frame_cleaned _ _ f0).
Qed.

(** X10.  The cleaned table has the columns of the upload in their order:
    every column up to "Moneda", then the columns after it that are not
    empty.  No column is added, renamed or moved. *)
Theorem cleaned_columns_in_order
        (self : ExcelProcessor.t) (h : heap) (f0 out : DataFrame) :
  holds self h f0 ->
  wf_frame f0 ->
  cleaned self h = Some out ->
  exists moneda_idx : nat,
    index_of "Moneda" (labels f0) = Some moneda_idx /\
    labels out
    = (take (S moneda_idx) (labels f0)
       ++ List.filter (fun l => negb (column_is_empty f0 l))
                      (drop (S moneda_idx) (labels f0)))%list.
Proof.
  intros Hholds Hwf Hc. apply (cleaned_clean_frame _ _ _ _ Hholds) in Hc.
  destruct (clean_frame_stages _ _ Hc) as (idx & _ & _ & _ & Hidx & _).
  exists idx. split; [exact Hidx|].
  rewrite (clean_frame_labels _ _ _ Hc Hidx).
  pose proof (scrub_after f0 idx Hwf Hidx) as Hafter.
  rewrite <- (take_drop (idx + 1) (labels (scrub idx f0))), Hafter.
  replace (S idx) with (idx + 1)%nat by lia. f_equal.
  destruct Hwf as [Hnd _].
  unfold scrub. rewrite labels_drop_columns.
  set (kept := fun l => negb (mem l (List.filter (column_is_empty f0)
                                                 (drop (idx + 1) (labels f0))))).
  rewrite <- (take_drop (idx + 1) (labels f0)) at 1.
  rewrite List.filter_app.
  assert (Hlen : (idx < length (labels f0))%nat).
  { apply index_of_lookup in Hidx. now apply lookup_lt_Some in Hidx. }
  rewrite (filter_all kept (take (idx + 1) (labels f0))).
  - rewrite take_app_length'; [reflexivity|]. rewrite length_take. lia.
  - intros l Hl. unfold kept. apply negb_true_iff, not_true_iff_false.
    rewrite mem_In, filter_In. intros [Hd _].
    apply list_elem_of_In, list_elem_of_lookup in Hl as [i Hi].
    pose proof (lookup_lt_Some _ _ _ Hi) as Hi'. rewrite length_take in Hi'.
    rewrite lookup_take_lt in Hi by lia.
    apply (In_drop_position _ (idx + 1) i l Hnd Hi) in Hd. lia.
Qed.

Lemma format_fecha_other (f f' : DataFrame) (c : string) :
  format_fecha f = Ok f' -> c <> "Fecha" -> assoc c (columns f') = assoc c (columns f).
Proof.
  unfold format_fecha. destruct (getitem "Fecha" f) as [fecha|e]; [|discriminate].
  cbn [result_bind]. destruct (is_object fecha); [now intros [= <-]|].
  destruct (dt_strftime fecha) as [formatted|e]; [|discriminate].
  cbn [result_bind]. intros [= <-] Hc. rewrite assoc_setitem.
  destruct (String.eqb_spec c "Fecha"); [contradiction | reflexivity].
Qed.

Lemma format_fecha_fecha (f f' : DataFrame) (fecha : series) :
  format_fecha f = Ok f' -> assoc "Fecha" (columns f) = Some fecha ->
  exists cells,
    assoc "Fecha" (columns f') = Some (SObject cells) /\
    cells = match fecha with
            | SDatetime _ => map formatted_cell (to_object fecha)
            | _ => to_object fecha
            end.
Proof.
  unfold format_fecha, getitem. intros H Hf. rewrite Hf in H.
  cbn [of_option result_bind] in H.
  destruct fecha as [xs|xs|xs|xs|xs]; cbn [is_object dt_strftime result_bind] in H;
    try discriminate; injection H as <-.
  - rewrite assoc_setitem. cbn. eexists. split; [reflexivity|].
    rewrite map_map. apply map_ext. now intros [d|].
  - rewrite Hf. eauto.
Qed.

(** The columns of the cleaned table that are not monetary. *)
Lemma other_column (f0 out : DataFrame) (col : string) (s : series) :
  wf_frame f0 ->
  clean_frame f0 = Ok out ->
  In col (labels out) ->
  monetary f0 col = false ->
  assoc col (columns f0) = Some s ->
  assoc col (columns out)
  = Some (SObject (map (written_cell f0 col) (to_object s) ++ [OStr ""])).
Proof.
  intros Hwf Hc Hin Hmon Hs.
  destruct (clean_frame_stages _ _ Hc) as (idx & tipo & f2 & f3 & Hidx & _ & Hfold & Hfmt & Htot).
  rewrite (clean_frame_labels _ _ _ Hc Hidx) in Hin.
  pose proof (scrub_assoc_kept f0 idx col Hin) as Hscrub. rewrite Hs in Hscrub.
  assert (Hncol : ~ In col (Denote.numeric_cols idx (scrub idx f0))).
  { rewrite (numeric_cols_monetary f0 idx Hwf Hidx). congruence. }
  pose proof (fold_untouched _ _ _ _ Hfold _ Hncol) as H2. rewrite Hscrub in H2.
  assert (H3 : exists s3, assoc col (columns f3) = Some s3 /\
                          to_object s3 = map (written_cell f0 col) (to_object s)).
  { unfold written_cell. rewrite Hs.
    destruct (String.eqb_spec col "Fecha") as [->|Hne].
    - destruct (format_fecha_fecha _ _ _ Hfmt H2) as (cells & Hcells & ->).
      eexists. split; [exact Hcells|]. cbn [to_object].
      destruct s; try (now rewrite map_id). reflexivity.
    - rewrite (format_fecha_other _ _ _ Hfmt Hne), H2. exists s. split; [reflexivity|].
      destruct s; now rewrite map_id. }
  destruct H3 as (s3 & Hs3 & Hobj).
  destruct (assoc col (columns out)) as [s_out|] eqn:Hout.
  - destruct (append_totals_column _ _ _ _ _ Htot Hout) as (s' & v & Hs' & Hcell & ->).
    rewrite Hs3 in Hs'. injection Hs' as <-.
    unfold totals_cell in Hcell.
    replace (mem col (Denote.numeric_cols idx (scrub idx f0))) with false in Hcell.
    + injection Hcell as <-. now rewrite append_cell_object, Hobj.
    + symmetry. apply not_true_iff_false. now rewrite mem_In.
  - exfalso. apply assoc_None in Hout. apply Hout.
    destruct (append_totals_shape _ _ _ Htot) as [Hl _]. fold (labels out). rewrite Hl.
    now apply assoc_In_labels in Hs3.
Qed.

(** X11.  Outside the monetary columns [clean_data] changes no cell of a
    data row, except that it writes the dates of a "Fecha" column of dates
    as text, day/month/year, and a missing date as NaN. *)
Theorem other_cells_are_kept
        (self : ExcelProcessor.t) (h : heap) (f0 out : DataFrame) (col : string)
        (i : nat) (v : pyobj) :
  holds self h f0 ->
  wf_frame f0 ->
  cleaned self h = Some out ->
  In col (labels out) ->
  monetary f0 col = false ->
  cell f0 col i = Some v ->
  cell out col i = Some (written_cell f0 col v) /\
  (col <> "Fecha" -> cell out col i = Some v) /\
  (forall xs, assoc col (columns f0) = Some (SObject xs) -> cell out col i = Some v).
Proof.
  intros Hholds Hwf Hc Hin Hmon Hv.
  apply (cleaned_clean_frame _ _ _ _ Hholds) in Hc.
  unfold cell in Hv. destruct (assoc col (columns f0)) as [s|] eqn:Hs; [|discriminate].
  assert (Hcell : cell out col i = Some (written_cell f0 col v)).
  { unfold cell. rewrite (other_column f0 out col s Hwf Hc Hin Hmon Hs). cbn [to_object].
    rewrite lookup_app_l by (rewrite length_map; now apply lookup_lt_Some in Hv).
    now rewrite lookup_map, Hv. }
  split; [exact Hcell|]. split.
  - intros Hne. rewrite Hcell. unfold written_cell. rewrite Hs.
    destruct (String.eqb_spec col "Fecha"); [contradiction|]. now destruct s.
  - intros xs [= ->]. rewrite Hcell. unfold written_cell. now rewrite Hs.
Qed.

Lemma detected_run (self : ExcelProcessor.t) (h : heap) (f0 : DataFrame) :
  holds self h f0 -> detected self h = detect_frame f0.
Proof.
  intros Hholds.
  destruct (detect_month_run self h f0 Hholds) as (p & h1 & junk & _ & _ & _ & _ & Hrun).
  unfold detected. rewrite Hrun. now destruct (detect_frame f0).
Qed.

Lemma clean_result_run (self : ExcelProcessor.t) (h : heap) (f0 : DataFrame) :
  holds self h f0 -> clean_result self h = clean_frame f0.
Proof.
  intros Hholds.
  destruct (clean_data_run self h f0 Hholds)
    as (p & h1 & junk & _ & _ & _ & _ & _ & Hrun).
  unfold clean_result. rewrite Hrun. destruct (clean_frame f0); [|reflexivity].
  now rewrite lookup_snoc.
Qed.

(** X13.  [process_excel_file] answers as [detect_month] and [clean_data]
    answer, each on a processor of its own: an error of the period comes
    before an error of the cleaning, cleaning is not disturbed by the
    detection that ran before it, and the summary holds the detected
    period, the rows and the columns of the cleaned table (the totals row
    not counted) and the table that is saved when a path is given. *)
Theorem process_excel_file_composes
        (file : xlsx_file) (path : option string) (h : heap) :
  fst (process_excel_file file path h)
  = result_bind (detected (init file) h) (fun my =>
    result_bind (clean_result (init file) h) (fun out =>
    Ok (mksummary (fst my) (snd my) (get_month_name (fst my))
                  (Z.of_nat (nrows out) - 1)
                  (Z.of_nat (length (labels out))) path,
        option_map (fun p => (p, out)) path))).
Proof.
  rewrite (detected_run (init file) h (sheet file)) by reflexivity.
  rewrite (clean_result_run (init file) h (sheet file)) by reflexivity.
  unfold process_excel_file, read_excel.
  rewrite bind_assoc, bind_alloc, bind_ret. cbv beta iota.
  change (file_path (init file)) with file.
  set (p1 := ExcelProcessor.mk file (Some (length h)) (month_detected (init file))).
  assert (Hh1 : holds p1 (h ++ [sheet file])%list (sheet file)) by apply lookup_snoc.
  destruct (detect_month_run p1 _ _ Hh1)
    as (p1' & h1 & junk1 & _ & _ & _ & Hsame & Hrun).
  destruct (Hsame ltac:(discriminate)) as [-> ->].
  unfold bind at 1. rewrite Hrun.
  destruct (detect_frame (sheet file)) as [my|e]; [|reflexivity].
  set (p2 := ExcelProcessor.mk (file_path p1) (df p1) (Some my)).
  assert (Hh2 : holds p2 ((h ++ [sheet file]) ++ junk1)%list (sheet file)).
  { unfold holds. simpl. rewrite lookup_app_l by (rewrite length_app; simpl; lia).
    apply lookup_snoc. }
  destruct (clean_data_run p2 _ _ Hh2)
    as (p2' & h2 & junk2 & _ & _ & _ & _ & _ & Hrun2).
  cbv beta iota. unfold bind at 1. rewrite Hrun2.
  destruct (clean_frame (sheet file)) as [out|e] eqn:Hout; [|reflexivity].
  rewrite (bind_load _ _ _ _ (lookup_snoc _ _)).
  cbn [result_bind]. now destruct path.
Qed.

Lemma str_of_Z_parses (z : Z) :
  NilZero.int_of_string (Text.str_of_Z z) = Some (Z.to_int z).
Proof.
  unfold Text.str_of_Z. apply NilZero.isi; destruct z; cbn; try discriminate;
    intros [= H]; now apply DecimalPos.Unsigned.to_uint_nonnil in H.
Qed.

Lemma str_of_Z_inj (a b : Z) : Text.str_of_Z a = Text.str_of_Z b -> a = b.
Proof.
  intros H. apply (f_equal NilZero.int_of_string) in H.
  rewrite !str_of_Z_parses in H. injection H as H. now apply DecimalZ.to_int_inj.
Qed.

Lemma get_month_name_cases (m : Z) :
  (1 <= m <= 12 /\ NilZero.int_of_string (get_month_name m) = None) \/
  (~ 1 <= m <= 12 /\ get_month_name m = Text.str_of_Z m).
Proof.
  destruct (decide (1 <= m <= 12)) as [Hm|Hm]; [left|right]; (split; [exact Hm|]).
  - assert (Hj : exists j, (j < 13)%nat /\ m = Z.of_nat j) by (exists (Z.to_nat m); lia).
    destruct Hj as (j & Hlt & ->).
    do 13 (destruct j as [|j]; [try lia; now vm_compute|]). lia.
  - unfold get_month_name, months. cbn [List.find fst snd].
    repeat match goal with
           | |- context [?k =? m] => destruct (Z.eqb_spec k m); [lia|]
           end.
    reflexivity.
Qed.

(** X14.  [get_month_name] gives different names to different numbers: the
    twelve Spanish names are distinct, any other number is written as its
    decimal numeral, and no numeral is a month name. *)
Theorem get_month_name_injective (a b : Z) :
  get_month_name a = get_month_name b -> a = b.
Proof.
  intros H.
  destruct (get_month_name_cases a) as [[Ha Hna]|[Ha Hna]],
           (get_month_name_cases b) as [[Hb Hnb]|[Hb Hnb]].
  - assert (Hi : exists i, (i < 13)%nat /\ a = Z.of_nat i) by (exists (Z.to_nat a); lia).
    assert (Hj : exists j, (j < 13)%nat /\ b = Z.of_nat j) by (exists (Z.to_nat b); lia).
    destruct Hi as (i & Hi & ->), Hj as (j & Hj & ->). clear Hna Hnb. f_equal.
    do 13 (destruct i as [|i]; [try lia;
      do 13 (destruct j as [|j]; [try lia; vm_compute in H;
                                  first [reflexivity | discriminate H]|]); lia|]).
    lia.
  - rewrite H, Hnb, str_of_Z_parses in Hna. discriminate.
  - rewrite <- H, Hna, str_of_Z_parses in Hnb. discriminate.
  - rewrite Hna, Hnb in H. now apply str_of_Z_inj.
Qed.

End CleaningMore.

Section CleaningMoreExamples.
Import Pandas ExcelProcessor Denote Table.
#[local] Existing Instance left_to_right.

Lemma clean_data_fails_first_witness :
  fst (clean_data (init (mkxlsx ["Mis Comprobantes Emitidos - CUIT 30716820080"]
                                (mkframe 1 [("Fecha", SObject [OStr "15/03/2025"]);
                                            ("Moneda", SObject [OStr "$"]);
                                            ("Tipo", SFloat [None])]))) [])
  = Raise (KeyError "Tipo").
Proof.
  apply (clean_data_fails_first
           (init (mkxlsx ["Mis Comprobantes Emitidos - CUIT 30716820080"]
                         (mkframe 1 [("Fecha", SObject [OStr "15/03/2025"]);
                                     ("Moneda", SObject [OStr "$"]);
                                     ("Tipo", SFloat [None])])))
           []
           (mkframe 1 [("Fecha", SObject [OStr "15/03/2025"]);
                       ("Moneda", SObject [OStr "$"]);
                       ("Tipo", SFloat [None])])).
  - reflexivity.
  - intros idx rate Hidx. vm_compute in Hidx. injection Hidx as <-.
    vm_compute. discriminate.
Defined.

Lemma cleaned_columns_in_order_witness :
  exists moneda_idx : nat,
    index_of "Moneda" (labels Ejemplo.ledger) = Some moneda_idx /\
    labels Ejemplo.ledger_cleaned
    = (take (S moneda_idx) (labels Ejemplo.ledger)
       ++ List.filter (fun l => negb (column_is_empty Ejemplo.ledger l))
                      (drop (S moneda_idx) (labels Ejemplo.ledger)))%list.
Proof.
  apply (cleaned_columns_in_order (init Ejemplo.file) [] Ejemplo.ledger Ejemplo.ledger_cleaned).
  - reflexivity.
  - apply ejemplo_wf.
  - vm_compute. reflexivity.
Defined.

Lemma other_cells_are_kept_witness :
  cell Ejemplo.ledger_cleaned "Tipo Cambio" 1 = Some (OFloat 2%float).
Proof.
  apply (other_cells_are_kept (init Ejemplo.file) [] Ejemplo.ledger Ejemplo.ledger_cleaned
                              "Tipo Cambio" 1 (OFloat 2%float)).
  - reflexivity.
  - apply ejemplo_wf.
  - vm_compute. reflexivity.
  - vm_compute. tauto.
  - reflexivity.
  - reflexivity.
  - discriminate.
Defined.

Lemma get_month_name_injective_witness : 3 = 3.
Proof. apply (get_month_name_injective 3 3). reflexivity. Defined.

End CleaningMoreExamples.

Section MergeMore.
Import Pandas ExcelProcessor DriveHandler App Denote Table.
Context {lib : Library}.

Lemma handled_plain (e : exn) : plain e -> handled e = HTTPException 500 (str_exn e).
Proof. now destruct e. Qed.

Lemma clean_frame_plain (f0 : DataFrame) (e : exn) : clean_frame f0 = Raise e -> plain e.
Proof.
  intros H. pose proof (clean_frame_outcome f0) as Hout.
  destruct (clean_error f0) as [e'|] eqn:He; [|destruct Hout; congruence].
  rewrite Hout in H. injection H as <-.
  unfold clean_error in He.
  repeat match type of He with
         | match ?x with _ => _ end = _ => destruct x
         | (if ?x then _ else _) = _ => destruct x
         | (let _ := _ in _) = _ => cbv zeta in He
         end; try discriminate; injection He as <-; exact I.
Qed.

Lemma type_folder_of_plain (d : DriveHandler.t) (client_name tipo : string) (e : exn) :
  type_folder_of d client_name tipo = Raise e -> plain e.
Proof.
  unfold type_folder_of, structure_of.
  destruct (root_of d) as [r|]; cbn [of_option result_bind]; [|now intros [= <-]].
  destruct (found_folder (files d) client_name (Some r)); cbn [result_bind];
    [|now intros [= <-]].
  destruct (type_folder _ tipo); cbn [of_option]; [discriminate|now intros [= <-]].
Qed.

Lemma update_file_plain (file_id : nat) (wb : workbook) (d d' : DriveHandler.t) (e : exn) :
  update_file file_id wb d = (Raise e, d') -> plain e.
Proof.
  destruct (List.find (has_id file_id) (files d)) as [f|] eqn:Hf.
  - rewrite (update_file_run _ _ _ _ Hf).
    destruct (mime_eqb (mime_type f) GoogleSheet); [|discriminate].
    cbv zeta. destruct (parent f); discriminate.
  - unfold update_file. unfold bind at 1. unfold get_file at 1.
    change (fun f : drive_file => (id f =? file_id)%nat) with (has_id file_id).
    rewrite Hf. cbn [of_option]. now intros [= <- _].
Qed.

Lemma add_sheet_plain (wb : workbook) (month : string) (out : DataFrame) (e : exn) :
  add_sheet wb month out = Raise e -> plain e.
Proof.
  unfold add_sheet. destruct (mem month (sheetnames wb)); [discriminate|].
  unfold sheet_title.
  destruct (first_invalid_char _); cbn [result_bind]; [now intros [= <-]|discriminate].
Qed.

Lemma proceed_raises (req : request) (out : DataFrame) (fname : string)
      (file_id : option nat) (d d' : DriveHandler.t) (e : exn) :
  proceed req out fname file_id d = (Raise e, d') ->
  e = HTTPException 400 (duplicate_msg (month_name req) fname) \/ plain e.
Proof.
  unfold proceed. rewrite bind_lift.
  destruct file_id as [fid|]; cbn [of_option]; [|intros [= <- _]; now right].
  unfold bind at 1. rewrite download_file_run.
  destruct (List.find (has_id fid) (files d)) as [f|]; [|intros [= <- _]; now right].
  unfold commit. rewrite bind_lift.
  destruct (add_sheet (content f) (month_name req) out) as [res|e'] eqn:Hadd.
  - destruct (String.eqb (fst res) "exists"); [intros [= <- _]; now left|].
    rewrite bind_lift.
    destruct (snd res) as [saved|]; cbn [of_option]; [|intros [= <- _]; now right].
    unfold bind at 1.
    destruct (update_file fid saved d) as [[x|e'] d2] eqn:Hupd; [discriminate|].
    intros [= <- _]. right. eapply update_file_plain, Hupd.
  - intros [= <- _]. right. eapply add_sheet_plain, Hadd.
Qed.

Lemma merge_raises (req : request) (out : DataFrame) (d d' : DriveHandler.t) (e : exn) :
  merge req out d = (Raise e, d') ->
  e = HTTPException 400
        (duplicate_msg (month_name req) (year_filename (client req) (tipo req) (year req)))
  \/ plain e.
Proof.
  unfold merge. unfold bind at 1. rewrite check_year_file_exists_run.
  destruct (type_folder_of d (client req) (tipo req)) as [folder|e'] eqn:Hfolder;
    cbn [result_bind].
  2:{ intros [= <- _]. right. eapply type_folder_of_plain, Hfolder. }
  cbv zeta. cbn [exists_ file_id filename].
  destruct (negb _).
  - destruct (negb (create_if_not_exists req)); [discriminate|].
    unfold bind at 1. rewrite create_year_file_run.
    destruct (type_folder_of (after_lookup d) (client req) (tipo req)) as [folder'|e'] eqn:Hf'.
    + unfold upload_file at 1. apply proceed_raises.
    + intros [= <- _]. right. eapply type_folder_of_plain, Hf'.
  - apply proceed_raises.
Qed.

(** X15.  [process_file] fails with an HTTP error only: status 400 with the
    duplicate message when the month is a sheet of the workbook already,
    status 500 for everything else (a ledger that cannot be cleaned, a
    client or folder that is not in Drive, a sheet title that the workbook
    refuses).  No other exception leaves the handler. *)
Theorem process_file_fails_with_400_or_500
        (req : request) (w w' : world) (e : exn) :
  process_file req w = (Raise e, w') ->
  e = HTTPException 400
        (duplicate_msg (month_name req) (year_filename (client req) (tipo req) (year req)))
  \/ exists e0 : exn, plain e0 /\ e = HTTPException 500 (str_exn e0).
Proof.
  destruct (process_file_run req w) as [h' ->].
  destruct (clean_frame (sheet (file req))) as [out|e0] eqn:Hclean.
  - destruct (merge req out (w_drive w)) as [[r|e0] d] eqn:Hmerge; [discriminate|].
    intros [= <- _]. destruct (merge_raises _ _ _ _ _ Hmerge) as [->|Hplain].
    + now left.
    + right. exists e0. split; [exact Hplain|]. now apply handled_plain.
  - intros [= <- _]. right. exists e0.
    pose proof (clean_frame_plain _ _ Hclean) as Hplain.
    split; [exact Hplain|]. now apply handled_plain.
Qed.

Lemma temp_removed (wb : workbook) :
  (if mem "_temp" (sheetnames wb) then remove_sheet "_temp" wb else wb)
  = remove_sheet "_temp" wb.
Proof.
  destruct (mem "_temp" (sheetnames wb)) eqn:E; [reflexivity|].
  now rewrite remove_sheet_absent.
Qed.

(** X16.  A merge into a workbook that is in the store, seen from the
    store: the month was no sheet of the workbook; the workbook keeps its
    sheets in their order, the placeholder "_temp" apart, and gets one more
    sheet after them, with the title [create_sheet] gives the month and the
    rows of the cleaned ledger under its header; no other entry of the
    store changes.  A workbook kept as a Google Sheet is replaced by a file
    of that content under a new id, in the same folder and with the same
    name.  The answer counts the rows of the upload. *)
Theorem merge_appends_one_sheet
        (req : request) (w w' : world) (r : response) (folder : nat) (f : drive_file) :
  query_safe (client req) ->
  query_safe (tipo req) ->
  store_ok (w_drive w) ->
  type_folder_of (w_drive w) (client req) (tipo req) = Ok folder ->
  head (List.filter
          (workbook_query folder (year_filename (client req) (tipo req) (year req)))
          (files (w_drive w))) = Some f ->
  process_file req w = (Ok r, w') ->
  exists (out : DataFrame) (sheet_name : string),
    cleaned (init (file req)) (w_heap w) = Some out /\
    mem (month_name req) (sheetnames (content f)) = false /\
    sheet_title (sheetnames (remove_sheet "_temp" (content f))) (month_name req)
    = Ok sheet_name /\
    let saved := (remove_sheet "_temp" (content f)
                  ++ [mksheet sheet_name (dataframe_to_rows out)])%list in
    files (w_drive w')
    = (if mime_eqb (mime_type f) GoogleSheet
       then (List.filter (fun g => negb (id g =? id f)%nat) (files (w_drive w))
             ++ [mkfile (next_id (w_drive w)) (name f) Xlsx (Some folder) false saved])%list
       else map (set_content (id f) saved) (files (w_drive w))) /\
    r = Processed (success_msg (month_name req)
                               (year_filename (client req) (tipo req) (year req)))
                  (Z.of_nat (nrows (sheet (file req))))
                  (client req) (tipo req) (year req) (month_name req).
Proof.
  intros _ _ [Hnd _] Hfolder Hhead.
  destruct (process_file_run req w) as [h' ->].
  destruct (clean_frame (sheet (file req))) as [out|e0] eqn:Hclean; [|discriminate].
  destruct (merge req out (w_drive w)) as [[r'|e0] d] eqn:Hmerge; [|discriminate].
  intros [= <- <-]. cbn [w_drive].
  assert (Hin : In f (files (w_drive w))).
  { destruct (List.filter _ (files (w_drive w))) as [|g gs] eqn:E; [discriminate|].
    injection Hhead as ->.
    assert (Hg : In f (f :: gs)) by now left.
    rewrite <- E in Hg. now apply filter_In in Hg. }
  assert (Hq : workbook_query folder (year_filename (client req) (tipo req) (year req)) f
               = true).
  { destruct (List.filter _ (files (w_drive w))) as [|g gs] eqn:E; [discriminate|].
    injection Hhead as ->.
    assert (Hg : In f (f :: gs)) by now left.
    rewrite <- E in Hg. now apply filter_In in Hg. }
  apply workbook_query_name in Hq as (_ & Hparent & _).
  pose proof (find_has_id _ _ Hnd Hin) as Hfind.
  destruct (after_lookup_files (w_drive w)) as [Hfiles Hnext].
  revert Hmerge. unfold merge. unfold bind at 1.
  rewrite check_year_file_exists_run, Hfolder. cbn [result_bind].
  destruct (List.filter _ (files (w_drive w))) as [|g gs]; [discriminate|].
  injection Hhead as ->.
  cbn [length Nat.ltb Nat.leb exists_ file_id filename negb head option_map].
  unfold proceed. rewrite bind_lift. cbn [of_option].
  unfold bind at 1. rewrite download_file_run, Hfiles, Hfind.
  unfold commit. rewrite bind_lift. unfold add_sheet.
  destruct (mem (month_name req) (sheetnames (content f))) eqn:Hmem; [discriminate|].
  rewrite temp_removed.
  destruct (sheet_title (sheetnames (remove_sheet "_temp" (content f))) (month_name req))
    as [sheet_name|e0] eqn:Htitle; [|discriminate].
  cbn [result_bind fst snd String.eqb Ascii.eqb Bool.eqb].
  rewrite bind_lift. cbn [of_option]. unfold bind at 1.
  rewrite (update_file_run _ _ _ f) by now rewrite Hfiles.
  rewrite Hfiles, Hnext, Hparent.
  exists out, sheet_name.
  split; [apply (clean_frame_cleaned _ _ (sheet (file req))); [reflexivity | exact Hclean]|].
  split; [reflexivity|]. split; [reflexivity|]. cbv zeta.
  apply clean_frame_nrows in Hclean.
  revert Hmerge.
  destruct (mime_eqb (mime_type f) GoogleSheet); unfold ret; cbv zeta; intros [= <- <-];
    (split; [reflexivity|]); f_equal; lia.
Qed.

End MergeMore.

Section MergeMoreExamples.
Import Pandas ExcelProcessor DriveHandler App Denote Table.
#[local] Existing Instance left_to_right.

Lemma process_file_fails_with_400_or_500_witness :
  exists (e : exn) (w' : world),
    process_file (Tienda.pedido 2025 false) (mkworld [] (Tienda.drive Xlsx ["Marzo"]))
    = (Raise e, w') /\
    (e = HTTPException 400
           "La pestaña 'Marzo' ya existe en el archivo 'Libro Iva Ventas 2025 Panaderia Sol.xlsx'"
     \/ exists e0 : exn, plain e0 /\ e = HTTPException 500 (str_exn e0)).
Proof.
  assert (H : process_file (Tienda.pedido 2025 false)
                           (mkworld [] (Tienda.drive Xlsx ["Marzo"]))
              = (Raise (HTTPException 400
                   "La pestaña 'Marzo' ya existe en el archivo 'Libro Iva Ventas 2025 Panaderia Sol.xlsx'"),
                 snd (process_file (Tienda.pedido 2025 false)
                                   (mkworld [] (Tienda.drive Xlsx ["Marzo"])))))
    by (vm_compute; reflexivity).
  eexists _, _. split; [exact H|].
  exact (process_file_fails_with_400_or_500 _ _ _ _ H).
Defined.

Lemma merge_appends_one_sheet_witness :
  exists (out : DataFrame) (sheet_name : string),
    cleaned (init Ejemplo.file) [] = Some out /\
    mem "Marzo" ["Enero"; "_temp"] = false /\
    sheet_title (sheetnames (remove_sheet "_temp" [mksheet "Enero" []; mksheet "_temp" []]))
                "Marzo" = Ok sheet_name /\
    let saved := (remove_sheet "_temp" [mksheet "Enero" []; mksheet "_temp" []]
                  ++ [mksheet sheet_name (dataframe_to_rows out)])%list in
    files (w_drive (snd (process_file (Tienda.pedido 2025 false)
                                      (mkworld [] (Tienda.drive Xlsx ["Enero"; "_temp"])))))
    = map (set_content 4 saved) (files (Tienda.drive Xlsx ["Enero"; "_temp"])) /\
    Processed "Pestaña 'Marzo' agregada exitosamente al archivo 'Libro Iva Ventas 2025 Panaderia Sol.xlsx'"
              3 "Panaderia Sol" "ventas" 2025 "Marzo"
    = Processed (success_msg "Marzo" "Libro Iva Ventas 2025 Panaderia Sol.xlsx")
                3 "Panaderia Sol" "ventas" 2025 "Marzo".
Proof.
  apply (merge_appends_one_sheet
           (Tienda.pedido 2025 false) (mkworld [] (Tienda.drive Xlsx ["Enero"; "_temp"]))
           (snd (process_file (Tienda.pedido 2025 false)
                              (mkworld [] (Tienda.drive Xlsx ["Enero"; "_temp"]))))
           _ 2%nat (Tienda.libro Xlsx ["Enero"; "_temp"])).
  - split; reflexivity.
  - split; reflexivity.
  - split.
    + apply (bool_decide_unpack _). vm_compute. exact I.
    + intros g Hg. vm_compute in Hg.
      repeat (destruct Hg as [<-|Hg]; [vm_compute; lia|]). destruct Hg.
  - vm_compute. reflexivity.
  - vm_compute. reflexivity.
  - vm_compute. reflexivity.
Defined.

End MergeMoreExamples.

(** ** [fastapi_app.py]: the other handlers *)

Section ApiMore.
Import Pandas ExcelProcessor DriveHandler DriveClients Denote Table Api.
Context {lib : Library}.

Lemma set_fresh (k v : string) (d : CUITMapper.dict) :
  CUITMapper.contains k d = false -> CUITMapper.set k v d = (d ++ [(k, v)])%list.
Proof.
  unfold CUITMapper.contains. induction d as [|[k' v'] d IH]; simpl; [reflexivity|].
  destruct (String.eqb k' k); simpl; [discriminate|]. intros H. now rewrite IH.
Qed.

(** What [POST /api/create-client] computes. *)
Lemma api_create_client_run (client_name cuit : string) (s : server) :
  Api.create_client client_name cuit s
  = let mapper := s_mapper s in
    if CUITMapper.client_exists cuit mapper then
      (Raise (HTTPException 400
                (registered_msg cuit (str_opt (CUITMapper.get_client_by_cuit cuit mapper)))),
       s)
    else
      match DriveClients.create_client client_name cuit (s_drive s) with
      | (Raise e, d) => (Raise (handled e), mkserver (s_heap s) d mapper)
      | (Ok result, d) =>
          let registered :=
            mkserver (s_heap s) d (CUITMapper.add_client cuit client_name mapper) in
          if success result
          then (Ok (mkresponse (message result) client_name cuit), registered)
          else
            let refused d' :=
              (Raise (HTTPException 400 (message result)), mkserver (s_heap s) d' mapper) in
            if Text.contains "ya existe" (Text.lower (message result)) then
              match get_client_structure client_name d with
              | (Ok structure, d') =>
                  if is_some_id (ventas_id structure) && is_some_id (compras_id structure)
                  then (Ok (mkresponse (added_msg client_name) client_name cuit),
                        mkserver (s_heap s) d'
                                 (CUITMapper.add_client cuit client_name mapper))
                  else refused d'
              | (Raise _, d') => refused d'
              end
            else refused d
      end.
Proof.
  unfold Api.create_client, try_except, create_client_try.
  unfold bind at 1. unfold ask_mapper at 1. cbv zeta.
  destruct (CUITMapper.client_exists cuit (s_mapper s)); [reflexivity|].
  unfold bind at 1. unfold on_drive at 1.
  destruct (DriveClients.create_client client_name cuit (s_drive s)) as [[result|e] d];
    [|now destruct e].
  destruct (success result); cbn [negb]; [reflexivity|].
  unfold bind at 1.
  destruct (Text.contains "ya existe" (Text.lower (message result))); [|reflexivity].
  unfold try_except at 1. unfold bind at 1. unfold on_drive at 1. cbn [s_drive s_heap s_mapper].
  destruct (get_client_structure client_name d) as [[structure|e] d']; [|reflexivity].
  destruct (is_some_id (ventas_id structure) && is_some_id (compras_id structure));
    reflexivity.
Qed.

(** X17.  [POST /api/create-client] changes the mapping only when it
    answers with success, and then by one new entry, the CUIT with the
    name, which is saved to the file; a CUIT that is registered is never
    given another name.  A client that it registers has its folder in
    Drive, under the root.  It fails with status 400 or 500 only. *)
Theorem create_client_registers_once
        (client_name cuit : string) (s s' : server) (r : result client_response) :
  query_safe client_name ->
  Api.create_client client_name cuit s = (r, s') ->
  s_heap s' = s_heap s /\
  match r with
  | Ok response =>
      CUITMapper.client_exists cuit (s_mapper s) = false /\
      CUITMapper.mapping (s_mapper s')
      = (CUITMapper.mapping (s_mapper s) ++ [(cuit, client_name)])%list /\
      CUITMapper.file (s_mapper s') = Some (CUITMapper.mapping (s_mapper s')) /\
      r_client_name response = client_name /\ r_cuit response = cuit /\
      exists root client_id : nat,
        root_of (s_drive s') = Some root /\
        found_folder (files (s_drive s')) client_name (Some root) = Some client_id
  | Raise e =>
      s_mapper s' = s_mapper s /\
      exists (status : Z) (detail : string),
        e = HTTPException status detail /\ (status = 400 \/ status = 500)
  end.
Proof.
  intros _. rewrite api_create_client_run. cbv zeta.
  destruct (CUITMapper.client_exists cuit (s_mapper s)) eqn:Htaken.
  { intros [= <- <-]. split; [reflexivity|]. split; [reflexivity|]. eauto. }
  assert (Hadd : forall m, m = CUITMapper.add_client cuit client_name (s_mapper s) ->
            CUITMapper.mapping m
            = (CUITMapper.mapping (s_mapper s) ++ [(cuit, client_name)])%list /\
            CUITMapper.file m = Some (CUITMapper.mapping m)).
  { intros m ->. unfold CUITMapper.add_client, CUITMapper.save_mapping.
    cbn [CUITMapper.mapping CUITMapper.file]. now rewrite set_fresh. }
  rewrite create_client_run.
  destruct (root_of (s_drive s)) as [root|] eqn:Hroot.
  2:{ intros [= <- <-]. split; [reflexivity|]. split; [reflexivity|]. cbn [handled]. eauto. }
  destruct (found_folder (files (s_drive s)) client_name (Some root)) as [c|] eqn:Hfound.
  - cbn [success message negb].
    destruct (Text.contains "ya existe" (Text.lower (exists_msg client_name))).
    2:{ intros [= <- <-]. split; [reflexivity|]. split; [reflexivity|]. eauto. }
    rewrite get_client_structure_run, after_lookup_root, Hroot.
    cbn [of_option result_bind]. unfold structure_of.
    rewrite (proj1 (after_lookup_files (s_drive s))), Hfound.
    cbn [ventas_id compras_id].
    destruct (is_some_id _ && is_some_id _).
    + intros [= <- <-]. split; [reflexivity|]. cbn [s_mapper s_drive r_client_name r_cuit].
      destruct (Hadd _ eq_refl) as [Hm Hf].
      repeat (split; [assumption || reflexivity|]).
      exists root, c. rewrite after_lookup_idem, after_lookup_root.
      now rewrite (proj1 (after_lookup_files (s_drive s))).
    + intros [= <- <-]. split; [reflexivity|]. split; [reflexivity|]. eauto.
  - cbn [success message]. intros [= <- <-]. split; [reflexivity|].
    cbn [s_mapper s_drive r_client_name r_cuit].
    destruct (Hadd _ eq_refl) as [Hm Hf].
    repeat (split; [assumption || reflexivity|]).
    exists root, (next_id (s_drive s)). split; [reflexivity|]. cbn [files].
    rewrite found_folder_app_None by exact Hfound.
    unfold found_folder, client_folders, folder_query, in_parent. simpl.
    now rewrite String.eqb_refl, Nat.eqb_refl.
Qed.

Lemma get_del_ne (k k' : string) (d : CUITMapper.dict) :
  k' <> k -> CUITMapper.get k' (CUITMapper.del k d) = CUITMapper.get k' d.
Proof.
  intros Hne. induction d as [|[k0 v0] d IH]; simpl; [reflexivity|].
  destruct (String.eqb_spec k0 k) as [->|Hk]; simpl.
  - destruct (String.eqb_spec k k'); [congruence | reflexivity].
  - now rewrite IH.
Qed.

Lemma keys_del (k : string) (d : CUITMapper.dict) :
  forall x, In x (map fst (CUITMapper.del k d)) -> In x (map fst d).
Proof.
  induction d as [|[k0 v0] d IH]; simpl; [tauto|].
  destruct (String.eqb k0 k); simpl; [tauto|]. intros x [->|Hx]; [now left|]. right. now apply IH.
Qed.

Lemma NoDup_del (k : string) (d : CUITMapper.dict) :
  NoDup (map fst d) -> NoDup (map fst (CUITMapper.del k d)).
Proof.
  induction d as [|[k0 v0] d IH]; simpl; [intros; constructor|].
  intros Hnd. apply NoDup_cons in Hnd as [Hk Hnd].
  destruct (String.eqb k0 k); simpl; [exact Hnd|].
  apply NoDup_cons. split; [|now apply IH].
  intros Hin. apply Hk. apply list_elem_of_In. apply list_elem_of_In in Hin.
  now apply keys_del in Hin.
Qed.

Lemma get_del_eq (k : string) (d : CUITMapper.dict) :
  NoDup (map fst d) -> CUITMapper.get k (CUITMapper.del k d) = None.
Proof.
  induction d as [|[k0 v0] d IH]; simpl; [reflexivity|].
  intros Hnd. apply NoDup_cons in Hnd as [Hk Hnd].
  destruct (String.eqb_spec k0 k) as [->|Hne]; simpl.
  - apply get_None_keys. intros Hin. apply Hk. now apply list_elem_of_In.
  - destruct (String.eqb_spec k0 k); [contradiction|]. now apply IH.
Qed.

Lemma length_del (k : string) (d : CUITMapper.dict) :
  CUITMapper.contains k d = true -> S (length (CUITMapper.del k d)) = length d.
Proof.
  unfold CUITMapper.contains. induction d as [|[k0 v0] d IH]; simpl; [discriminate|].
  destruct (String.eqb k0 k); simpl; [reflexivity|]. intros H. now rewrite IH.
Qed.

Lemma NoDup_set (k v : string) (d : CUITMapper.dict) :
  NoDup (map fst d) -> NoDup (map fst (CUITMapper.set k v d)).
Proof.
  intros Hnd. rewrite keys_set. rewrite contains_get.
  destruct (CUITMapper.get k d) eqn:E; [exact Hnd|].
  apply get_None_keys in E. apply NoDup_app. split; [exact Hnd|]. split.
  - intros x Hx [->|[]]%list_elem_of_In. apply E. now apply list_elem_of_In.
  - apply NoDup_singleton.
Qed.

(** What [POST /api/edit-client] computes. *)
Lemma api_edit_client_run (old_cuit new_name new_cuit : string) (s : server) :
  Api.edit_client old_cuit new_name new_cuit s
  = let m := CUITMapper.mapping (s_mapper s) in
    if falsy (CUITMapper.get old_cuit m)
    then (Raise (HTTPException 404 "Cliente no encontrado"), s)
    else if negb (String.eqb old_cuit new_cuit) && CUITMapper.contains new_cuit m
    then (Raise (HTTPException 400 (taken_msg new_cuit (str_opt (CUITMapper.get new_cuit m)))),
          s)
    else
      let m' := CUITMapper.set new_cuit new_name
                  (if CUITMapper.contains old_cuit m then CUITMapper.del old_cuit m else m) in
      (Ok (mkresponse "Cliente actualizado exitosamente" new_name new_cuit),
       mkserver (s_heap s) (s_drive s) (CUITMapper.mk m' (Some m'))).
Proof.
  unfold Api.edit_client, try_except, edit_client_try.
  unfold bind at 1. unfold ask_mapper at 1. cbv zeta.
  unfold CUITMapper.get_client_by_cuit, CUITMapper.client_exists, CUITMapper.get_all_clients.
  destruct (falsy (CUITMapper.get old_cuit (CUITMapper.mapping (s_mapper s))));
    [reflexivity|].
  unfold bind at 1.
  destruct (negb (String.eqb old_cuit new_cuit)); cbn [andb].
  - unfold bind at 1. unfold ask_mapper at 1.
    destruct (CUITMapper.contains new_cuit (CUITMapper.mapping (s_mapper s)));
      reflexivity.
  - reflexivity.
Qed.

(** X18.  [POST /api/edit-client] answers 404 when the old CUIT is not
    registered (or registered with an empty name) and 400 when the new CUIT
    belongs to another client, and then changes nothing.  Otherwise the new
    CUIT maps to the new name, the old CUIT is gone when it differs, every
    other client is as before, the number of clients is the same and the
    mapping is saved.  Drive is never touched: the folder of the client
    keeps its name. *)
Theorem edit_client_outcome
        (old_cuit new_name new_cuit : string) (s s' : server)
        (r : result client_response) :
  NoDup (map fst (CUITMapper.mapping (s_mapper s))) ->
  Api.edit_client old_cuit new_name new_cuit s = (r, s') ->
  let m := CUITMapper.mapping (s_mapper s) in
  let m' := CUITMapper.mapping (s_mapper s') in
  s_heap s' = s_heap s /\ s_drive s' = s_drive s /\
  match r with
  | Ok response =>
      (exists old_name, CUITMapper.get old_cuit m = Some old_name /\ old_name <> "") /\
      CUITMapper.get new_cuit m' = Some new_name /\
      (old_cuit <> new_cuit ->
       CUITMapper.get old_cuit m' = None /\ CUITMapper.get new_cuit m = None) /\
      (forall c, c <> old_cuit -> c <> new_cuit -> CUITMapper.get c m' = CUITMapper.get c m) /\
      NoDup (map fst m') /\
      length m' = length m /\
      CUITMapper.file (s_mapper s') = Some m' /\
      r_client_name response = new_name /\ r_cuit response = new_cuit
  | Raise e =>
      s' = s /\
      ((falsy (CUITMapper.get old_cuit m) = true /\
        e = HTTPException 404 "Cliente no encontrado") \/
       (old_cuit <> new_cuit /\
        exists existing, CUITMapper.get new_cuit m = Some existing /\
                         e = HTTPException 400 (taken_msg new_cuit existing)))
  end.
Proof.
  intros Hnd. rewrite api_edit_client_run. cbv zeta.
  set (m := CUITMapper.mapping (s_mapper s)) in *.
  destruct (falsy (CUITMapper.get old_cuit m)) eqn:Hold.
  { intros [= <- <-]. repeat (split; [reflexivity|]). now left. }
  destruct (negb (String.eqb old_cuit new_cuit) && CUITMapper.contains new_cuit m) eqn:Htaken.
  { intros [= <- <-]. repeat (split; [reflexivity|]). right.
    apply andb_prop in Htaken as [Hne Hc]. apply negb_true_iff, String.eqb_neq in Hne.
    split; [exact Hne|]. rewrite contains_get in Hc.
    destruct (CUITMapper.get new_cuit m) as [existing|]; [|discriminate]. eauto. }
  intros [= <- <-]. cbn [s_heap s_drive s_mapper CUITMapper.mapping CUITMapper.file
                         r_client_name r_cuit].
  repeat (split; [reflexivity|]).
  destruct (CUITMapper.get old_cuit m) as [old_name|] eqn:Hget; [|discriminate].
  assert (Hin : CUITMapper.contains old_cuit m = true) by now rewrite contains_get, Hget.
  rewrite Hin.
  split.
  { exists old_name. split; [reflexivity|]. intros ->. discriminate. }
  split; [apply get_set_eq|].
  assert (Hfree : CUITMapper.contains new_cuit (CUITMapper.del old_cuit m) = false).
  { rewrite contains_get. destruct (String.eqb_spec old_cuit new_cuit) as [<-|Hne].
    - now rewrite get_del_eq.
    - cbn [negb andb] in Htaken. rewrite get_del_ne by congruence.
      now rewrite <- contains_get. }
  split.
  { intros Hne. split.
    - rewrite get_set_ne by congruence. now apply get_del_eq.
    - apply String.eqb_neq in Hne. rewrite Hne in Htaken. cbn [negb andb] in Htaken.
      rewrite contains_get in Htaken. now destruct (CUITMapper.get new_cuit m). }
  split.
  { intros c Hc1 Hc2. rewrite get_set_ne by congruence. now apply get_del_ne. }
  split; [now apply NoDup_set, NoDup_del|].
  split; [|repeat split].
  rewrite set_fresh by exact Hfree. rewrite length_app. cbn [length].
  rewrite <- (length_del old_cuit m Hin). lia.
Qed.

Lemma read_then_detect (file : xlsx_file) (s : server) :
  exists h' : heap,
    forall (A : Type) (k : (Z * Z) * ExcelProcessor.t -> ST server A),
      (let* (_, processor) := on_heap (read_excel (init file)) in
       let* x := on_heap (ExcelProcessor.detect_month processor) in
       k x) s
      = match detect_frame (sheet file) with
        | Ok my =>
            k (my, ExcelProcessor.mk file (Some (length (s_heap s))) (Some my))
              (mkserver h' (s_drive s) (s_mapper s))
        | Raise e => (Raise e, mkserver h' (s_drive s) (s_mapper s))
        end.
Proof.
  set (p1 := ExcelProcessor.mk file (Some (length (s_heap s))) (month_detected (init file))).
  assert (Hh1 : holds p1 (s_heap s ++ [sheet file])%list (sheet file)) by apply lookup_snoc.
  destruct (detect_month_run p1 _ _ Hh1)
    as (p1' & h1 & junk1 & _ & _ & _ & Hsame & Hrun).
  destruct (Hsame ltac:(discriminate)) as [-> ->].
  exists ((s_heap s ++ [sheet file]) ++ junk1)%list. intros A k.
  unfold read_excel. unfold bind at 1. unfold on_heap at 1.
  rewrite bind_alloc. unfold ret at 1. cbv beta iota.
  change (file_path (init file)) with file. fold p1.
  unfold bind at 1. unfold on_heap at 1. cbn [s_heap s_drive s_mapper]. rewrite Hrun.
  now destruct (detect_frame (sheet file)).
Qed.

(** X19.  The two detection endpoints.  [POST /api/detect-month] answers
    the period [detect_month] finds; [POST /api/auto-detect-all] reads the
    banner first and then answers the same period, with the CUIT and the
    type of the banner and the client registered for the CUIT: a CUIT that
    is not registered is no error, the client is then missing and
    [client_found] is false.  Every failure is answered with status 400 and
    the text of the exception, a failure of the banner before one of the
    dates.  Neither endpoint changes Drive or the mapping. *)
Theorem detection_endpoints (file : xlsx_file) (s : server) :
  let period := detected (init file) (s_heap s) in
  let refused (e : exn) := HTTPException 400 (App.str_exn e) in
  fst (Api.detect_month file s)
  = match period with
    | Ok my => Ok (mkperiod (fst my) (snd my) (get_month_name (fst my)))
    | Raise e => Raise (refused e)
    end /\
  fst (Api.auto_detect_all file s)
  = match detect_info_from_header (init file) with
    | Raise e => Raise (refused e)
    | Ok info =>
        match period with
        | Raise e => Raise (refused e)
        | Ok my =>
            let client_name := CUITMapper.get_client_by_cuit (cuit info) (s_mapper s) in
            Ok (mkdetection (cuit info) client_name
                            (match client_name with Some _ => true | None => false end)
                            (tipo info) (fst my) (snd my) (get_month_name (fst my)))
        end
    end /\
  s_drive (snd (Api.detect_month file s)) = s_drive s /\
  s_mapper (snd (Api.detect_month file s)) = s_mapper s /\
  s_drive (snd (Api.auto_detect_all file s)) = s_drive s /\
  s_mapper (snd (Api.auto_detect_all file s)) = s_mapper s.
Proof.
  cbv zeta. rewrite (detected_run (init file) (s_heap s) (sheet file)) by reflexivity.
  destruct (read_then_detect file s) as [h' Hrun].
  assert (Hdetect : Api.detect_month file s
    = match detect_frame (sheet file) with
      | Ok my => (Ok (mkperiod (fst my) (snd my) (get_month_name (fst my))),
                  mkserver h' (s_drive s) (s_mapper s))
      | Raise e => (Raise (HTTPException 400 (App.str_exn e)),
                    mkserver h' (s_drive s) (s_mapper s))
      end).
  { unfold Api.detect_month, try_except, detect_month_try. cbv zeta.
    rewrite Hrun. now destruct (detect_frame (sheet file)). }
  assert (Hauto : exists s1, s_drive s1 = s_drive s /\ s_mapper s1 = s_mapper s /\
    Api.auto_detect_all file s
    = (match detect_info_from_header (init file) with
       | Raise e => Raise (HTTPException 400 (App.str_exn e))
       | Ok info =>
           match detect_frame (sheet file) with
           | Raise e => Raise (HTTPException 400 (App.str_exn e))
           | Ok my =>
               let client_name := CUITMapper.get_client_by_cuit (cuit info) (s_mapper s) in
               Ok (mkdetection (cuit info) client_name
                               (match client_name with Some _ => true | None => false end)
                               (tipo info) (fst my) (snd my) (get_month_name (fst my)))
           end
       end, s1)).
  { unfold Api.auto_detect_all, try_except, auto_detect_all_try. cbv zeta.
    rewrite bind_lift.
    destruct (detect_info_from_header (init file)) as [info|e].
    2:{ exists s. now repeat split. }
    unfold bind at 1. unfold ask_mapper at 1. rewrite Hrun.
    exists (mkserver h' (s_drive s) (s_mapper s)).
    split; [reflexivity|]. split; [reflexivity|].
    now destruct (detect_frame (sheet file)). }
  destruct Hauto as (s1 & Hd1 & Hm1 & Hauto). rewrite Hdetect, Hauto. cbn [fst snd].
  split; [now destruct (detect_frame (sheet file))|].
  split; [reflexivity|].
  split; [now destruct (detect_frame (sheet file))|].
  split; [now destruct (detect_frame (sheet file))|].
  split; assumption.
Qed.

(** *** The preview *)

Lemma mapM_lookup {A} (xs : list A) (rows : list nat) :
  Forall (fun i => (i < length xs)%nat) rows ->
  exists ys, mapM (fun i => xs !! i) rows = Some ys /\
             Forall2 (fun i y => xs !! i = Some y) rows ys.
Proof.
  intros H.
  assert (Hys : exists ys, Forall2 (fun i y => xs !! i = Some y) rows ys).
  { induction H as [|i rows Hi _ [ys IH]]; [exists []; constructor|].
    destruct (lookup_lt_is_Some_2 xs i Hi) as [y Hy]. exists (y :: ys). now constructor. }
  destruct Hys as [ys Hys]. exists ys. split; [now apply mapM_Some | exact Hys].
Qed.

Lemma picked_cells {A} (g : A -> pyobj) (xs : list A) (rows : list nat) (ys : list A) :
  Forall2 (fun i y => xs !! i = Some y) rows ys ->
  map g ys = map (fun i => nth i (map g xs) ONaN) rows.
Proof.
  induction 1 as [|i y rows ys Hy _ IH]; simpl; [reflexivity|].
  rewrite IH. f_equal. symmetry. apply nth_lookup_Some. now rewrite lookup_map, Hy.
Qed.

Lemma series_rows_ok (rows : list nat) (s : series) :
  Forall (fun i => (i < series_len s)%nat) rows ->
  exists s', Rows.series_rows rows s = Some s' /\
             to_object s' = map (fun i => nth i (to_object s) ONaN) rows.
Proof.
  destruct s as [xs|xs|xs|xs|xs]; simpl; intros H;
    destruct (mapM_lookup xs rows H) as (ys & -> & HF); eexists;
    (split; [reflexivity|]); simpl; try apply (picked_cells _ _ _ _ HF).
  rewrite <- (map_id ys). rewrite (picked_cells (fun o => o) _ _ _ HF).
  now rewrite map_id.
Qed.

(** [df.iloc[rows]] for positions in range: the cells of each column at
    these positions. *)
Lemma iloc_ok (rows : list nat) (f : DataFrame) :
  Forall (fun c => series_len (snd c) = nrows f) (columns f) ->
  Forall (fun i => (i < nrows f)%nat) rows ->
  exists g, Rows.iloc rows f = Ok g /\ nrows g = length rows /\
            Forall2 (fun c c' => fst c' = fst c /\
                                 to_object (snd c')
                                 = map (fun i => nth i (to_object (snd c)) ONaN) rows)
                    (columns f) (columns g).
Proof.
  intros Hlens Hrows. unfold Rows.iloc.
  replace (forallb (fun i => (i <? nrows f)%nat) rows) with true.
  2:{ symmetry. apply forallb_forall. intros i Hi. apply Nat.ltb_lt.
      rewrite Forall_forall in Hrows. now apply Hrows, list_elem_of_In. }
  assert (Hcols : exists cols,
    mapM (fun c => option_map (pair (fst c)) (Rows.series_rows rows (snd c))) (columns f)
    = Some cols /\
    Forall2 (fun c c' => fst c' = fst c /\
                         to_object (snd c')
                         = map (fun i => nth i (to_object (snd c)) ONaN) rows)
            (columns f) cols).
  { induction Hlens as [|c cs Hc _ IH].
    - exists []. split; [reflexivity | constructor].
    - destruct IH as (cols & Hm & HF).
      destruct (series_rows_ok rows (snd c)) as (s' & Hs' & Ho);
        [now rewrite Hc|].
      exists ((fst c, s') :: cols). split.
      + cbn. rewrite Hs'. cbn. rewrite Hm. reflexivity.
      + constructor; [now split | exact HF]. }
  destruct Hcols as (cols & -> & HF). cbn [option_map of_option].
  eexists. split; [reflexivity|]. split; [reflexivity | exact HF].
Qed.

Lemma fillna_cells (v : pyobj) (s : series) :
  to_object (Rows.series_fillna v s)
  = map (fun o => if obj_isna o then v else o) (to_object s).
Proof.
  unfold Rows.series_fillna. destruct (existsb obj_isna (to_object s)) eqn:E;
    [reflexivity|].
  symmetry. rewrite <- (map_id (to_object s)) at 2. apply map_ext_in.
  intros o Ho. destruct (obj_isna o) eqn:Eo; [|reflexivity].
  assert (existsb obj_isna (to_object s) = true); [|congruence].
  apply existsb_exists. eauto.
Qed.

Lemma map_seq_lookup {A B} (R : nat -> B) (F : A -> B) (l : list A) :
  (forall j x, l !! j = Some x -> R j = F x) ->
  map R (seq 0 (length l)) = map F l.
Proof.
  induction l as [|x l IH] using rev_ind; intros H; [reflexivity|].
  rewrite length_app. cbn [length]. rewrite Nat.add_1_r, seq_S, !map_app. cbn [map Nat.add].
  f_equal.
  - apply IH. intros j y Hj. apply H. rewrite lookup_app_l; [exact Hj|].
    now apply lookup_lt_Some in Hj.
  - f_equal. apply H. apply lookup_snoc.
Qed.

Lemma records_filled (v : pyobj) (f : DataFrame) :
  Forall (fun c => series_len (snd c) = nrows f) (columns f) ->
  Rows.to_dict_records (Rows.fillna v f) = map (filled_row v f) (seq 0 (nrows f)).
Proof.
  intros Hlens. unfold Rows.to_dict_records, Rows.fillna, filled_row.
  cbn [columns nrows]. apply map_ext_in. intros i Hi. apply in_seq in Hi.
  rewrite map_map. apply map_ext_in. intros c Hc. cbn [fst snd]. f_equal.
  rewrite fillna_cells.
  rewrite Forall_forall in Hlens. specialize (Hlens c (proj2 (list_elem_of_In _ _) Hc)).
  assert (Hlt : (i < length (to_object (snd c)))%nat) by (rewrite to_object_length; lia).
  destruct (lookup_lt_is_Some_2 _ _ Hlt) as [o Ho].
  rewrite (nth_lookup_Some _ _ _ o Ho).
  apply nth_lookup_Some. now rewrite lookup_map, Ho.
Qed.

Lemma records_picked (v : pyobj) (rows : list nat) (f g : DataFrame) :
  Forall (fun c => series_len (snd c) = nrows f) (columns f) ->
  Forall (fun i => (i < nrows f)%nat) rows ->
  Rows.iloc rows f = Ok g ->
  Rows.to_dict_records (Rows.fillna v g) = map (filled_row v f) rows.
Proof.
  intros Hlens Hrows Hg.
  destruct (iloc_ok rows f Hlens Hrows) as (g' & Hg' & Hn & HF).
  rewrite Hg in Hg'. injection Hg' as <-.
  unfold Rows.to_dict_records, Rows.fillna. cbn [columns nrows]. rewrite Hn.
  assert (Hrow : forall j i, rows !! j = Some i ->
    map (fun c => (fst c, nth j (to_object (snd c)) ONaN))
        (map (fun c => (fst c, Rows.series_fillna v (snd c))) (columns g))
    = filled_row v f i).
  { intros j i Hj. unfold filled_row. rewrite map_map. cbn [fst snd].
    rewrite Forall_forall in Hlens.
    rewrite Forall_forall in Hrows.
    pose proof (Hrows i (list_elem_of_lookup_2 _ _ _ Hj)) as Hi.
    clear Hg Hn. induction HF as [|c c' cs cs' [Hname Hcells] _ IH]; [reflexivity|].
    cbn [map]. f_equal.
    - rewrite Hname. f_equal. rewrite fillna_cells, Hcells.
      assert (Hlt : (i < length (to_object (snd c)))%nat).
      { rewrite to_object_length, (Hlens c); [exact Hi | now left]. }
      destruct (lookup_lt_is_Some_2 _ _ Hlt) as [o Ho].
      rewrite (nth_lookup_Some _ _ _ o Ho).
      apply nth_lookup_Some. rewrite !lookup_map, Hj. cbn [option_map].
      now rewrite (nth_lookup_Some _ _ _ o Ho).
    - apply IH. intros x Hx. apply Hlens. now right. }
  apply (map_seq_lookup
           (fun i => map (fun c => (fst c, nth i (to_object (snd c)) ONaN))
                         (map (fun c => (fst c, Rows.series_fillna v (snd c))) (columns g)))
           (filled_row v f) rows).
  exact Hrow.
Qed.

Lemma read_then_clean (file : xlsx_file) (s : server) :
  exists (h1 : heap) (p : ExcelProcessor.t),
    forall (A : Type) (k : loc * ExcelProcessor.t -> ST server A),
      (let* (_, processor) := on_heap (read_excel (init file)) in
       let* x := on_heap (clean_data processor) in
       k x) s
      = match clean_frame (sheet file) with
        | Ok out => k (length h1, p) (mkserver (h1 ++ [out])%list (s_drive s) (s_mapper s))
        | Raise e => (Raise e, mkserver h1 (s_drive s) (s_mapper s))
        end.
Proof.
  set (p1 := ExcelProcessor.mk file (Some (length (s_heap s))) (month_detected (init file))).
  assert (Hh1 : holds p1 (s_heap s ++ [sheet file])%list (sheet file)) by apply lookup_snoc.
  destruct (clean_data_run p1 _ _ Hh1)
    as (p1' & h1 & junk & _ & _ & _ & _ & Hsame & Hrun).
  destruct (Hsame ltac:(discriminate)) as [-> ->].
  exists ((s_heap s ++ [sheet file]) ++ junk)%list, p1. intros A k.
  unfold read_excel. unfold bind at 1. unfold on_heap at 1.
  rewrite bind_alloc. unfold ret at 1. cbv beta iota.
  change (file_path (init file)) with file. fold p1.
  unfold bind at 1. unfold on_heap at 1. cbn [s_heap s_drive s_mapper]. rewrite Hrun.
  now destruct (clean_frame (sheet file)).
Qed.

(** X20.  [POST /api/preview] shows a ledger that can be cleaned as the
    records of the cleaned table, missing cells written as the empty text:
    all of them when the table has at most ten rows, and otherwise its
    first ten rows and its last one.  So the preview never has more than
    eleven records and always ends with the totals row; the columns are
    those of the cleaned table and [total_rows] counts the rows of the
    upload.  A ledger that cannot be cleaned is answered with status 400 and
    the text of the exception; products with an exchange rate of [object]
    dtype are left out of this part. *)
Theorem preview_shows_head_and_totals (file : xlsx_file) (s : server) :
  wf_frame (sheet file) ->
  match clean_result (init file) (s_heap s) with
  | Raise e =>
      rate_is_no_object (sheet file) ->
      fst (preview_file file s) = Raise (HTTPException 400 (App.str_exn e))
  | Ok out =>
      let records := Rows.to_dict_records (Rows.fillna (OStr "") out) in
      exists p : preview,
        fst (preview_file file s) = Ok p /\
        preview_rows p
        = (if (10 <? nrows out)%nat
           then take 10 records ++ drop (nrows out - 1) records
           else records)%list /\
        length (preview_rows p) = Nat.min 11 (nrows out) /\
        last (preview_rows p) = last records /\
        preview_columns p = labels out /\
        total_rows p = Z.of_nat (nrows (sheet file)) /\
        preview_columns_kept p = Z.of_nat (length (labels out))
  end.
Proof.
  intros Hwf. rewrite (clean_result_run (init file) (s_heap s) (sheet file)) by reflexivity.
  destruct (read_then_clean file s) as (h1 & p1 & Hrun).
  unfold preview_file, try_except, preview_file_try. cbv zeta. rewrite Hrun.
  destruct (clean_frame (sheet file)) as [out|e] eqn:Hclean; [|reflexivity].
  pose proof (cleaned_lens _ _ Hwf Hclean) as Hlens.
  pose proof (clean_frame_nrows _ _ Hclean) as Hn.
  unfold bind at 1. unfold on_heap at 1. cbn [s_heap s_drive s_mapper].
  unfold load. rewrite lookup_snoc. cbn [of_option].
  rewrite (records_filled (OStr "") out Hlens).
  set (row := filled_row (OStr "") out).
  assert (Hlen : length (map row (seq 0 (nrows out))) = nrows out)
    by now rewrite length_map, length_seq.
  assert (Hlast : last (map row (seq 0 (nrows out))) = Some (row (nrows out - 1)%nat)).
  { rewrite last_lookup, Hlen, lookup_map, lookup_seq_lt by lia. cbn. do 2 f_equal. lia. }
  destruct (10 <? nrows out)%nat eqn:Hbig.
  - apply Nat.ltb_lt in Hbig.
    assert (Hrows : Forall (fun i => (i < nrows out)%nat)
                           (seq 0 10 ++ [(nrows out - 1)%nat])%list).
    { apply Forall_app. split.
      - apply Forall_forall. intros i Hi%list_elem_of_In%in_seq. lia.
      - repeat constructor. lia. }
    destruct (iloc_ok _ _ Hlens Hrows) as (g & Hg & _).
    unfold bind at 1. unfold lift at 1. rewrite Hg.
    rewrite (records_picked (OStr "") _ out g Hlens Hrows Hg). fold row.
    unfold ret. cbn [fst]. eexists. split; [reflexivity|].
    cbn [preview_rows preview_columns total_rows preview_columns_kept].
    assert (Heq : map row (seq 0 10 ++ [(nrows out - 1)%nat])%list
                  = (take 10 (map row (seq 0 (nrows out)))
                     ++ drop (nrows out - 1) (map row (seq 0 (nrows out))))%list).
    { rewrite firstn_map, skipn_map, take_seq, drop_seq, map_app.
      replace (10 `min` nrows out)%nat with 10%nat by lia.
      replace (nrows out - (nrows out - 1))%nat with 1%nat by lia.
      reflexivity. }
    split; [exact Heq|]. split; [|split; [|split; [reflexivity|split; [lia|reflexivity]]]].
    + rewrite length_map, length_app, length_seq. cbn [length]. lia.
    + rewrite map_app, Hlast. cbn [map]. apply last_snoc.
  - apply Nat.ltb_ge in Hbig.
    unfold bind at 1. unfold ret. cbn [fst]. eexists. split; [reflexivity|].
    cbn [preview_rows preview_columns total_rows preview_columns_kept].
    rewrite (records_filled (OStr "") out Hlens). fold row.
    split; [reflexivity|]. split; [rewrite Hlen; lia|].
    split; [reflexivity|]. split; [reflexivity|]. split; [lia | reflexivity].
Qed.

End ApiMore.

Section ApiMoreExamples.
Import Pandas ExcelProcessor DriveHandler DriveClients Denote Table Api.
#[local] Existing Instance left_to_right.

Lemma create_client_registers_once_witness :
  CUITMapper.mapping
    (s_mapper (snd (Api.create_client "Taller Luna" "20111111112"
                      (mkserver [] (Tienda.drive Xlsx ["Enero"])
                                (CUITMapper.init (Some [("30716820080", "Panaderia Sol")]))))))
  = [("30716820080", "Panaderia Sol"); ("20111111112", "Taller Luna")].
Proof.
  pose (s := mkserver [] (Tienda.drive Xlsx ["Enero"])
                      (CUITMapper.init (Some [("30716820080", "Panaderia Sol")]))).
  assert (H : Api.create_client "Taller Luna" "20111111112" s
              = (Ok (mkresponse "Cliente 'Taller Luna' creado exitosamente"
                                "Taller Luna" "20111111112"),
                 snd (Api.create_client "Taller Luna" "20111111112" s)))
    by (vm_compute; reflexivity).
  assert (Hq : query_safe "Taller Luna") by (split; reflexivity).
  destruct (create_client_registers_once _ _ _ _ _ Hq H) as (_ & _ & Hm & _).
  exact Hm.
Defined.

Lemma edit_client_outcome_witness :
  CUITMapper.get "20111111112"
    (CUITMapper.mapping
       (s_mapper (snd (Api.edit_client "30716820080" "Panaderia Luna" "20111111112"
                         (mkserver [] (Tienda.drive Xlsx ["Enero"])
                                   (CUITMapper.init (Some [("30716820080", "Panaderia Sol")])))))))
  = Some "Panaderia Luna" /\
  s_drive (snd (Api.edit_client "30716820080" "Panaderia Luna" "20111111112"
                  (mkserver [] (Tienda.drive Xlsx ["Enero"])
                            (CUITMapper.init (Some [("30716820080", "Panaderia Sol")])))))
  = Tienda.drive Xlsx ["Enero"].
Proof.
  pose (s := mkserver [] (Tienda.drive Xlsx ["Enero"])
                      (CUITMapper.init (Some [("30716820080", "Panaderia Sol")]))).
  assert (Hnd : NoDup (map fst (CUITMapper.mapping (s_mapper s)))).
  { apply (bool_decide_unpack _). vm_compute. exact I. }
  assert (H : Api.edit_client "30716820080" "Panaderia Luna" "20111111112" s
              = (Ok (mkresponse "Cliente actualizado exitosamente"
                                "Panaderia Luna" "20111111112"),
                 snd (Api.edit_client "30716820080" "Panaderia Luna" "20111111112" s)))
    by (vm_compute; reflexivity).
  destruct (edit_client_outcome _ _ _ _ _ _ Hnd H) as (_ & Hdrive & _ & Hget & _).
  split; [exact Hget | exact Hdrive].
Defined.

Lemma sin_moneda_wf :
  wf_frame (mkframe 1 [("Fecha", SObject [OStr "15/03/2025"]); ("Tipo", SObject [OStr "NC"])]).
Proof.
  split.
  - apply (bool_decide_unpack _). vm_compute. exact I.
  - repeat constructor.
Qed.

(** The example is shown whole, with its totals row; a ledger without the
    marker is refused with the message of [clean_data]. *)
Lemma preview_shows_head_and_totals_witness :
  (exists p : preview,
     fst (preview_file Ejemplo.file (mkserver [] (Tienda.drive Xlsx ["Enero"])
                                              (CUITMapper.init None))) = Ok p /\
     length (preview_rows p) = 4%nat /\
     total_rows p = 3) /\
  fst (preview_file
         (mkxlsx ["Mis Comprobantes Emitidos - CUIT 30716820080"]
                 (mkframe 1 [("Fecha", SObject [OStr "15/03/2025"]);
                             ("Tipo", SObject [OStr "NC"])]))
         (mkserver [] (Tienda.drive Xlsx ["Enero"]) (CUITMapper.init None)))
  = Raise (HTTPException 400 "No se encontró la columna 'Moneda' en el Excel").
Proof.
  split.
  - pose proof (preview_shows_head_and_totals
                  Ejemplo.file
                  (mkserver [] (Tienda.drive Xlsx ["Enero"]) (CUITMapper.init None))
                  ejemplo_wf) as H.
    replace (clean_result (init Ejemplo.file)
               (s_heap (mkserver [] (Tienda.drive Xlsx ["Enero"]) (CUITMapper.init None))))
      with (Ok Ejemplo.ledger_cleaned : result DataFrame) in H by (vm_compute; reflexivity).
    destruct H as (p & Hp & _ & Hlen & _ & _ & Hrows & _).
    exists p. split; [exact Hp|]. split; [exact Hlen | exact Hrows].
  - pose proof (preview_shows_head_and_totals
                  (mkxlsx ["Mis Comprobantes Emitidos - CUIT 30716820080"]
                          (mkframe 1 [("Fecha", SObject [OStr "15/03/2025"]);
                                      ("Tipo", SObject [OStr "NC"])]))
                  (mkserver [] (Tienda.drive Xlsx ["Enero"]) (CUITMapper.init None))
                  sin_moneda_wf) as H.
    apply H. intros idx rate Hidx. vm_compute in Hidx. discriminate Hidx.
Defined.

End ApiMoreExamples.
